(** * gstvaapicontext.c: VA context abstraction

    A shallow embedding of [gst-libs/gst/vaapi/gstvaapicontext.c].

    The file drives a VA driver and a handful of GStreamer-VAAPI helper
    objects (surfaces, the surface pool, the overlay hooks, the object
    base class).  None of these lives in this file, so each of their
    calls is an entry of a call log ([Trace]), and the answer of every
    call that can fail is taken from an environment ([Env]) as a function
    of the log so far and of the call's arguments: any deterministic
    driver is such a function.  The context structure itself is a record
    that the embedded functions take and return. *)

From Stdlib Require Import ZArith List String Bool Lia.
Import ListNotations.
Local Open Scope Z_scope.

(** ** Machine integers and constants *)

(** [guint] arithmetic wraps modulo 2^32. *)
Definition to_guint (z : Z) : Z := z mod 2 ^ 32.

(** Constants of libva's [va.h]. *)
Definition VA_INVALID_ID : Z := 0xffffffff.
Definition VA_STATUS_SUCCESS : Z := 0.
Definition VA_RT_FORMAT_YUV420 : Z := 0x00000001.
Definition VA_RC_NONE : Z := 0x00000001.
Definition VA_PROGRESSIVE : Z := 0x1.
Definition VAConfigAttribRTFormat : Z := 0.
Definition VAConfigAttribRateControl : Z := 5.

(** [vaapi_check_status] of gstvaapiutils.c: the status is the success
    code (the helper's own debug message is not logged here). *)
Definition vaapi_check_status (status : Z) : bool :=
  status =? VA_STATUS_SUCCESS.

(** ** Data model *)

Record VAConfigAttrib := mkAttrib {
  attrib_type : Z;
  attrib_value : Z
}.

(** A [GstVaapiSurface *]: the address of the object and the VA surface
    id it was constructed with ([GST_VAAPI_OBJECT_ID (surface)]). *)
Record GstVaapiSurface := mkSurface {
  surface_addr : nat;
  surface_object_id : Z
}.

Record GstVaapiContextInfo := mkInfo {
  profile : Z;
  entrypoint : Z;
  rc_mode : Z;
  width : Z;
  height : Z;
  ref_frames : Z
}.

(** Modelled from the spec: the video pool of gstvaapivideopool.c, which
    is not part of this file.  It keeps a capacity and the free buffers;
    its size is the number of free buffers, and acquiring draws one free
    buffer or yields nothing when none is left. *)
Record GstVaapiVideoPool := mkPool {
  pool_capacity : Z;
  free_objects : list GstVaapiSurface
}.

(** [struct _GstVaapiContext]; [object_id] is [GST_VAAPI_OBJECT_ID] of
    the parent instance.  A [GPtrArray *] is [None] when NULL and its
    slots are pointers that may themselves be NULL.  The overlay arrays
    belong to gstvaapicontext_overlay.c and are seen through its hooks
    only. *)
Record GstVaapiContext := mkContext {
  object_id : Z;
  info : GstVaapiContextInfo;
  va_profile : Z;
  va_entrypoint : Z;
  va_config : Z;
  surfaces : option (list (option GstVaapiSurface));
  surfaces_pool : option GstVaapiVideoPool
}.

Definition set_object_id (c : GstVaapiContext) (v : Z) : GstVaapiContext :=
  mkContext v (info c) (va_profile c) (va_entrypoint c) (va_config c)
    (surfaces c) (surfaces_pool c).
Definition set_info (c : GstVaapiContext) (v : GstVaapiContextInfo)
  : GstVaapiContext :=
  mkContext (object_id c) v (va_profile c) (va_entrypoint c) (va_config c)
    (surfaces c) (surfaces_pool c).
Definition set_va_codes (c : GstVaapiContext) (p e : Z) : GstVaapiContext :=
  mkContext (object_id c) (info c) p e (va_config c)
    (surfaces c) (surfaces_pool c).
Definition set_va_config (c : GstVaapiContext) (v : Z) : GstVaapiContext :=
  mkContext (object_id c) (info c) (va_profile c) (va_entrypoint c) v
    (surfaces c) (surfaces_pool c).
Definition set_surfaces (c : GstVaapiContext)
    (v : option (list (option GstVaapiSurface))) : GstVaapiContext :=
  mkContext (object_id c) (info c) (va_profile c) (va_entrypoint c)
    (va_config c) v (surfaces_pool c).
Definition set_surfaces_pool (c : GstVaapiContext)
    (v : option GstVaapiVideoPool) : GstVaapiContext :=
  mkContext (object_id c) (info c) (va_profile c) (va_entrypoint c)
    (va_config c) (surfaces c) v.

Definition set_size (i : GstVaapiContextInfo) (w h : Z) : GstVaapiContextInfo :=
  mkInfo (profile i) (entrypoint i) (rc_mode i) w h (ref_frames i).
Definition set_codec (i : GstVaapiContextInfo) (p e : Z) : GstVaapiContextInfo :=
  mkInfo p e (rc_mode i) (width i) (height i) (ref_frames i).
Definition set_rc_mode (i : GstVaapiContextInfo) (rc : Z) : GstVaapiContextInfo :=
  mkInfo (profile i) (entrypoint i) rc (width i) (height i) (ref_frames i).

(** ** The call log *)

Inductive LogLevel := LDebug | LWarning | LError | LCritical.

Inductive LogMessage :=
| MsgContext (id : Z)                    (* "context 0x%08x" *)
| MsgDestroyContextFailed (id : Z)       (* "failed to destroy context 0x%08x" *)
| MsgDestroyConfigFailed (id : Z)        (* "failed to destroy config 0x%08x" *)
| MsgUnsupportedRateControl (name : string) (* "unsupported %s rate control" *)
| MsgCheckFailed (expr : string).        (* g_return_val_if_fail *)

Inductive Event :=
| EvDisplayLock
| EvDisplayUnlock
| EvVaDestroyContext (id status : Z)
| EvVaDestroyConfig (id status : Z)
| EvVaGetConfigAttributes (vprofile ventrypoint : Z)
    (attribs : list VAConfigAttrib) (status : Z)
| EvVaCreateConfig (vprofile ventrypoint : Z)
    (attribs : list VAConfigAttrib) (status config : Z)
| EvVaCreateContext (config w h flag : Z) (ids : list Z) (status id : Z)
| EvOverlayInit
| EvOverlayReset (ok : bool)
| EvOverlayFinalize
| EvPtrArrayNew (reserved : Z) (ok : bool)
| EvArraySizedNew (reserved : Z) (ok : bool)
| EvArrayFree
| EvSurfacePoolNew (w h : Z) (ok : bool)
| EvPoolSetCapacity (capacity : Z)
| EvPoolAddObject (s : GstVaapiSurface) (ok : bool)
| EvPoolUnref
| EvPoolGetObject (s : option GstVaapiSurface)
| EvSurfaceNew (w h : Z) (s : option GstVaapiSurface)
| EvSurfaceSetParent (s : GstVaapiSurface) (attached : bool)
| EvSurfaceUnref (s : GstVaapiSurface)
| EvObjectNew (ok : bool)
| EvObjectFree
| EvLog (level : LogLevel) (msg : LogMessage).

Definition Trace := list Event.

(** The calls that reach the VA driver. *)
Definition is_hardware_call (e : Event) : bool :=
  match e with
  | EvVaDestroyContext _ _ | EvVaDestroyConfig _ _
  | EvVaGetConfigAttributes _ _ _ _ | EvVaCreateConfig _ _ _ _ _
  | EvVaCreateContext _ _ _ _ _ _ _ => true
  | _ => false
  end.

Definition hardware_calls (tr : Trace) : Trace := filter is_hardware_call tr.

(** The calls that build or release surfaces, their array or their pool. *)
Definition is_surface_call (e : Event) : bool :=
  match e with
  | EvOverlayReset _ | EvPtrArrayNew _ _ | EvSurfacePoolNew _ _ _
  | EvPoolSetCapacity _ | EvPoolAddObject _ _ | EvPoolUnref
  | EvSurfaceNew _ _ _ | EvSurfaceSetParent _ _ | EvSurfaceUnref _ => true
  | _ => false
  end.

Definition surface_calls (tr : Trace) : Trace := filter is_surface_call tr.

(** ** The environment

    What this file takes from the rest of the library and from the
    driver.  The enumeration value and the three conversions are
    declared in gstvaapiprofile.h and gstvaapiutils.c; the other fields
    answer the calls that can fail, given the log so far. *)
Record Env := mkEnv {
  GST_VAAPI_ENTRYPOINT_SLICE_ENCODE : Z;
  gst_vaapi_profile_get_va_profile : Z -> Z;
  gst_vaapi_entrypoint_get_va_entrypoint : Z -> Z;
  from_GstVaapiRateControl : Z -> Z;
  string_of_VARateControl : Z -> string;
  (* status *)
  vaDestroyContext : Trace -> Z -> Z;
  vaDestroyConfig : Trace -> Z -> Z;
  (* status, and the value of each attribute type asked for *)
  vaGetConfigAttributes : Trace -> Z -> Z -> list Z -> Z * (Z -> Z);
  (* status, and the id the driver stores through the last argument, if
     it stores one *)
  vaCreateConfig : Trace -> Z -> Z -> list VAConfigAttrib -> Z * option Z;
  (* status, and the id stored through the last argument *)
  vaCreateContext : Trace -> Z -> Z -> Z -> Z -> list Z -> Z * Z;
  gst_vaapi_context_overlay_reset : Trace -> bool;
  g_ptr_array_new_full : Trace -> Z -> bool;
  g_array_sized_new : Trace -> Z -> bool;
  gst_vaapi_surface_pool_new : Trace -> Z -> Z -> bool;
  gst_vaapi_surface_new : Trace -> Z -> Z -> option GstVaapiSurface;
  gst_vaapi_video_pool_add_object : Trace -> GstVaapiSurface -> bool;
  gst_vaapi_object_new : Trace -> bool
}.

(** ** A monad for logged calls *)

Definition M (A : Type) : Type := Trace -> A * Trace.

Definition ret {A} (a : A) : M A := fun tr => (a, tr).
Definition bind {A B} (m : M A) (k : A -> M B) : M B :=
  fun tr => let (a, tr') := m tr in k a tr'.
Definition emit (e : Event) : M unit := fun tr => (tt, tr ++ [e]).
(** Ask the environment with the log so far, then log the call. *)
Definition ask {A} (answer : Trace -> A) (ev : A -> Event) : M A :=
  fun tr => let a := answer tr in (a, tr ++ [ev a]).
Definition when (b : bool) (m : M unit) : M unit :=
  if b then m else ret tt.

Declare Scope ctx_scope.
Delimit Scope ctx_scope with ctx.
Notation "x <- c1 ;; c2" := (bind c1 (fun x => c2))
  (at level 61, c1 at next level, right associativity) : ctx_scope.
Notation "' pat <- c1 ;; c2" :=
  (bind c1 (fun x => match x with pat => c2 end))
  (at level 61, pat pattern, c1 at next level, right associativity) : ctx_scope.
Notation "c1 ;; c2" := (bind c1 (fun _ => c2))
  (at level 61, right associativity) : ctx_scope.
Local Open Scope ctx_scope.

Section Calls.
Variable env : Env.

Definition GST_VAAPI_DISPLAY_LOCK : M unit := emit EvDisplayLock.
Definition GST_VAAPI_DISPLAY_UNLOCK : M unit := emit EvDisplayUnlock.
Definition GST_LOG (l : LogLevel) (m : LogMessage) : M unit :=
  emit (EvLog l m).

Definition call_vaDestroyContext (id : Z) : M Z :=
  ask (fun tr => vaDestroyContext env tr id) (EvVaDestroyContext id).

Definition call_vaDestroyConfig (id : Z) : M Z :=
  ask (fun tr => vaDestroyConfig env tr id) (EvVaDestroyConfig id).

(** The driver fills in the value of every attribute of the array. *)
Definition call_vaGetConfigAttributes (vp ve : Z) (types : list Z)
  : M (Z * list VAConfigAttrib) :=
  ask (fun tr =>
         let (status, value) := vaGetConfigAttributes env tr vp ve types in
         (status, map (fun t => mkAttrib t (to_guint (value t))) types))
      (fun r => EvVaGetConfigAttributes vp ve (snd r) (fst r)).

(** The last argument of [vaCreateConfig] is the address of a
    [VAConfigID]: [config] is what it holds before the call, and the
    second component of the result what it holds after it. *)
Definition call_vaCreateConfig (vp ve : Z) (attribs : list VAConfigAttrib)
    (config : Z) : M (Z * Z) :=
  ask (fun tr =>
         let (status, id) := vaCreateConfig env tr vp ve attribs in
         (status, match id with Some id => to_guint id | None => config end))
      (fun r => EvVaCreateConfig vp ve attribs (fst r) (snd r)).

Definition call_vaCreateContext (config w h flag : Z) (ids : list Z)
  : M (Z * Z) :=
  ask (fun tr =>
         let (status, id) := vaCreateContext env tr config w h flag ids in
         (status, to_guint id))
      (fun r => EvVaCreateContext config w h flag ids (fst r) (snd r)).

Definition call_overlay_reset : M bool :=
  ask (gst_vaapi_context_overlay_reset env) EvOverlayReset.

Definition call_g_ptr_array_new_full (reserved : Z) : M bool :=
  ask (fun tr => g_ptr_array_new_full env tr reserved)
      (EvPtrArrayNew reserved).

Definition call_g_array_sized_new (reserved : Z) : M bool :=
  ask (fun tr => g_array_sized_new env tr reserved)
      (EvArraySizedNew reserved).

Definition call_surface_pool_new (w h : Z) : M bool :=
  ask (fun tr => gst_vaapi_surface_pool_new env tr w h)
      (EvSurfacePoolNew w h).

Definition call_surface_new (w h : Z) : M (option GstVaapiSurface) :=
  ask (fun tr => gst_vaapi_surface_new env tr w h) (EvSurfaceNew w h).

Definition call_object_new : M bool :=
  ask (gst_vaapi_object_new env) EvObjectNew.

(** Modelled from the spec: [gst_vaapi_video_pool_set_capacity] of
    gstvaapivideopool.c stores the capacity of the pool. *)
Definition gst_vaapi_video_pool_set_capacity (p : GstVaapiVideoPool)
    (capacity : Z) : M GstVaapiVideoPool :=
  emit (EvPoolSetCapacity capacity) ;;
  ret (mkPool capacity (free_objects p)).

(** Modelled from the spec: [gst_vaapi_video_pool_add_object] of
    gstvaapivideopool.c registers a buffer as a free buffer of the pool,
    unless the registration fails. *)
Definition call_video_pool_add_object (p : GstVaapiVideoPool)
    (s : GstVaapiSurface) : M (GstVaapiVideoPool * bool) :=
  ok <- ask (fun tr => gst_vaapi_video_pool_add_object env tr s)
            (EvPoolAddObject s) ;;
  ret (if ok then mkPool (pool_capacity p) (free_objects p ++ [s]) else p,
       ok).

(** Modelled from the spec: [gst_vaapi_video_pool_get_size] of
    gstvaapivideopool.c is the current number of free buffers (a
    [guint]; nothing for a NULL pool). *)
Definition gst_vaapi_video_pool_get_size (p : option GstVaapiVideoPool)
  : Z :=
  match p with
  | None => 0
  | Some p => to_guint (Z.of_nat (List.length (free_objects p)))
  end.

(** Modelled from the spec: [gst_vaapi_video_pool_replace (&pool, NULL)]
    of gstvaapivideopool_priv.h releases the pool, if there is one. *)
Definition gst_vaapi_video_pool_replace_null
    (p : option GstVaapiVideoPool) : M (option GstVaapiVideoPool) :=
  when (match p with Some _ => true | None => false end) (emit EvPoolUnref) ;;
  ret None.

(** *** [unref_surface_cb] and [g_ptr_array_unref] *)

Definition unref_surface_cb (surface : option GstVaapiSurface) : M unit :=
  match surface with
  | None => ret tt
  | Some s =>
      emit (EvSurfaceSetParent s false) ;;
      emit (EvSurfaceUnref s)
  end.

(** The array is owned by the context alone: dropping the reference
    runs the element destructor on every slot, in order. *)
Fixpoint g_ptr_array_unref (arr : list (option GstVaapiSurface)) : M unit :=
  match arr with
  | [] => ret tt
  | s :: rest => unref_surface_cb s ;; g_ptr_array_unref rest
  end.

(** *** [context_destroy_surfaces] *)

Definition context_destroy_surfaces (context : GstVaapiContext)
  : M GstVaapiContext :=
  _ <- call_overlay_reset ;;
  context <- match surfaces context with
             | Some arr =>
                 g_ptr_array_unref arr ;;
                 ret (set_surfaces context None)
             | None => ret context
             end ;;
  pool <- gst_vaapi_video_pool_replace_null (surfaces_pool context) ;;
  ret (set_surfaces_pool context pool).

(** *** [context_destroy] *)

Definition context_destroy (context : GstVaapiContext) : M GstVaapiContext :=
  let context_id := object_id context in
  GST_LOG LDebug (MsgContext context_id) ;;
  context <- (if negb (context_id =? VA_INVALID_ID) then
                GST_VAAPI_DISPLAY_LOCK ;;
                status <- call_vaDestroyContext context_id ;;
                GST_VAAPI_DISPLAY_UNLOCK ;;
                when (negb (vaapi_check_status status))
                  (GST_LOG LWarning (MsgDestroyContextFailed context_id)) ;;
                ret (set_object_id context VA_INVALID_ID)
              else ret context) ;;
  if negb (va_config context =? VA_INVALID_ID) then
    GST_VAAPI_DISPLAY_LOCK ;;
    status <- call_vaDestroyConfig (va_config context) ;;
    GST_VAAPI_DISPLAY_UNLOCK ;;
    when (negb (vaapi_check_status status))
      (GST_LOG LWarning (MsgDestroyConfigFailed (va_config context))) ;;
    ret (set_va_config context VA_INVALID_ID)
  else ret context.

(** *** [context_create_surfaces] *)

(** Number of scratch surfaces beyond those used as reference. *)
Definition SCRATCH_SURFACES_COUNT : Z := 4.

(** [array->len], a [guint]. *)
Definition g_ptr_array_len (arr : list (option GstVaapiSurface)) : Z :=
  to_guint (Z.of_nat (List.length arr)).

(** The body of the [for] loop, run for the [n] indices that are left
    between [i] and [num_surfaces]. *)
Fixpoint create_surfaces_loop (n : nat) (w h : Z)
    (arr : list (option GstVaapiSurface)) (pool : GstVaapiVideoPool)
  : M (list (option GstVaapiSurface) * GstVaapiVideoPool * bool) :=
  match n with
  | O => ret (arr, pool, true)
  | S n' =>
      surface <- call_surface_new w h ;;
      match surface with
      | None => ret (arr, pool, false)
      | Some s =>
          emit (EvSurfaceSetParent s true) ;;
          let arr := arr ++ [Some s] in
          '(pool, ok) <- call_video_pool_add_object pool s ;;
          if negb ok then ret (arr, pool, false)
          else create_surfaces_loop n' w h arr pool
      end
  end.

Definition context_create_surfaces (context : GstVaapiContext)
  : M (GstVaapiContext * bool) :=
  let cip := info context in
  ok <- call_overlay_reset ;;
  if negb ok then ret (context, false) else
  let num_surfaces := to_guint (ref_frames cip + SCRATCH_SURFACES_COUNT) in
  a <- match surfaces context with
       | Some arr => ret (Some arr)
       | None =>
           ok <- call_g_ptr_array_new_full num_surfaces ;;
           ret (if ok then Some [] else None)
       end ;;
  match a with
  | None => ret (context, false)
  | Some arr =>
      let context := set_surfaces context (Some arr) in
      p <- match surfaces_pool context with
           | Some pool => ret (Some pool)
           | None =>
               ok <- call_surface_pool_new (width cip) (height cip) ;;
               ret (if ok then Some (mkPool 0 []) else None)
           end ;;
      match p with
      | None => ret (context, false)
      | Some pool =>
          pool <- gst_vaapi_video_pool_set_capacity pool num_surfaces ;;
          '(arr, pool, ok) <-
            create_surfaces_loop
              (Z.to_nat (num_surfaces - g_ptr_array_len arr))
              (width cip) (height cip) arr pool ;;
          ret (set_surfaces_pool (set_surfaces context (Some arr)) (Some pool),
               ok)
      end
  end.

(** *** [context_create] *)

(** The first loop of [context_create]: the VA ids of the surfaces, or
    nothing when a slot is NULL. *)
Fixpoint surface_ids (arr : list (option GstVaapiSurface)) : option (list Z) :=
  match arr with
  | [] => Some []
  | None :: _ => None
  | Some s :: rest =>
      match surface_ids rest with
      | Some ids => Some (to_guint (surface_object_id s) :: ids)
      | None => None
      end
  end.

Definition attrib_value_at (attribs : list VAConfigAttrib) (i : nat) : Z :=
  attrib_value (nth i attribs (mkAttrib 0 0)).

Fixpoint set_attrib_value (attribs : list VAConfigAttrib) (i : nat) (v : Z)
  : list VAConfigAttrib :=
  match attribs, i with
  | [], _ => []
  | a :: rest, O => mkAttrib (attrib_type a) v :: rest
  | a :: rest, S i' => a :: set_attrib_value rest i' v
  end.

(** [vaCreateConfig] is given the address of the field [va_config]:
    what the driver leaves there stays in the context, also when the
    call fails.  [vaCreateContext] is given the address of the local
    [context_id], which is copied to the object on success only. *)
Definition context_create (context : GstVaapiContext)
  : M (GstVaapiContext * bool) :=
  '(context, ok) <- match surfaces context with
                    | None => context_create_surfaces context
                    | Some _ => ret (context, true)
                    end ;;
  if negb ok then ret (context, false) else
  match surfaces context with
  | None => ret (context, false)
  | Some arr =>
      ok <- call_g_array_sized_new (g_ptr_array_len arr) ;;
      if negb ok then ret (context, false) else
      r <- match surface_ids arr with
           | None => ret (context, false)
           | Some ids =>
               let cip := info context in
               if (profile cip =? 0) || (entrypoint cip =? 0)
               then ret (context, false) else
               let vp := gst_vaapi_profile_get_va_profile env (profile cip) in
               let ve :=
                 gst_vaapi_entrypoint_get_va_entrypoint env (entrypoint cip) in
               let context := set_va_codes context vp ve in
               let encode :=
                 entrypoint cip =? GST_VAAPI_ENTRYPOINT_SLICE_ENCODE env in
               let types :=
                 VAConfigAttribRTFormat ::
                 (if encode then [VAConfigAttribRateControl] else []) in
               GST_VAAPI_DISPLAY_LOCK ;;
               '(status, attribs) <- call_vaGetConfigAttributes vp ve types ;;
               GST_VAAPI_DISPLAY_UNLOCK ;;
               if negb (vaapi_check_status status) then ret (context, false)
               else
               if Z.land (attrib_value_at attribs 0) VA_RT_FORMAT_YUV420 =? 0
               then ret (context, false) else
               a <- (if encode then
                       let va_rate_control :=
                         to_guint (from_GstVaapiRateControl env (rc_mode cip)) in
                       let attribs :=
                         if va_rate_control =? VA_RC_NONE
                         then set_attrib_value attribs 1 VA_RC_NONE
                         else attribs in
                       if negb (Z.land (attrib_value_at attribs 1)
                                  va_rate_control =? va_rate_control)
                       then
                         GST_LOG LError
                           (MsgUnsupportedRateControl
                              (string_of_VARateControl env va_rate_control)) ;;
                         ret None
                       else ret (Some (set_attrib_value attribs 1
                                         va_rate_control))
                     else ret (Some attribs)) ;;
               match a with
               | None => ret (context, false)
               | Some attribs =>
                   GST_VAAPI_DISPLAY_LOCK ;;
                   '(status, config) <-
                     call_vaCreateConfig vp ve attribs (va_config context) ;;
                   GST_VAAPI_DISPLAY_UNLOCK ;;
                   let context := set_va_config context config in
                   if negb (vaapi_check_status status)
                   then ret (context, false) else
                   GST_VAAPI_DISPLAY_LOCK ;;
                   '(status, context_id) <-
                     call_vaCreateContext config (width cip) (height cip)
                       VA_PROGRESSIVE ids ;;
                   GST_VAAPI_DISPLAY_UNLOCK ;;
                   if negb (vaapi_check_status status)
                   then ret (context, false) else
                   GST_LOG LDebug (MsgContext context_id) ;;
                   ret (set_object_id context context_id, true)
               end
           end ;;
      emit EvArrayFree ;;
      ret r
  end.

(** *** Construction and finalization *)

Definition gst_vaapi_context_init (context : GstVaapiContext)
    (cip : GstVaapiContextInfo) : M GstVaapiContext :=
  let context := set_info context cip in
  let context := set_va_config context VA_INVALID_ID in
  emit EvOverlayInit ;;
  ret context.

Definition gst_vaapi_context_finalize (context : GstVaapiContext)
  : M GstVaapiContext :=
  context <- context_destroy context ;;
  context <- context_destroy_surfaces context ;;
  emit EvOverlayFinalize ;;
  ret context.

(** Modelled from the spec: the object base class of gstvaapiobject.c.
    A new object has the invalid sentinel as its id (the handle is "not
    created") and holds no surface set and no pool; its other fields are
    zero.  Dropping the only reference of a session tears it down
    (finalization) and frees it. *)
Definition gst_vaapi_object_new_context : M (option GstVaapiContext) :=
  ok <- call_object_new ;;
  ret (if ok
       then Some (mkContext VA_INVALID_ID (mkInfo 0 0 0 0 0 0) 0 0 0 None None)
       else None).

Definition gst_vaapi_object_unref_context (context : GstVaapiContext)
  : M unit :=
  _ <- gst_vaapi_context_finalize context ;;
  emit EvObjectFree.

(** [g_return_val_if_fail]: log the failed check. *)
Definition g_return_if_fail_warning (expr : string) : M unit :=
  GST_LOG LCritical (MsgCheckFailed expr).

Definition gst_vaapi_context_new (cip : GstVaapiContextInfo)
  : M (option GstVaapiContext) :=
  if profile cip =? 0 then
    g_return_if_fail_warning "cip->profile" ;; ret None
  else if entrypoint cip =? 0 then
    g_return_if_fail_warning "cip->entrypoint" ;; ret None
  else if negb (width cip >? 0) then
    g_return_if_fail_warning "cip->width > 0" ;; ret None
  else if negb (height cip >? 0) then
    g_return_if_fail_warning "cip->height > 0" ;; ret None
  else
    c <- gst_vaapi_object_new_context ;;
    match c with
    | None => ret None
    | Some context =>
        context <- gst_vaapi_context_init context cip ;;
        '(context, ok) <- context_create context ;;
        if negb ok then
          gst_vaapi_object_unref_context context ;;
          ret None
        else ret (Some context)
    end.

(** *** [gst_vaapi_context_reset] *)

Definition gst_vaapi_context_reset (context : GstVaapiContext)
    (new_cip : GstVaapiContextInfo) : M (GstVaapiContext * bool) :=
  let cip := info context in
  let size_changed :=
    negb (width cip =? width new_cip) || negb (height cip =? height new_cip) in
  let cip :=
    if size_changed then set_size cip (width new_cip) (height new_cip)
    else cip in
  let config_changed :=
    negb (profile cip =? profile new_cip) ||
    negb (entrypoint cip =? entrypoint new_cip) in
  let cip :=
    if config_changed then set_codec cip (profile new_cip) (entrypoint new_cip)
    else cip in
  let rc_changed :=
    (entrypoint new_cip =? GST_VAAPI_ENTRYPOINT_SLICE_ENCODE env) &&
    negb (rc_mode cip =? rc_mode new_cip) in
  let cip := if rc_changed then set_rc_mode cip (rc_mode new_cip) else cip in
  let config_changed := if rc_changed then true else config_changed in
  let context := set_info context cip in
  context <- (if size_changed then context_destroy_surfaces context
              else ret context) ;;
  context <- (if config_changed then context_destroy context
              else ret context) ;;
  '(context, ok) <- (if size_changed then context_create_surfaces context
                     else ret (context, true)) ;;
  if negb ok then ret (context, false) else
  '(context, ok) <- (if config_changed then context_create context
                     else ret (context, true)) ;;
  if negb ok then ret (context, false) else
  ret (context, true).

(** *** Accessors; a [GstVaapiContext *] argument is [None] when NULL *)

Definition gst_vaapi_context_get_id (context : option GstVaapiContext) : M Z :=
  match context with
  | None => g_return_if_fail_warning "context != NULL" ;; ret VA_INVALID_ID
  | Some context => ret (object_id context)
  end.

(** Modelled from the spec: [gst_vaapi_surface_proxy_new_from_pool] of
    gstvaapisurfaceproxy.c draws one buffer from the pool and wraps it,
    or returns nothing when the pool is exhausted (or absent). *)
Definition gst_vaapi_surface_proxy_new_from_pool
    (pool : option GstVaapiVideoPool)
  : M (option GstVaapiVideoPool * option GstVaapiSurface) :=
  match pool with
  | None => ret (None, None)
  | Some p =>
      match free_objects p with
      | [] => emit (EvPoolGetObject None) ;; ret (Some p, None)
      | s :: rest =>
          emit (EvPoolGetObject (Some s)) ;;
          ret (Some (mkPool (pool_capacity p) rest), Some s)
      end
  end.

Definition gst_vaapi_context_get_surface_proxy
    (context : option GstVaapiContext)
  : M (option GstVaapiContext * option GstVaapiSurface) :=
  match context with
  | None => g_return_if_fail_warning "context != NULL" ;; ret (None, None)
  | Some context =>
      '(pool, proxy) <-
        gst_vaapi_surface_proxy_new_from_pool (surfaces_pool context) ;;
      ret (Some (set_surfaces_pool context pool), proxy)
  end.

Definition gst_vaapi_context_get_surface_count
    (context : option GstVaapiContext) : M Z :=
  match context with
  | None => g_return_if_fail_warning "context != NULL" ;; ret 0
  | Some context => ret (gst_vaapi_video_pool_get_size (surfaces_pool context))
  end.

(** [out_value_ptr] is given as whether it is non-NULL; the second
    component of the result is the value stored through it, if any. *)
Definition gst_vaapi_context_get_attribute (context : option GstVaapiContext)
    (type : Z) (out_value_ptr : bool) : M (bool * option Z) :=
  match context with
  | None =>
      g_return_if_fail_warning "context != NULL" ;; ret (false, None)
  | Some context =>
      GST_VAAPI_DISPLAY_LOCK ;;
      '(status, attribs) <-
        call_vaGetConfigAttributes (va_profile context) (va_entrypoint context)
          [type] ;;
      GST_VAAPI_DISPLAY_UNLOCK ;;
      if negb (vaapi_check_status status) then ret (false, None) else
      ret (true,
           if out_value_ptr then Some (attrib_value_at attribs 0) else None)
  end.

End Calls.

(** ** Properties of logged computations *)

(** [m] only adds to the log, and adds no event selected by [p]. *)
Definition quiet {A} (p : Event -> bool) (m : M A) : Prop :=
  forall tr, exists delta, snd (m tr) = tr ++ delta /\ filter p delta = [].

(** Whatever the log, the value [m] returns satisfies [P]. *)
Definition returns {A} (P : A -> Prop) (m : M A) : Prop :=
  forall tr, P (fst (m tr)).

(** The libva contract for [vaCreateContext]: a call that reports
    success has stored a valid context id. *)
Definition driver_returns_valid_context_ids (env : Env) : Prop :=
  forall tr config w h flag ids,
    fst (vaCreateContext env tr config w h flag ids) = VA_STATUS_SUCCESS ->
    to_guint (snd (vaCreateContext env tr config w h flag ids))
      <> VA_INVALID_ID.

(** The log of one guarded destroy step of [context_destroy]. *)
Definition destroy_step_events (id status : Z) (call : Z -> Z -> Event)
    (failed : Z -> LogMessage) : list Event :=
  if id =? VA_INVALID_ID then []
  else [EvDisplayLock; call id status; EvDisplayUnlock] ++
       (if vaapi_check_status status then [] else [EvLog LWarning (failed id)]).

(** The log of [g_ptr_array_unref] on the surface array. *)
Definition unref_events (arr : list (option GstVaapiSurface)) : list Event :=
  flat_map (fun slot => match slot with
                        | Some s => [EvSurfaceSetParent s false;
                                     EvSurfaceUnref s]
                        | None => []
                        end) arr.

(** The log of releasing the array and the pool of a context. *)
Definition release_events (context : GstVaapiContext) : list Event :=
  match surfaces context with Some arr => unref_events arr | None => [] end ++
  match surfaces_pool context with Some _ => [EvPoolUnref] | None => [] end.

Definition is_create_call (e : Event) : bool :=
  match e with
  | EvVaCreateConfig _ _ _ _ _ | EvVaCreateContext _ _ _ _ _ _ _ => true
  | _ => false
  end.

Definition any_event (e : Event) : bool := true.

Definition is_error_log (e : Event) : bool :=
  match e with
  | EvLog LError _ => true
  | _ => false
  end.

(** From the log [queried], [r] went on to create a configuration with
    the attribute list [attribs], and reported no error. *)
Definition config_creation_proceeds (vp ve : Z) (attribs : list VAConfigAttrib)
    (queried : Trace) (r : GstVaapiContext * bool * Trace) : Prop :=
  exists status config rest,
    snd r =
      queried ++
      [EvDisplayLock; EvVaCreateConfig vp ve attribs status config] ++ rest /\
    filter is_error_log rest = [].

(** The descriptor, the two handles and the cached VA codes of [c'] are
    those of [c]. *)
Definition same_handles (c c' : GstVaapiContext) : Prop :=
  object_id c' = object_id c /\ info c' = info c /\
  va_profile c' = va_profile c /\ va_entrypoint c' = va_entrypoint c /\
  va_config c' = va_config c.

(** The array and the pool of [c'] are those of [c]. *)
Definition same_surfaces (c c' : GstVaapiContext) : Prop :=
  surfaces c' = surfaces c /\ surfaces_pool c' = surfaces_pool c.

(** [num_surfaces] of [context_create_surfaces]. *)
Definition num_surfaces (cip : GstVaapiContextInfo) : Z :=
  to_guint (ref_frames cip + SCRATCH_SURFACES_COUNT).

(** [context] holds a full, freshly built surface set: [num_surfaces]
    buffers, each registered in the array and free in the pool. *)
Definition fresh_surface_set (context : GstVaapiContext) : Prop :=
  exists new,
    List.length new = Z.to_nat (num_surfaces (info context)) /\
    surfaces context = Some (map Some new) /\
    surfaces_pool context =
      Some (mkPool (num_surfaces (info context)) new).

(** What [context_create] has done when it returns [r] from [context]
    and the log [tr].  On success every step was taken and succeeded:
    the ids of all surfaces were collected, the capability query, the
    configuration and the context were obtained from the driver in this
    order, the format and rate-control checks passed, and the context id
    is the one the driver returned last.  On failure the stored context
    id is the one found on entry. *)
Definition context_create_outcome (env : Env) (context : GstVaapiContext)
    (tr : Trace) (r : GstVaapiContext * bool * Trace) : Prop :=
  let context' := fst (fst r) in
  let cip := info context in
  let vp := gst_vaapi_profile_get_va_profile env (profile cip) in
  let ve := gst_vaapi_entrypoint_get_va_entrypoint env (entrypoint cip) in
  let rc := to_guint (from_GstVaapiRateControl env (rc_mode cip)) in
  if snd (fst r)
  then exists arr ids queried attribs config,
      surfaces context' = Some arr /\ surface_ids arr = Some ids /\
      profile cip <> 0 /\ entrypoint cip <> 0 /\
      Z.land (attrib_value_at queried 0) VA_RT_FORMAT_YUV420 <> 0 /\
      (entrypoint cip = GST_VAAPI_ENTRYPOINT_SLICE_ENCODE env ->
       rc = VA_RC_NONE \/ Z.land (attrib_value_at queried 1) rc = rc) /\
      hardware_calls (snd r) =
        hardware_calls tr ++
        [EvVaGetConfigAttributes vp ve queried VA_STATUS_SUCCESS;
         EvVaCreateConfig vp ve attribs VA_STATUS_SUCCESS config;
         EvVaCreateContext config (width cip) (height cip) VA_PROGRESSIVE
           ids VA_STATUS_SUCCESS (object_id context')] /\
      va_config context' = config
  else object_id context' = object_id context.

(** *** [gst_vaapi_context_reset] taken apart

    The two change flags, the descriptor that is stored, and the
    teardown and rebuild steps that follow; [reset_decompose] below shows
    that the function is their composition. *)
Definition reset_size_changed (cip new_cip : GstVaapiContextInfo) : bool :=
  negb (width cip =? width new_cip) || negb (height cip =? height new_cip).

Definition reset_config_changed (env : Env)
    (cip new_cip : GstVaapiContextInfo) : bool :=
  negb (profile cip =? profile new_cip) ||
  negb (entrypoint cip =? entrypoint new_cip) ||
  (entrypoint new_cip =? GST_VAAPI_ENTRYPOINT_SLICE_ENCODE env) &&
  negb (rc_mode cip =? rc_mode new_cip).

Definition reset_descriptor (env : Env) (cip new_cip : GstVaapiContextInfo)
  : GstVaapiContextInfo :=
  mkInfo (profile new_cip) (entrypoint new_cip)
    (if entrypoint new_cip =? GST_VAAPI_ENTRYPOINT_SLICE_ENCODE env
     then rc_mode new_cip else rc_mode cip)
    (width new_cip) (height new_cip) (ref_frames cip).

Definition reset_rebuild (env : Env) (size_changed config_changed : bool)
    (context : GstVaapiContext) : M (GstVaapiContext * bool) :=
  context <- (if size_changed then context_destroy_surfaces env context
              else ret context) ;;
  context <- (if config_changed then context_destroy env context
              else ret context) ;;
  '(context, ok) <- (if size_changed then context_create_surfaces env context
                     else ret (context, true)) ;;
  if negb ok then ret (context, false) else
  '(context, ok) <- (if config_changed then context_create env context
                     else ret (context, true)) ;;
  if negb ok then ret (context, false) else
  ret (context, true).

(** ** Sample environments *)

Definition GST_VAAPI_RATECONTROL_CBR : Z := 2.
Definition GST_VAAPI_RATECONTROL_VBR : Z := 4.

(** The rate-control conversion of gstvaapiutils.c, as in the upstream
    table: NONE, CQP, CBR, VCM, VBR, VBR_CONSTRAINED; anything else maps
    to [VA_RC_NONE]. *)
Definition sample_from_GstVaapiRateControl (v : Z) : Z :=
  if v =? 1 then 0x10
  else if v =? 2 then 0x02
  else if v =? 3 then 0x08
  else if v =? 4 then 0x04
  else if v =? 5 then 0x20
  else VA_RC_NONE.

Definition sample_string_of_VARateControl (v : Z) : string :=
  if v =? 0x01 then "NONE"
  else if v =? 0x02 then "CBR"
  else if v =? 0x04 then "VBR"
  else if v =? 0x08 then "VCM"
  else if v =? 0x10 then "CQP"
  else if v =? 0x20 then "VBR_CONSTRAINED"
  else "<unknown>".

(** A driver that advertises the formats [rt_formats] and the
    rate-control bits [rc_caps], and where every call succeeds except the overlay resets selected by
    [overlay_ok]. *)
Definition sample_env_with (rt_formats rc_caps : Z)
    (overlay_ok : Trace -> bool) : Env :=
  mkEnv 4 (fun p => p) (fun e => e)
    sample_from_GstVaapiRateControl sample_string_of_VARateControl
    (fun _ _ => VA_STATUS_SUCCESS)
    (fun _ _ => VA_STATUS_SUCCESS)
    (fun _ _ _ _ =>
       (VA_STATUS_SUCCESS,
        fun t => if t =? VAConfigAttribRTFormat then rt_formats
                 else rc_caps))
    (fun _ _ _ _ => (VA_STATUS_SUCCESS, Some 0x02000000))
    (fun _ _ _ _ _ _ => (VA_STATUS_SUCCESS, 0x03000000))
    overlay_ok
    (fun _ _ => true)
    (fun _ _ => true)
    (fun _ _ _ => true)
    (fun tr _ _ =>
       Some (mkSurface (List.length tr) (Z.of_nat (List.length tr))))
    (fun _ _ => true)
    (fun _ => true).

(** 4:2:0 and CBR, VBR and CQP are supported. *)
Definition sample_env : Env :=
  sample_env_with VA_RT_FORMAT_YUV420 0x16 (fun _ => true).

(** 4:2:2 only (VA_RT_FORMAT_YUV422). *)
Definition sample_env_yuv422 : Env :=
  sample_env_with 0x00000002 0x16 (fun _ => true).

(** VBR and CQP only: no CBR. *)
Definition sample_env_no_cbr : Env :=
  sample_env_with VA_RT_FORMAT_YUV420 0x14 (fun _ => true).

(** [sample_env] with a driver that fails to destroy anything
    (VA_STATUS_ERROR_OPERATION_FAILED). *)
Definition sample_env_destroy_fails : Env :=
  mkEnv (GST_VAAPI_ENTRYPOINT_SLICE_ENCODE sample_env)
    (gst_vaapi_profile_get_va_profile sample_env)
    (gst_vaapi_entrypoint_get_va_entrypoint sample_env)
    (from_GstVaapiRateControl sample_env)
    (string_of_VARateControl sample_env)
    (fun _ _ => 1)
    (fun _ _ => 1)
    (vaGetConfigAttributes sample_env)
    (vaCreateConfig sample_env)
    (vaCreateContext sample_env)
    (gst_vaapi_context_overlay_reset sample_env)
    (g_ptr_array_new_full sample_env)
    (g_array_sized_new sample_env)
    (gst_vaapi_surface_pool_new sample_env)
    (gst_vaapi_surface_new sample_env)
    (gst_vaapi_video_pool_add_object sample_env)
    (gst_vaapi_object_new sample_env).

(** The same driver, where the third overlay reset of the log fails. *)
Definition overlay_resets (tr : Trace) : nat :=
  List.length (filter (fun e => match e with
                                | EvOverlayReset _ => true
                                | _ => false
                                end) tr).

Definition sample_env_overlay_fails : Env :=
  sample_env_with VA_RT_FORMAT_YUV420 0x16 (fun tr => negb (Nat.eqb (overlay_resets tr) 2)).

(** A decoder descriptor (entry point VLD) and an encoder descriptor. *)
Definition sample_decode_cip : GstVaapiContextInfo := mkInfo 9 1 0 320 240 2.
Definition sample_encode_cip : GstVaapiContextInfo :=
  mkInfo 9 4 GST_VAAPI_RATECONTROL_CBR 320 240 2.

(** A session as [gst_vaapi_context_new] leaves it for two reference
    frames. *)
Definition sample_surfaces : list GstVaapiSurface :=
  [mkSurface 1 10; mkSurface 2 11; mkSurface 3 12; mkSurface 4 13;
   mkSurface 5 14; mkSurface 6 15].

Definition sample_session (cip : GstVaapiContextInfo) : GstVaapiContext :=
  mkContext 0x03000000 cip (profile cip) (entrypoint cip) 0x02000000
    (Some (map Some sample_surfaces)) (Some (mkPool 6 sample_surfaces)).

(** The capability values [sample_env] reports. *)
Definition sample_capabilities (t : Z) : Z :=
  if t =? VAConfigAttribRTFormat then VA_RT_FORMAT_YUV420 else 0x16.

(** The sample descriptors at another size, and variations of them. *)
Definition sample_decode_resized_cip : GstVaapiContextInfo :=
  mkInfo 9 1 0 640 480 2.
Definition sample_decode_other_cip : GstVaapiContextInfo :=
  mkInfo 9 1 GST_VAAPI_RATECONTROL_CBR 320 240 5.
Definition sample_encode_resized_cip : GstVaapiContextInfo :=
  mkInfo 9 4 GST_VAAPI_RATECONTROL_CBR 640 480 2.
Definition sample_encode_vbr_cip : GstVaapiContextInfo :=
  mkInfo 9 4 GST_VAAPI_RATECONTROL_VBR 320 240 2.
Definition sample_encode_resized_vbr_cip : GstVaapiContextInfo :=
  mkInfo 9 4 GST_VAAPI_RATECONTROL_VBR 640 480 2.

(** An encoder session whose resize failed at the overlay reset: the old
    surface set is gone and no new one was built. *)
Definition sample_stalled_session : GstVaapiContext :=
  mkContext 0x03000000 sample_encode_resized_cip 9 4 0x02000000 None None.


(** A session as [gst_vaapi_context_init] leaves it: no context, no
    configuration, no surface array and no pool. *)
Definition sample_fresh_session (cip : GstVaapiContextInfo)
  : GstVaapiContext :=
  mkContext VA_INVALID_ID cip 0 0 VA_INVALID_ID None None.

(** The surfaces the sample driver hands out when a set of six is built
    from an empty log. *)
Definition sample_new_surfaces : list GstVaapiSurface :=
  [mkSurface 4 4; mkSurface 7 7; mkSurface 10 10; mkSurface 13 13;
   mkSurface 16 16; mkSurface 19 19].

(** [sample_env] with a driver whose [vaCreateConfig] fails
    (VA_STATUS_ERROR_OPERATION_FAILED) and stores [left] through its
    last argument, or nothing. *)
Definition sample_env_config_fails (left : option Z) : Env :=
  mkEnv (GST_VAAPI_ENTRYPOINT_SLICE_ENCODE sample_env)
    (gst_vaapi_profile_get_va_profile sample_env)
    (gst_vaapi_entrypoint_get_va_entrypoint sample_env)
    (from_GstVaapiRateControl sample_env)
    (string_of_VARateControl sample_env)
    (vaDestroyContext sample_env)
    (vaDestroyConfig sample_env)
    (vaGetConfigAttributes sample_env)
    (fun _ _ _ _ => (1, left))
    (vaCreateContext sample_env)
    (gst_vaapi_context_overlay_reset sample_env)
    (g_ptr_array_new_full sample_env)
    (g_array_sized_new sample_env)
    (gst_vaapi_surface_pool_new sample_env)
    (gst_vaapi_surface_new sample_env)
    (gst_vaapi_video_pool_add_object sample_env)
    (gst_vaapi_object_new sample_env).

(** ** The log of a rebuild *)

Definition is_capability_query (e : Event) : bool :=
  match e with
  | EvVaGetConfigAttributes _ _ _ _ => true
  | _ => false
  end.

(** The first event of a log that [p] selects, with what precedes it
    and what follows it. *)
Fixpoint split_at (p : Event -> bool) (l : list Event)
  : option (list Event * Event * list Event) :=
  match l with
  | [] => None
  | e :: rest =>
      if p e then Some ([], e, rest)
      else match split_at p rest with
           | Some (before, q, after) => Some (e :: before, q, after)
           | None => None
           end
  end.

(** The calls that allocate the surface [s], attach it to the context
    and register it in the pool, all successful. *)
Definition surface_events (w h : Z) (s : GstVaapiSurface) : list Event :=
  [EvSurfaceNew w h (Some s); EvSurfaceSetParent s true; EvPoolAddObject s true].

(** The log of building the [n] surfaces [new], their array and their
    pool from nothing, at [w] by [h], every call successful. *)
Definition build_events (w h n : Z) (new : list GstVaapiSurface)
  : list Event :=
  [EvOverlayReset true; EvPtrArrayNew n true; EvSurfacePoolNew w h true;
   EvPoolSetCapacity n] ++ flat_map (surface_events w h) new.

(** A call of [context_create_surfaces] that reports failure. *)
Definition is_failed_call (e : Event) : bool :=
  match e with
  | EvOverlayReset false | EvPtrArrayNew _ false | EvSurfacePoolNew _ _ false
  | EvSurfaceNew _ _ None | EvPoolAddObject _ false => true
  | _ => false
  end.

(** What [context_create] logs on the sample driver for a fresh encoder
    session and an empty log, before and after its capability query,
    and the attributes the query returns. *)
Definition sample_queried_attribs : list VAConfigAttrib :=
  [mkAttrib VAConfigAttribRTFormat 1; mkAttrib VAConfigAttribRateControl 0x16].

Definition sample_log_before_query : list Event :=
  build_events 320 240 6 sample_new_surfaces ++
  [EvArraySizedNew 6 true; EvDisplayLock].

Definition sample_log_after_query : list Event :=
  [EvDisplayUnlock; EvDisplayLock;
   EvVaCreateConfig 9 4
     [mkAttrib VAConfigAttribRTFormat 1;
      mkAttrib VAConfigAttribRateControl 0x02] VA_STATUS_SUCCESS 0x02000000;
   EvDisplayUnlock; EvDisplayLock;
   EvVaCreateContext 0x02000000 320 240 VA_PROGRESSIVE [4; 7; 10; 13; 16; 19]
     VA_STATUS_SUCCESS 0x03000000;
   EvDisplayUnlock; EvLog LDebug (MsgContext 0x03000000); EvArrayFree].

(** The log of a [context_create] that finds the array [arr] and
    succeeds for a slice-encode entry point: the id snapshot, the query
    of the format and rate-control attributes, the configuration made
    of the reported format value and the code [rc] of the requested mode,
    the context on that configuration and the surfaces [ids]. *)
Definition create_events (vp ve w h : Z)
    (arr : list (option GstVaapiSurface)) (ids : list Z)
    (v0 v1 rc config context_id : Z) : list Event :=
  [EvArraySizedNew (g_ptr_array_len arr) true;
   EvDisplayLock;
   EvVaGetConfigAttributes vp ve
     [mkAttrib VAConfigAttribRTFormat v0;
      mkAttrib VAConfigAttribRateControl v1] VA_STATUS_SUCCESS;
   EvDisplayUnlock;
   EvDisplayLock;
   EvVaCreateConfig vp ve
     [mkAttrib VAConfigAttribRTFormat v0;
      mkAttrib VAConfigAttribRateControl rc] VA_STATUS_SUCCESS config;
   EvDisplayUnlock;
   EvDisplayLock;
   EvVaCreateContext config w h VA_PROGRESSIVE ids VA_STATUS_SUCCESS
     context_id;
   EvDisplayUnlock;
   EvLog LDebug (MsgContext context_id);
   EvArrayFree].

(** Why a [context_create] that found the array [arr], added [created]
    to the log and left [context'] returned FALSE.  Either it stopped
    before any driver call, because the id snapshot could not be
    allocated, a slot of the array is NULL, or the profile or the entry
    point is missing; or the capability query was its only driver call,
    and that failed, or reported no 4:2:0 format, or (for slice-encode)
    lacked a bit of the rate-control code, which was logged as an error;
    or [vaCreateConfig] failed, after a successful query; or
    [vaCreateContext] failed, after both.  From [vaCreateConfig] on, the
    configuration id of [context'] is what that call left. *)
Definition context_create_stopped (env : Env) (cip : GstVaapiContextInfo)
    (arr : list (option GstVaapiSurface)) (created : list Event)
    (context' : GstVaapiContext) : Prop :=
  let vp := gst_vaapi_profile_get_va_profile env (profile cip) in
  let ve := gst_vaapi_entrypoint_get_va_entrypoint env (entrypoint cip) in
  let rc := to_guint (from_GstVaapiRateControl env (rc_mode cip)) in
  (hardware_calls created = [] /\
   (In (EvArraySizedNew (g_ptr_array_len arr) false) created \/
    surface_ids arr = None \/ profile cip = 0 \/ entrypoint cip = 0)) \/
  (exists queried status,
     hardware_calls created = [EvVaGetConfigAttributes vp ve queried status] /\
     (status <> VA_STATUS_SUCCESS \/
      Z.land (attrib_value_at queried 0) VA_RT_FORMAT_YUV420 = 0 \/
      entrypoint cip = GST_VAAPI_ENTRYPOINT_SLICE_ENCODE env /\
      rc <> VA_RC_NONE /\
      Z.land (attrib_value_at queried 1) rc <> rc /\
      In (EvLog LError
            (MsgUnsupportedRateControl (string_of_VARateControl env rc)))
         created)) \/
  (exists queried attribs status config,
     hardware_calls created =
       [EvVaGetConfigAttributes vp ve queried VA_STATUS_SUCCESS;
        EvVaCreateConfig vp ve attribs status config] /\
     status <> VA_STATUS_SUCCESS /\ va_config context' = config) \/
  (exists queried attribs config ids status context_id,
     hardware_calls created =
       [EvVaGetConfigAttributes vp ve queried VA_STATUS_SUCCESS;
        EvVaCreateConfig vp ve attribs VA_STATUS_SUCCESS config;
        EvVaCreateContext config (width cip) (height cip) VA_PROGRESSIVE ids
          status context_id] /\
     status <> VA_STATUS_SUCCESS /\ va_config context' = config).

(** ** What the log says about resources

    Counters read off a log: the surfaces allocated, registered in the
    pool and released, and the driver objects created and destroyed. *)
Definition surfaces_allocated (tr : Trace) : list GstVaapiSurface :=
  flat_map (fun e => match e with
                     | EvSurfaceNew _ _ (Some s) => [s]
                     | _ => []
                     end) tr.

Definition surfaces_registered (tr : Trace) : list GstVaapiSurface :=
  flat_map (fun e => match e with
                     | EvPoolAddObject s true => [s]
                     | _ => []
                     end) tr.

Definition surfaces_released (tr : Trace) : list GstVaapiSurface :=
  flat_map (fun e => match e with
                     | EvSurfaceUnref s => [s]
                     | _ => []
                     end) tr.

Definition configs_created (tr : Trace) : list Z :=
  flat_map (fun e => match e with
                     | EvVaCreateConfig _ _ _ status config =>
                         if vaapi_check_status status then [config] else []
                     | _ => []
                     end) tr.

Definition configs_destroyed (tr : Trace) : list Z :=
  flat_map (fun e => match e with
                     | EvVaDestroyConfig id _ => [id]
                     | _ => []
                     end) tr.

Definition contexts_created (tr : Trace) : list Z :=
  flat_map (fun e => match e with
                     | EvVaCreateContext _ _ _ _ _ status id =>
                         if vaapi_check_status status then [id] else []
                     | _ => []
                     end) tr.

Definition contexts_destroyed (tr : Trace) : list Z :=
  flat_map (fun e => match e with
                     | EvVaDestroyContext id _ => [id]
                     | _ => []
                     end) tr.

(** The ids of a list that are not the invalid sentinel. *)
Definition valid_ids (ids : list Z) : list Z :=
  filter (fun id => negb (id =? VA_INVALID_ID)) ids.

(** A driver whose failed [vaCreateConfig] leaves no valid id behind:
    when the call fails it stores nothing through its last argument, or
    it stores the invalid sentinel. *)
Definition driver_stores_no_config_on_failure (env : Env) : Prop :=
  forall tr vp ve attribs id,
    fst (vaCreateConfig env tr vp ve attribs) <> VA_STATUS_SUCCESS ->
    snd (vaCreateConfig env tr vp ve attribs) = Some id ->
    to_guint id = VA_INVALID_ID.

(** The slots of the array and the free buffers of the pool of a
    context; none when the pointer is NULL. *)
Definition array_of (context : GstVaapiContext)
  : list (option GstVaapiSurface) :=
  match surfaces context with Some arr => arr | None => [] end.

Definition free_of (context : GstVaapiContext) : list GstVaapiSurface :=
  match surfaces_pool context with Some p => free_objects p | None => [] end.

(** ** The display lock

    The lock is free, taken, or taken with the driver call made.  A step
    of the log is allowed when the lock is taken while free, a driver
    call is the first thing done under the lock, the lock is dropped
    right after the call, and everything else happens with the lock
    free. *)
Inductive LockState := Unlocked | Locked | Called.

Definition lock_step (s : LockState) (e : Event) : option LockState :=
  match s with
  | Unlocked =>
      match e with
      | EvDisplayLock => Some Locked
      | EvDisplayUnlock => None
      | _ => if is_hardware_call e then None else Some Unlocked
      end
  | Locked => if is_hardware_call e then Some Called else None
  | Called =>
      match e with
      | EvDisplayUnlock => Some Unlocked
      | _ => None
      end
  end.

Fixpoint lock_run (s : LockState) (tr : Trace) : option LockState :=
  match tr with
  | [] => Some s
  | e :: rest =>
      match lock_step s e with
      | Some s' => lock_run s' rest
      | None => None
      end
  end.

(** [m] only adds to the log, and what it adds takes the lock from
    state [s] to state [s'] by allowed steps. *)
Definition locks {A} (s s' : LockState) (m : M A) : Prop :=
  forall tr, exists delta, snd (m tr) = tr ++ delta /\ lock_run s delta = Some s'.

(** An allocation of a surface or of the pool, or the creation of a
    context, at a size other than [w] by [h]. *)
Definition wrong_size (w h : Z) (e : Event) : bool :=
  match e with
  | EvSurfaceNew w' h' _ | EvSurfacePoolNew w' h' _
  | EvVaCreateContext _ w' h' _ _ _ _ => negb ((w' =? w) && (h' =? h))
  | _ => false
  end.

(** The calls that release a surface or destroy a driver object, and
    the calls that allocate a surface or create a driver object. *)
Definition is_teardown_call (e : Event) : bool :=
  match e with
  | EvSurfaceUnref _ | EvVaDestroyConfig _ _ | EvVaDestroyContext _ _ => true
  | _ => false
  end.

Definition is_build_call (e : Event) : bool :=
  match e with
  | EvSurfaceNew _ _ _ | EvSurfacePoolNew _ _ _ | EvPoolAddObject _ _
  | EvVaCreateConfig _ _ _ _ _ | EvVaCreateContext _ _ _ _ _ _ _ => true
  | _ => false
  end.

(** The surfaces of the slots that are not NULL. *)
Definition slots_surfaces (arr : list (option GstVaapiSurface))
  : list GstVaapiSurface :=
  flat_map (fun slot => match slot with Some s => [s] | None => [] end) arr.

(** [m] only adds to the log, and what it adds and what it returns are
    related by [R]. *)
Definition adds {A} (R : list Event -> A -> Prop) (m : M A) : Prop :=
  forall tr, exists delta, snd (m tr) = tr ++ delta /\ R delta (fst (m tr)).

(** What a piece of log released: these surfaces, configurations and
    contexts, in this order. *)
Definition teardown_counts (d : list Event) (released : list GstVaapiSurface)
    (configs contexts : list Z) : Prop :=
  surfaces_released d = released /\
  configs_destroyed d = configs /\
  contexts_destroyed d = contexts.

(** What holds of the surface set of a session between calls, as long
    as no buffer is taken from the pool: no slot of the array is NULL,
    there is no pool without an array, and every free buffer of the pool
    is a surface of the array. *)
Definition surface_set_consistent (context : GstVaapiContext) : Prop :=
  Forall (fun slot => slot <> None) (array_of context) /\
  (surfaces context = None -> surfaces_pool context = None) /\
  incl (free_of context) (slots_surfaces (array_of context)).

(** * Proofs *)

(** ** Reasoning rules for logged computations *)

Lemma quiet_ret {A} p (a : A) : quiet p (ret a).
Proof. intros tr. exists []. simpl. now rewrite app_nil_r. Qed.

Lemma quiet_bind {A B} p (m : M A) (k : A -> M B) :
  quiet p m -> (forall a, quiet p (k a)) -> quiet p (bind m k).
Proof.
  intros Hm Hk tr. unfold bind.
  destruct (Hm tr) as [d1 [E1 F1]].
  destruct (m tr) as [a tr1]. simpl in E1. subst tr1.
  destruct (Hk a (tr ++ d1)) as [d2 [E2 F2]].
  exists (d1 ++ d2). rewrite E2, filter_app, F1, F2, app_assoc. now split.
Qed.

Lemma quiet_emit p e : p e = false -> quiet p (emit e).
Proof. intros H tr. exists [e]. simpl. now rewrite H. Qed.

Lemma quiet_ask {A} p (answer : Trace -> A) (ev : A -> Event) :
  (forall a, p (ev a) = false) -> quiet p (ask answer ev).
Proof. intros H tr. exists [ev (answer tr)]. simpl. now rewrite H. Qed.

Lemma quiet_when p b m : quiet p m -> quiet p (when b m).
Proof. destruct b; simpl; auto using quiet_ret. Qed.

Lemma quiet_any_event {A} (m : M A) tr :
  quiet any_event m -> snd (m tr) = tr.
Proof.
  intros H. destruct (H tr) as [d [E F]].
  assert (d = []) as ->.
  { clear E. induction d as [|e d IH]; [easy | discriminate]. }
  now rewrite app_nil_r in E.
Qed.

Lemma returns_ret {A} (P : A -> Prop) a : P a -> returns P (ret a).
Proof. intros H tr. exact H. Qed.

Lemma returns_bind {A B} (P : A -> Prop) (Q : B -> Prop) (m : M A)
    (k : A -> M B) :
  returns P m -> (forall a, P a -> returns Q (k a)) -> returns Q (bind m k).
Proof.
  intros Hm Hk tr. unfold bind. specialize (Hm tr).
  destruct (m tr) as [a tr1]. apply Hk, Hm.
Qed.

Lemma returns_any {A} (m : M A) : returns (fun _ => True) m.
Proof. intros tr. exact I. Qed.

Lemma returns_weaken {A} (P Q : A -> Prop) (m : M A) :
  returns P m -> (forall a, P a -> Q a) -> returns Q m.
Proof. intros H HPQ tr. apply HPQ, H. Qed.

Ltac unfold_calls :=
  unfold GST_VAAPI_DISPLAY_LOCK, GST_VAAPI_DISPLAY_UNLOCK, GST_LOG,
    g_return_if_fail_warning,
    call_vaDestroyContext, call_vaDestroyConfig, call_vaGetConfigAttributes,
    call_vaCreateConfig, call_vaCreateContext, call_overlay_reset,
    call_g_ptr_array_new_full, call_g_array_sized_new, call_surface_pool_new,
    call_surface_new, call_object_new, call_video_pool_add_object,
    gst_vaapi_video_pool_set_capacity, gst_vaapi_video_pool_replace_null,
    unref_surface_cb.

Ltac quiet_step :=
  lazymatch goal with
  | |- quiet _ (ret _) => apply quiet_ret
  | |- quiet _ (bind _ _) => apply quiet_bind; [ | intros ]
  | |- quiet _ (emit _) => apply quiet_emit; reflexivity
  | |- quiet _ (ask _ _) => apply quiet_ask; intros; reflexivity
  | |- quiet _ (when _ _) => apply quiet_when
  | |- quiet _ (match ?x with _ => _ end) => destruct x
  | |- quiet _ (let _ := _ in _) => cbv zeta
  end.

Ltac quiet_auto := unfold_calls; repeat (quiet_step; try assumption).

(** ** The surface set *)

Lemma g_ptr_array_unref_quiet arr :
  quiet is_hardware_call (g_ptr_array_unref arr).
Proof. induction arr as [|s arr IH]; simpl; quiet_auto. Qed.

Lemma g_ptr_array_unref_trace arr tr :
  g_ptr_array_unref arr tr = (tt, tr ++ unref_events arr).
Proof.
  revert tr. induction arr as [|s arr IH]; intros tr; simpl.
  - unfold ret. now rewrite app_nil_r.
  - destruct s as [s|]; unfold bind, unref_surface_cb, emit, ret; simpl.
    + rewrite IH. now rewrite <- !app_assoc.
    + apply IH.
Qed.

Lemma context_destroy_surfaces_quiet env context :
  quiet is_hardware_call (context_destroy_surfaces env context).
Proof.
  unfold context_destroy_surfaces. quiet_auto.
  apply g_ptr_array_unref_quiet.
Qed.

Lemma context_destroy_surfaces_trace env context tr :
  snd (context_destroy_surfaces env context tr) =
  tr ++ [EvOverlayReset (gst_vaapi_context_overlay_reset env tr)] ++
  release_events context.
Proof.
  unfold context_destroy_surfaces, release_events. unfold_calls.
  unfold bind, ask, when, emit, ret.
  destruct context as [i d vp ve vc [arr|] [pool|]]; simpl;
    try rewrite g_ptr_array_unref_trace; simpl;
    now rewrite <- ?app_assoc, ?app_nil_r.
Qed.

Lemma context_destroy_surfaces_result env context :
  returns (fun c => c = set_surfaces_pool (set_surfaces context None) None)
    (context_destroy_surfaces env context).
Proof.
  intros tr. unfold context_destroy_surfaces. unfold_calls.
  unfold bind, ask, when, emit, ret.
  destruct context as [i d vp ve vc [arr|] [pool|]]; simpl;
    try rewrite g_ptr_array_unref_trace; reflexivity.
Qed.

Lemma create_surfaces_loop_quiet env n w h : forall arr pool,
  quiet is_hardware_call (create_surfaces_loop env n w h arr pool).
Proof.
  induction n as [|n IH]; intros arr pool; simpl; quiet_auto. apply IH.
Qed.

Lemma create_surfaces_loop_result env n w h : forall arr pool,
  returns (fun r =>
             snd r = true ->
             exists new, List.length new = n /\
               fst (fst r) = arr ++ map Some new /\
               snd (fst r) =
                 mkPool (pool_capacity pool) (free_objects pool ++ new))
    (create_surfaces_loop env n w h arr pool).
Proof.
  induction n as [|n IH]; intros arr pool tr; simpl.
  - intros _. exists []. simpl. rewrite !app_nil_r. now destruct pool.
  - unfold_calls. unfold bind, ask, emit, ret.
    destruct (gst_vaapi_surface_new env tr w h) as [s|]; simpl;
      [ | discriminate ].
    destruct (gst_vaapi_video_pool_add_object env _ s); simpl;
      [ | discriminate ].
    intros Hok. destruct (IH _ _ _ Hok) as [new [Hlen [Harr Hpool]]].
    exists (s :: new). simpl. rewrite Harr, Hpool. simpl.
    rewrite <- !app_assoc. simpl. now rewrite Hlen.
Qed.

Lemma context_create_surfaces_quiet env context :
  quiet is_hardware_call (context_create_surfaces env context).
Proof.
  unfold context_create_surfaces. quiet_auto.
  apply create_surfaces_loop_quiet.
Qed.

Ltac run_loop H :=
  match goal with
  | |- context [create_surfaces_loop ?e ?n ?w ?h ?a ?p ?t] =>
      pose proof (create_surfaces_loop_result e n w h a p t) as H;
      destruct (create_surfaces_loop e n w h a p t) as [[[? ?] ?] ?]
  end.

Lemma context_create_surfaces_result env context :
  returns (fun r =>
             same_handles context (fst r) /\
             (snd r = true -> surfaces (fst r) <> None) /\
             (surfaces context = None -> surfaces_pool context = None ->
              snd r = true -> fresh_surface_set (fst r)))
    (context_create_surfaces env context).
Proof.
  intros tr. unfold context_create_surfaces, same_handles, fresh_surface_set.
  unfold_calls. unfold bind, ask, emit, ret.
  destruct (gst_vaapi_context_overlay_reset env tr); simpl;
    [ | repeat split; discriminate ].
  destruct context as [d i vp ve vc [arr|] pool]; simpl.
  - destruct pool as [pool|]; simpl.
    + run_loop HL. simpl. repeat split; discriminate.
    + destruct (gst_vaapi_surface_pool_new env _ _ _); simpl;
        [ | repeat split; discriminate ].
      run_loop HL. simpl. repeat split; discriminate.
  - destruct (g_ptr_array_new_full env _ _); simpl;
      [ | repeat split; discriminate ].
    destruct pool as [pool|]; simpl.
    + run_loop HL. simpl. repeat split; discriminate.
    + destruct (gst_vaapi_surface_pool_new env _ _ _); simpl;
        [ | repeat split; discriminate ].
      run_loop HL. simpl in *. repeat split; try discriminate.
      intros _ _ Hok. destruct (HL Hok) as [new [Hlen [-> ->]]].
      exists new. unfold num_surfaces, g_ptr_array_len in *. simpl in *.
      change (to_guint 0) with 0 in Hlen. rewrite Z.sub_0_r in Hlen.
      now repeat split.
Qed.

(** ** [context_destroy] *)

Lemma context_destroy_quiet env context :
  quiet is_surface_call (context_destroy env context).
Proof. unfold context_destroy. quiet_auto. Qed.

Lemma context_destroy_result env context :
  returns (fun c =>
             c = set_va_config (set_object_id context VA_INVALID_ID)
                   VA_INVALID_ID)
    (context_destroy env context).
Proof.
  intros tr. unfold context_destroy. unfold_calls.
  unfold bind, ask, when, emit, ret.
  destruct context as [d i vp ve vc arr pool]; simpl.
  destruct (d =? VA_INVALID_ID) eqn:Ed; simpl.
  - apply Z.eqb_eq in Ed. subst d.
    destruct (vc =? VA_INVALID_ID) eqn:Ec; simpl.
    + apply Z.eqb_eq in Ec. now subst vc.
    + now destruct (negb _).
  - destruct (negb _); simpl;
      (destruct (vc =? VA_INVALID_ID) eqn:Ec; simpl;
       [ apply Z.eqb_eq in Ec; now subst vc | now destruct (negb _) ]).
Qed.

Lemma snd_bind {A B} (m : M A) (k : A -> M B) tr :
  snd (bind m k tr) = snd (k (fst (m tr)) (snd (m tr))).
Proof. unfold bind. now destruct (m tr). Qed.

Lemma fst_bind {A B} (m : M A) (k : A -> M B) tr :
  fst (bind m k tr) = fst (k (fst (m tr)) (snd (m tr))).
Proof. unfold bind. now destruct (m tr). Qed.

(** One guarded destroy step: lock, call, unlock, warn on failure. *)
Lemma guarded_destroy_trace {A} id (answer : Trace -> Z) call failed
    (c1 c2 : A) tr :
  snd ((if negb (id =? VA_INVALID_ID) then
          GST_VAAPI_DISPLAY_LOCK ;;
          status <- ask answer (call id) ;;
          GST_VAAPI_DISPLAY_UNLOCK ;;
          when (negb (vaapi_check_status status))
            (GST_LOG LWarning (failed id)) ;;
          ret c1
        else ret c2) tr) =
  tr ++ destroy_step_events id (answer (tr ++ [EvDisplayLock])) call failed.
Proof.
  unfold destroy_step_events. unfold_calls.
  unfold bind, ask, when, emit, ret.
  destruct (id =? VA_INVALID_ID); simpl.
  - now rewrite app_nil_r.
  - destruct (vaapi_check_status _); simpl; now rewrite <- ?app_assoc.
Qed.

Lemma context_destroy_trace env context tr :
  exists st_context st_config,
    snd (context_destroy env context tr) =
    tr ++ [EvLog LDebug (MsgContext (object_id context))] ++
    destroy_step_events (object_id context) st_context
      EvVaDestroyContext MsgDestroyContextFailed ++
    destroy_step_events (va_config context) st_config
      EvVaDestroyConfig MsgDestroyConfigFailed.
Proof.
  unfold context_destroy, call_vaDestroyContext, call_vaDestroyConfig.
  rewrite snd_bind, snd_bind.
  match goal with
  | |- context [fst (?f (snd (GST_LOG ?l ?m ?t)))] =>
      set (x := f (snd (GST_LOG l m t)))
  end.
  assert (Hc : va_config (fst x) = va_config context)
    by (subst x; destruct (negb _);
        unfold_calls; unfold bind, ask, when, emit, ret; simpl;
        try destruct (negb _); reflexivity).
  assert (Ht : snd x = _)
    by (subst x;
        apply (guarded_destroy_trace (object_id context)
                 (fun t => vaDestroyContext env t (object_id context))
                 EvVaDestroyContext MsgDestroyContextFailed)).
  destruct x as [c1 tr1]. simpl in Hc, Ht. simpl fst. simpl snd.
  rewrite Hc.
  rewrite (guarded_destroy_trace (va_config context)
             (fun t => vaDestroyConfig env t (va_config context))
             EvVaDestroyConfig MsgDestroyConfigFailed).
  subst tr1. do 2 eexists. unfold GST_LOG, emit. simpl.
  rewrite <- !app_assoc. reflexivity.
Qed.

(** ** [context_create] *)

#[local] Arguments Z.eqb _ _ : simpl never.
#[local] Arguments Z.land _ _ : simpl never.
#[local] Arguments to_guint _ : simpl never.

Lemma quiet_filter {A} p (m : M A) tr :
  quiet p m -> filter p (snd (m tr)) = filter p tr.
Proof.
  intros H. destruct (H tr) as [d [-> F]].
  now rewrite filter_app, F, app_nil_r.
Qed.

Lemma bind_ret_l {A B} (a : A) (k : A -> M B) : bind (ret a) k = k a.
Proof. reflexivity. Qed.

(** Without a surface set, [context_create] first builds one and then
    goes on as it does for a context that has one. *)
Lemma context_create_without_surfaces env context tr :
  surfaces context = None ->
  context_create env context tr =
  let '((c1, ok), tr1) := context_create_surfaces env context tr in
  if ok then context_create env c1 tr1 else ((c1, false), tr1).
Proof.
  intros Hs. unfold context_create at 1. rewrite Hs. unfold bind at 1.
  pose proof (context_create_surfaces_result env context tr) as [_ [Hsome _]].
  destruct (context_create_surfaces env context tr) as [[c1 ok] tr1].
  simpl in Hsome. destruct ok; simpl; [ | reflexivity ].
  destruct (surfaces c1) as [arr|] eqn:E; [ | now elim Hsome ].
  unfold context_create. rewrite E, bind_ret_l. simpl negb. cbv iota.
  rewrite E. reflexivity.
Qed.

Ltac run_create Hs :=
  unfold context_create; rewrite Hs; unfold_calls;
  unfold bind, ask, when, emit, ret; simpl; rewrite ?Hs.

(** Case analysis on an innermost scrutinee of the goal. *)
Ltac case_step :=
  match goal with
  | |- context [match ?x with _ => _ end] =>
      lazymatch x with
      | context [match _ with _ => _ end] => fail
      | _ => destruct x eqn:?
      end
  end; simpl in *.

Ltac filters :=
  unfold hardware_calls, surface_calls; rewrite ?filter_app; simpl;
  rewrite ?app_nil_r.

Lemma context_create_frame env context arr tr :
  surfaces context = Some arr ->
  info (fst (fst (context_create env context tr))) = info context /\
  same_surfaces context (fst (fst (context_create env context tr))) /\
  surface_calls (snd (context_create env context tr)) = surface_calls tr.
Proof.
  intros Hs. unfold same_surfaces. run_create Hs.
  repeat case_step; filters; rewrite ?Hs; auto.
Qed.

Ltac status_ok :=
  unfold vaapi_check_status in *;
  repeat match goal with
         | H : negb _ = false |- _ => apply negb_false_iff in H
         | H : negb _ = true |- _ => apply negb_true_iff in H
         | H : (_ || _) = false |- _ => apply orb_false_iff in H; destruct H
         | H : (?a =? ?b) = true |- _ => apply Z.eqb_eq in H; try subst a
         | H : (?a =? ?b) = false |- _ => apply Z.eqb_neq in H
         end.

Ltac trace_eq :=
  filters; rewrite <- ?app_assoc; simpl; reflexivity.

Lemma context_create_outcome_with_surfaces env context arr tr :
  surfaces context = Some arr ->
  context_create_outcome env context tr (context_create env context tr).
Proof.
  intros Hs. unfold context_create_outcome. run_create Hs.
  repeat case_step; auto; status_ok;
    (do 5 eexists; repeat apply conj;
     [ exact Hs | eassumption | assumption | assumption | | | trace_eq
     | reflexivity ];
     [ assumption
     | intros; first [ left; assumption | right; assumption | congruence ] ]).
Qed.

(** C9.  [context_create] stores the context id only once the surface
    ids have been collected and the capability query, the format and
    rate-control checks, the configuration and the context have all
    succeeded, in this order; whenever it fails, the stored context id
    is the one it found. *)
Theorem context_create_assigns_id_last env context tr :
  context_create_outcome env context tr (context_create env context tr).
Proof.
  destruct (surfaces context) as [arr|] eqn:Hs.
  - now apply context_create_outcome_with_surfaces with arr.
  - rewrite context_create_without_surfaces by assumption.
    pose proof (context_create_surfaces_result env context tr)
      as [[Hid [Hinfo _]] [Hsome _]].
    pose proof (quiet_filter is_hardware_call _ tr
                  (context_create_surfaces_quiet env context)) as Hq.
    destruct (context_create_surfaces env context tr) as [[c1 ok] tr1].
    simpl in *. destruct ok; [ | exact Hid ].
    destruct (surfaces c1) as [arr|] eqn:E; [ | now elim Hsome ].
    pose proof (context_create_outcome_with_surfaces env c1 arr tr1 E) as H.
    unfold context_create_outcome in *. rewrite Hinfo, Hid in H.
    fold (hardware_calls tr1) in Hq. fold (hardware_calls tr) in Hq.
    now rewrite Hq in H.
Qed.

Lemma filter_nil_weaken (p q : Event -> bool) d :
  (forall e, q e = true -> p e = true) -> filter p d = [] -> filter q d = [].
Proof.
  intros Hpq. induction d as [|e d IH]; [ reflexivity | ].
  simpl. destruct (p e) eqn:Ep; [ discriminate | ].
  destruct (q e) eqn:Eq; [ | exact IH ].
  apply Hpq in Eq. congruence.
Qed.

Lemma quiet_weaken {A} (p q : Event -> bool) (m : M A) :
  (forall e, q e = true -> p e = true) -> quiet p m -> quiet q m.
Proof.
  intros Hpq H tr. destruct (H tr) as [d [E F]]. exists d.
  split; [ exact E | now apply filter_nil_weaken with (p := p) ].
Qed.

Lemma create_call_is_hardware_call e :
  is_create_call e = true -> is_hardware_call e = true.
Proof. now destruct e. Qed.

Lemma quiet_not_in {A} p (m : M A) tr delta e :
  quiet p m -> snd (m tr) = tr ++ delta -> In e delta -> p e = false.
Proof.
  intros H E Hin. destruct (H tr) as [d [E' F]].
  rewrite E in E'. apply app_inv_head in E'. subst d.
  destruct (p e) eqn:Ep; [ | reflexivity ].
  assert (Hf : In e (filter p delta)) by (apply filter_In; now split).
  rewrite F in Hf. destruct Hf.
Qed.

Lemma context_create_grows env context :
  quiet (fun _ => false) (context_create env context).
Proof.
  unfold context_create. quiet_auto.
  apply quiet_weaken with (p := is_hardware_call); [ discriminate | ].
  apply context_create_surfaces_quiet.
Qed.

Ltac query_in_log Hd Hin :=
  rewrite <- ?app_assoc in Hd; apply app_inv_head in Hd; subst;
  simpl in Hin;
  repeat match type of Hin with
         | _ \/ _ => destruct Hin as [Hin|Hin]
         | False => destruct Hin
         | _ = _ => first [ discriminate Hin | injection Hin as ? ? ? ? ]
         end.

Lemma yuv420_required_with_surfaces env context arr tr delta vp ve attribs
    status :
  surfaces context = Some arr ->
  snd (context_create env context tr) = tr ++ delta ->
  In (EvVaGetConfigAttributes vp ve attribs status) delta ->
  Z.land (attrib_value_at attribs 0) VA_RT_FORMAT_YUV420 = 0 ->
  snd (fst (context_create env context tr)) = false /\
  va_config (fst (fst (context_create env context tr))) = va_config context /\
  object_id (fst (fst (context_create env context tr))) = object_id context /\
  filter is_create_call delta = [].
Proof.
  intros Hs. run_create Hs.
  repeat case_step; intros Hd Hin Hland; query_in_log Hd Hin;
    status_ok; subst; try contradiction; now repeat split.
Qed.

(** C8.  When the capability query of a [context_create] call returns a
    YUV-format value without the 4:2:0 bit, the call fails: it creates
    neither a configuration nor a context, and the two stored handles
    stay as they were.  [delta] is what the call adds to the log; the
    first attribute of the query is the format attribute. *)
Theorem context_create_requires_yuv420 env context tr delta vp ve attribs
    status :
  snd (context_create env context tr) = tr ++ delta ->
  In (EvVaGetConfigAttributes vp ve attribs status) delta ->
  Z.land (attrib_value_at attribs 0) VA_RT_FORMAT_YUV420 = 0 ->
  snd (fst (context_create env context tr)) = false /\
  va_config (fst (fst (context_create env context tr))) = va_config context /\
  object_id (fst (fst (context_create env context tr))) = object_id context /\
  filter is_create_call delta = [].
Proof.
  destruct (surfaces context) as [arr|] eqn:Hs.
  - now apply yuv420_required_with_surfaces with arr.
  - rewrite context_create_without_surfaces by assumption.
    pose proof (context_create_surfaces_result env context tr)
      as [[Hid [_ [_ [_ Hcfg]]]] [Hsome _]].
    pose proof (context_create_surfaces_quiet env context) as Hq.
    destruct (Hq tr) as [d1 [Ht1 Hq1]].
    pose proof (fun e => quiet_not_in _ _ tr d1 e Hq Ht1) as Hno.
    destruct (context_create_surfaces env context tr) as [[c1 ok] tr1].
    simpl in Hid, Hcfg, Hsome, Ht1. subst tr1. destruct ok.
    + destruct (surfaces c1) as [arr|] eqn:E; [ | now elim Hsome ].
      destruct (context_create_grows env c1 (tr ++ d1)) as [d2 [Ht2 _]].
      intros Hd Hin Hland. rewrite Ht2, <- app_assoc in Hd.
      apply app_inv_head in Hd. subst delta.
      apply in_app_or in Hin. destruct Hin as [Hin|Hin].
      * apply Hno in Hin. discriminate.
      * destruct (yuv420_required_with_surfaces env c1 arr (tr ++ d1) d2
                    vp ve attribs status E Ht2 Hin Hland)
          as [H1 [H2 [H3 H4]]].
        rewrite H1, H2, H3, Hcfg, Hid, filter_app, H4, app_nil_r.
        repeat split.
        now apply filter_nil_weaken with (p := is_hardware_call);
          [ apply create_call_is_hardware_call | ].
    + simpl. intros Hd Hin _. apply app_inv_head in Hd. subst delta.
      apply Hno in Hin. discriminate.
Qed.

(** A log with at most one event selected by [p] splits around such an
    event in one way only. *)
Lemma split_at_first (p : Event -> bool) l before q after :
  l = before ++ q :: after -> p q = true -> filter p before = [] ->
  split_at p l = Some (before, q, after).
Proof.
  intros -> Hq. induction before as [|e before IH]; simpl.
  - now rewrite Hq.
  - destruct (p e); [ discriminate | ]. intros H. now rewrite (IH H).
Qed.

Lemma split_at_unique (p : Event -> bool) l before q after :
  l = before ++ q :: after -> p q = true ->
  (List.length (filter p l) <= 1)%nat ->
  split_at p l = Some (before, q, after).
Proof.
  intros Hl Hq Hlen. apply split_at_first; try assumption.
  subst l. rewrite filter_app in Hlen. simpl in Hlen. rewrite Hq in Hlen.
  rewrite length_app in Hlen. simpl in Hlen.
  destruct (filter p before); [ reflexivity | simpl in Hlen; lia ].
Qed.

Lemma split_after_quiet (p : Event -> bool) d1 d2 before q after :
  filter p d1 = [] -> p q = true -> d1 ++ d2 = before ++ q :: after ->
  exists before', before = d1 ++ before' /\ d2 = before' ++ q :: after.
Proof.
  revert before. induction d1 as [|e d1 IH]; intros before Hf Hq H; simpl in *.
  - now exists before.
  - destruct (p e) eqn:Ep; [ discriminate | ].
    destruct before as [|b before]; simpl in H.
    + injection H as -> _. congruence.
    + injection H as -> H. destruct (IH before Hf Hq H) as [b' [-> ->]].
      now exists b'.
Qed.

Ltac split_log H :=
  rewrite <- ?app_assoc in H; simpl in H; apply app_inv_head in H;
  apply split_at_unique with (p := is_capability_query) in H;
  [ simpl in H; first [ discriminate H | injection H as ? ? ? ]
  | reflexivity | simpl; lia ].

Lemma rate_control_with_surfaces env context arr tr before after vp ve attribs :
  let cip := info context in
  let rc := to_guint (from_GstVaapiRateControl env (rc_mode cip)) in
  let v0 := attrib_value_at attribs 0 in
  let v1 := attrib_value_at attribs 1 in
  let r := context_create env context tr in
  let queried :=
    tr ++ before ++
    [EvVaGetConfigAttributes vp ve attribs VA_STATUS_SUCCESS;
     EvDisplayUnlock] in
  let config_with value :=
    [mkAttrib VAConfigAttribRTFormat v0;
     mkAttrib VAConfigAttribRateControl value] in
  surfaces context = Some arr ->
  entrypoint cip = GST_VAAPI_ENTRYPOINT_SLICE_ENCODE env ->
  snd r =
    tr ++ before ++
    [EvVaGetConfigAttributes vp ve attribs VA_STATUS_SUCCESS] ++ after ->
  Z.land v0 VA_RT_FORMAT_YUV420 <> 0 ->
  map attrib_type attribs =
    [VAConfigAttribRTFormat; VAConfigAttribRateControl] /\
  (rc = VA_RC_NONE ->
   config_creation_proceeds vp ve (config_with VA_RC_NONE) queried r) /\
  (rc <> VA_RC_NONE ->
   (Z.land v1 rc <> rc <->
    snd r =
      queried ++
      [EvLog LError
         (MsgUnsupportedRateControl (string_of_VARateControl env rc));
       EvArrayFree]) /\
   (Z.land v1 rc <> rc ->
    snd (fst r) = false /\
    va_config (fst (fst r)) = va_config context /\
    object_id (fst (fst r)) = object_id context) /\
   (Z.land v1 rc = rc ->
    config_creation_proceeds vp ve (config_with rc) queried r)).
Proof.
  intros cip rc v0 v1 r queried config_with Hs Henc.
  subst cip rc v0 v1 r queried config_with. cbv zeta.
  apply Z.eqb_eq in Henc. unfold config_creation_proceeds.
  run_create Hs. rewrite ?Henc. simpl.
  set (rc := to_guint (from_GstVaapiRateControl env (rc_mode (info context)))).
  set (vp0 := gst_vaapi_profile_get_va_profile env (profile (info context))).
  set (ve0 :=
         gst_vaapi_entrypoint_get_va_entrypoint env (entrypoint (info context))).
  clearbody rc vp0 ve0.
  repeat case_step; intros Hlog Hyuv; split_log Hlog;
    repeat match goal with
           | H : EvVaGetConfigAttributes _ _ _ _ =
                 EvVaGetConfigAttributes _ _ _ _ |- _ =>
               injection H as ? ? ? ?
           end; subst; status_ok; try congruence;
    unfold attrib_value_at in *; simpl in *; rewrite ?Z.land_diag in *;
    (split; [ reflexivity | ];
     split; [ intros Hn
            | intros Hn; split;
              [ split; [ intros Hl | intros Heq ]
              | split; [ intros Hl | intros Hl ] ] ]);
    try congruence;
    try (do 3 eexists; split; [ rewrite <- !app_assoc; simpl; reflexivity
                              | reflexivity ]);
    try (rewrite <- !app_assoc; simpl; reflexivity);
    try (now repeat split);
    exfalso; rewrite <- !app_assoc in Heq; simpl in Heq;
    apply app_inv_head in Heq; discriminate Heq.
Qed.

(** C5.  Configuration creation for a slice-encode entry point, from
    any session, with or without a surface array.  Take a
    [context_create] whose capability query succeeded with a format
    value that has the 4:2:0 bit; [before] and [after] are what the call
    logged before and after the query.  The query asked for the format
    and the rate-control attribute.  When the requested mode maps to
    [VA_RC_NONE], the rate-control attribute is set to [VA_RC_NONE]
    whatever the driver reported and the configuration is created.
    Otherwise [context_create] logs the "unsupported rate control" error
    that names the mode, and stops, exactly when the reported bitmask
    lacks a bit of the mode's code: it then returns FALSE and the two
    handles are the ones it found; when no bit is missing the
    configuration is created with that code. *)
Theorem context_create_rate_control env context tr before after vp ve attribs :
  let cip := info context in
  let rc := to_guint (from_GstVaapiRateControl env (rc_mode cip)) in
  let v0 := attrib_value_at attribs 0 in
  let v1 := attrib_value_at attribs 1 in
  let r := context_create env context tr in
  let queried :=
    tr ++ before ++
    [EvVaGetConfigAttributes vp ve attribs VA_STATUS_SUCCESS;
     EvDisplayUnlock] in
  let config_with value :=
    [mkAttrib VAConfigAttribRTFormat v0;
     mkAttrib VAConfigAttribRateControl value] in
  entrypoint cip = GST_VAAPI_ENTRYPOINT_SLICE_ENCODE env ->
  snd r =
    tr ++ before ++
    [EvVaGetConfigAttributes vp ve attribs VA_STATUS_SUCCESS] ++ after ->
  Z.land v0 VA_RT_FORMAT_YUV420 <> 0 ->
  map attrib_type attribs =
    [VAConfigAttribRTFormat; VAConfigAttribRateControl] /\
  (rc = VA_RC_NONE ->
   config_creation_proceeds vp ve (config_with VA_RC_NONE) queried r) /\
  (rc <> VA_RC_NONE ->
   (Z.land v1 rc <> rc <->
    snd r =
      queried ++
      [EvLog LError
         (MsgUnsupportedRateControl (string_of_VARateControl env rc));
       EvArrayFree]) /\
   (Z.land v1 rc <> rc ->
    snd (fst r) = false /\
    va_config (fst (fst r)) = va_config context /\
    object_id (fst (fst r)) = object_id context) /\
   (Z.land v1 rc = rc ->
    config_creation_proceeds vp ve (config_with rc) queried r)).
Proof.
  intros cip rc v0 v1 r queried config_with.
  destruct (surfaces context) as [arr|] eqn:Hs.
  - now apply rate_control_with_surfaces with arr.
  - subst cip rc v0 v1 r queried config_with. cbv zeta. intros Henc.
    rewrite context_create_without_surfaces by assumption.
    pose proof (context_create_surfaces_result env context tr)
      as [[Hid [Hinfo [_ [_ Hcfg]]]] [Hsome _]].
    destruct (context_create_surfaces_quiet env context tr) as [d1 [Ht1 Hq1]].
    destruct (context_create_surfaces env context tr) as [[c1 ok] tr1].
    simpl in Hid, Hinfo, Hcfg, Hsome, Ht1. subst tr1. destruct ok.
    + destruct (surfaces c1) as [arr|] eqn:E; [ | now elim Hsome ].
      destruct (context_create_grows env c1 (tr ++ d1)) as [d2 [Ht2 _]].
      intros Hlog Hyuv. rewrite Ht2, <- app_assoc in Hlog.
      apply app_inv_head in Hlog.
      destruct (split_after_quiet is_capability_query d1 d2 before
                  (EvVaGetConfigAttributes vp ve attribs VA_STATUS_SUCCESS)
                  after)
        as [b' [-> Hd2]];
        [ apply filter_nil_weaken with (p := is_hardware_call);
          [ intros e; now destruct e | exact Hq1 ]
        | reflexivity | exact Hlog | ].
      pose proof (rate_control_with_surfaces env c1 arr (tr ++ d1) b' after
                    vp ve attribs E) as H.
      cbv zeta in H. rewrite Hinfo, Hcfg, Hid in H.
      assert (Hl : snd (context_create env c1 (tr ++ d1)) =
                   (tr ++ d1) ++ b' ++
                   [EvVaGetConfigAttributes vp ve attribs VA_STATUS_SUCCESS] ++
                   after) by (rewrite Ht2, Hd2; reflexivity).
      specialize (H Henc Hl Hyuv).
      assert (Hq : forall l, tr ++ (d1 ++ b') ++ l = (tr ++ d1) ++ b' ++ l)
        by (intros l; now rewrite <- !app_assoc).
      rewrite !Hq. exact H.
    + simpl. intros Hlog _. apply app_inv_head in Hlog. subst d1.
      rewrite filter_app in Hq1. simpl in Hq1.
      destruct (filter is_hardware_call before); discriminate.
Qed.

(** ** Finalization *)

Lemma gst_vaapi_context_finalize_result env context tr :
  fst (gst_vaapi_context_finalize env context tr) =
  mkContext VA_INVALID_ID (info context) (va_profile context)
    (va_entrypoint context) VA_INVALID_ID None None.
Proof.
  unfold gst_vaapi_context_finalize. rewrite !fst_bind.
  rewrite (context_destroy_result env context tr).
  rewrite (context_destroy_surfaces_result env _ _). reflexivity.
Qed.

Lemma gst_vaapi_context_finalize_trace env context tr :
  exists st_context st_config overlay_ok,
    snd (gst_vaapi_context_finalize env context tr) =
    tr ++ [EvLog LDebug (MsgContext (object_id context))] ++
    destroy_step_events (object_id context) st_context
      EvVaDestroyContext MsgDestroyContextFailed ++
    destroy_step_events (va_config context) st_config
      EvVaDestroyConfig MsgDestroyConfigFailed ++
    [EvOverlayReset overlay_ok] ++ release_events context ++
    [EvOverlayFinalize].
Proof.
  unfold gst_vaapi_context_finalize. rewrite !snd_bind.
  destruct (context_destroy_trace env context tr) as [st1 [st2 Ht]].
  rewrite (context_destroy_result env context tr).
  rewrite context_destroy_surfaces_trace, Ht.
  exists st1, st2. eexists. unfold emit, ret, release_events. simpl.
  rewrite <- !app_assoc. simpl. rewrite <- !app_assoc. reflexivity.
Qed.

Lemma destroy_step_events_invalid status call failed :
  destroy_step_events VA_INVALID_ID status call failed = [].
Proof. reflexivity. Qed.

(** C4.  Finalizing a session destroys the context, then the
    configuration, then the surface set (overlay reset, the buffers of
    the array, the pool), then the overlay state.  Both handles end up
    as the invalid sentinel whatever status the driver returned, and
    the array and the pool are gone.  Finalizing the result again calls
    the driver not at all. *)
Theorem gst_vaapi_context_finalize_order env context tr :
  let r := gst_vaapi_context_finalize env context tr in
  (exists st_context st_config overlay_ok,
     snd r =
     tr ++ [EvLog LDebug (MsgContext (object_id context))] ++
     destroy_step_events (object_id context) st_context
       EvVaDestroyContext MsgDestroyContextFailed ++
     destroy_step_events (va_config context) st_config
       EvVaDestroyConfig MsgDestroyConfigFailed ++
     [EvOverlayReset overlay_ok] ++ release_events context ++
     [EvOverlayFinalize]) /\
  object_id (fst r) = VA_INVALID_ID /\
  va_config (fst r) = VA_INVALID_ID /\
  surfaces (fst r) = None /\
  surfaces_pool (fst r) = None /\
  (exists delta,
     snd (gst_vaapi_context_finalize env (fst r) (snd r)) = snd r ++ delta /\
     hardware_calls delta = []).
Proof.
  intros r. subst r. split; [ apply gst_vaapi_context_finalize_trace | ].
  rewrite gst_vaapi_context_finalize_result. simpl.
  repeat split.
  destruct (gst_vaapi_context_finalize_trace env
              (mkContext VA_INVALID_ID (info context) (va_profile context)
                 (va_entrypoint context) VA_INVALID_ID None None)
              (snd (gst_vaapi_context_finalize env context tr)))
    as [st1 [st2 [ov Ht]]].
  eexists. split; [ exact Ht | ].
  cbn [object_id va_config]. rewrite !destroy_step_events_invalid.
  reflexivity.
Qed.

(** ** The accessors on a NULL session *)

(** C10.  On a NULL session every accessor returns its neutral value:
    the invalid sentinel, no proxy, zero, failure.  It logs the failed
    check and does nothing else: no context is read and the driver is
    not called. *)
Theorem accessors_on_null_session tr type out_value_ptr :
  let check_failed := [EvLog LCritical (MsgCheckFailed "context != NULL")] in
  gst_vaapi_context_get_id None tr = (VA_INVALID_ID, tr ++ check_failed) /\
  gst_vaapi_context_get_surface_proxy None tr =
    ((None, None), tr ++ check_failed) /\
  gst_vaapi_context_get_surface_count None tr = (0, tr ++ check_failed) /\
  (forall env,
     gst_vaapi_context_get_attribute env None type out_value_ptr tr =
       ((false, None), tr ++ check_failed)) /\
  hardware_calls check_failed = [].
Proof. repeat split. Qed.

(** ** Teardown calls and build calls *)

Lemma create_surfaces_loop_no_teardown env n w h : forall arr pool,
  quiet is_teardown_call (create_surfaces_loop env n w h arr pool).
Proof.
  induction n as [|n IH]; intros arr pool; simpl; quiet_auto. apply IH.
Qed.

Lemma context_create_surfaces_no_teardown env context :
  quiet is_teardown_call (context_create_surfaces env context).
Proof.
  unfold context_create_surfaces. quiet_auto.
  apply create_surfaces_loop_no_teardown.
Qed.

Lemma context_create_no_teardown env context :
  quiet is_teardown_call (context_create env context).
Proof.
  unfold context_create. quiet_auto.
  apply context_create_surfaces_no_teardown.
Qed.

Lemma g_ptr_array_unref_no_build arr :
  quiet is_build_call (g_ptr_array_unref arr).
Proof. induction arr as [|s arr IH]; simpl; quiet_auto. Qed.

Lemma context_destroy_surfaces_no_build env context :
  quiet is_build_call (context_destroy_surfaces env context).
Proof.
  unfold context_destroy_surfaces. quiet_auto.
  apply g_ptr_array_unref_no_build.
Qed.

Lemma context_destroy_no_build env context :
  quiet is_build_call (context_destroy env context).
Proof. unfold context_destroy. quiet_auto. Qed.

(** ** [gst_vaapi_context_reset] *)

(** C6.  Resetting a session to the descriptor it already has leaves the
    session and the log exactly as they were, hence destroys and creates
    nothing and keeps the context id, and returns TRUE. *)
Theorem gst_vaapi_context_reset_same_descriptor env context tr :
  gst_vaapi_context_reset env context (info context) tr =
  ((context, true), tr).
Proof.
  unfold gst_vaapi_context_reset. rewrite !Z.eqb_refl. simpl.
  rewrite andb_false_r. now destruct context.
Qed.

Lemma reset_decompose env context new_cip :
  gst_vaapi_context_reset env context new_cip =
  reset_rebuild env
    (reset_size_changed (info context) new_cip)
    (reset_config_changed env (info context) new_cip)
    (set_info context (reset_descriptor env (info context) new_cip)).
Proof.
  unfold gst_vaapi_context_reset, reset_rebuild, reset_size_changed,
    reset_config_changed, reset_descriptor.
  destruct context as [d [p e rc w h n] vp ve vc arr pool].
  destruct new_cip as [p' e' rc' w' h' n']. cbn [info width height profile
    entrypoint rc_mode ref_frames].
  simpl.
  destruct (w =? w') eqn:Ew; destruct (h =? h') eqn:Eh; simpl;
    destruct (p =? p') eqn:Ep; destruct (e =? e') eqn:Ee; simpl;
    destruct (e' =? GST_VAAPI_ENTRYPOINT_SLICE_ENCODE env) eqn:Es; simpl;
    destruct (rc =? rc') eqn:Er; simpl;
    status_ok; subst; reflexivity.
Qed.

Lemma context_create_quiet_surfaces env context arr :
  surfaces context = Some arr ->
  quiet is_surface_call (context_create env context).
Proof. intros Hs. unfold context_create. rewrite Hs. quiet_auto. Qed.

Lemma context_create_info env context tr :
  info (fst (fst (context_create env context tr))) = info context.
Proof.
  destruct (surfaces context) as [arr|] eqn:Hs.
  - now apply context_create_frame with arr.
  - rewrite context_create_without_surfaces by assumption.
    pose proof (context_create_surfaces_result env context tr)
      as [[_ [Hinfo _]] [Hsome _]].
    destruct (context_create_surfaces env context tr) as [[c1 ok] tr1].
    simpl in *. destruct ok; [ | exact Hinfo ].
    destruct (surfaces c1) as [arr|] eqn:E; [ | now elim Hsome ].
    rewrite <- Hinfo. now apply context_create_frame with arr.
Qed.

Lemma reset_rebuild_size_only env context tr :
  reset_rebuild env true false context tr =
  let (c1, tr1) := context_destroy_surfaces env context tr in
  context_create_surfaces env c1 tr1.
Proof.
  unfold reset_rebuild, bind, ret.
  destruct (context_destroy_surfaces env context tr) as [c1 tr1].
  destruct (context_create_surfaces env c1 tr1) as [[c2 ok] tr2].
  now destruct ok.
Qed.

Lemma reset_rebuild_config_only env context tr :
  reset_rebuild env false true context tr =
  let (c1, tr1) := context_destroy env context tr in
  context_create env c1 tr1.
Proof.
  unfold reset_rebuild, bind, ret. simpl.
  destruct (context_destroy env context tr) as [c1 tr1].
  destruct (context_create env c1 tr1) as [[c2 ok] tr2].
  now destruct ok.
Qed.

Lemma reset_rebuild_info env size_changed config_changed context :
  returns (fun r => info (fst r) = info context)
    (reset_rebuild env size_changed config_changed context).
Proof.
  unfold reset_rebuild.
  apply returns_bind with (P := fun c => info c = info context).
  { destruct size_changed; [ | now apply returns_ret ].
    eapply returns_weaken; [ apply context_destroy_surfaces_result | ].
    now intros c ->. }
  intros c1 H1.
  apply returns_bind with (P := fun c => info c = info context).
  { destruct config_changed; [ | now apply returns_ret ].
    eapply returns_weaken; [ apply context_destroy_result | ].
    now intros c ->. }
  intros c2 H2.
  apply returns_bind with (P := fun r => info (fst r) = info context).
  { destruct size_changed; [ | now apply returns_ret ].
    eapply returns_weaken; [ apply context_create_surfaces_result | ].
    intros r [[_ [Hinfo _]] _]. congruence. }
  intros [c3 ok3] H3. simpl in H3.
  destruct ok3; simpl; [ | now apply returns_ret ].
  apply returns_bind with (P := fun r => info (fst r) = info context).
  { destruct config_changed; [ | now apply returns_ret ].
    intros t. rewrite context_create_info. exact H3. }
  intros [c4 ok4] H4. simpl in H4.
  destruct ok4; now apply returns_ret.
Qed.

(** C2, as the code has it.  [gst_vaapi_context_reset] first stores a
    descriptor whose width, height, profile and entry point are the new
    ones, and whose rate-control mode is the new one when the new entry
    point is slice-encode and the stored one otherwise; the teardown and
    rebuild steps run on the session that holds this descriptor, and the
    session still holds it when they are over, whether they succeeded or
    failed. *)
Theorem gst_vaapi_context_reset_stores_descriptor env context new_cip tr :
  exists cip',
    gst_vaapi_context_reset env context new_cip =
      reset_rebuild env
        (reset_size_changed (info context) new_cip)
        (reset_config_changed env (info context) new_cip)
        (set_info context cip') /\
    info (fst (fst (gst_vaapi_context_reset env context new_cip tr))) = cip' /\
    width cip' = width new_cip /\
    height cip' = height new_cip /\
    profile cip' = profile new_cip /\
    entrypoint cip' = entrypoint new_cip /\
    rc_mode cip' =
      (if entrypoint new_cip =? GST_VAAPI_ENTRYPOINT_SLICE_ENCODE env
       then rc_mode new_cip else rc_mode (info context)).
Proof.
  exists (reset_descriptor env (info context) new_cip).
  split; [ apply reset_decompose | ].
  split; [ | now repeat split ].
  rewrite reset_decompose. now rewrite reset_rebuild_info.
Qed.

Lemma release_events_no_hardware_call context :
  filter is_hardware_call (release_events context) = [].
Proof.
  unfold release_events. rewrite filter_app.
  replace (filter is_hardware_call
             match surfaces_pool context with
             | Some _ => [EvPoolUnref]
             | None => []
             end) with (@nil Event) by now destruct (surfaces_pool context).
  rewrite app_nil_r. destruct (surfaces context) as [arr|]; [ | reflexivity ].
  induction arr as [|[s|] arr IH]; simpl; auto.
Qed.

Lemma filter_delta (p : Event -> bool) tr delta :
  filter p (tr ++ delta) = filter p tr -> filter p delta = [].
Proof.
  rewrite filter_app. intros H.
  apply app_inv_head with (l := filter p tr). now rewrite app_nil_r.
Qed.

Lemma create_surfaces_loop_log env k w h : forall arr pool tr,
  exists d,
    snd (create_surfaces_loop env k w h arr pool tr) = tr ++ d /\
    if snd (fst (create_surfaces_loop env k w h arr pool tr))
    then exists new,
           List.length new = k /\
           d = flat_map (surface_events w h) new /\
           fst (fst (fst (create_surfaces_loop env k w h arr pool tr))) =
             arr ++ map Some new /\
           snd (fst (fst (create_surfaces_loop env k w h arr pool tr))) =
             mkPool (pool_capacity pool) (free_objects pool ++ new)
    else exists done e, d = done ++ [e] /\ is_failed_call e = true.
Proof.
  induction k as [|k IH]; intros arr pool tr; simpl.
  - exists []. rewrite app_nil_r. split; [ reflexivity | ].
    exists []. simpl. rewrite !app_nil_r. now destruct pool.
  - unfold_calls. unfold bind, ask, emit, ret.
    destruct (gst_vaapi_surface_new env tr w h) as [s|] eqn:Es; simpl.
    + destruct (gst_vaapi_video_pool_add_object env _ s) eqn:Ea; simpl.
      * match goal with
        | |- context [create_surfaces_loop env k w h ?a ?p ?t] =>
            destruct (IH a p t) as [d [Ht H]];
            destruct (create_surfaces_loop env k w h a p t)
              as [[[arr' pool'] ok] tr']
        end.
        simpl in *. subst tr'. exists (surface_events w h s ++ d).
        split; [ unfold surface_events; now rewrite <- !app_assoc | ].
        destruct ok.
        -- destruct H as [new [Hlen [-> [-> ->]]]]. exists (s :: new).
           simpl. rewrite Hlen, <- !app_assoc. now repeat split.
        -- destruct H as [done [e [-> He]]].
           exists (surface_events w h s ++ done), e.
           now rewrite <- app_assoc.
      * exists [EvSurfaceNew w h (Some s); EvSurfaceSetParent s true;
                EvPoolAddObject s false].
        split; [ now rewrite <- !app_assoc | ].
        now exists [EvSurfaceNew w h (Some s); EvSurfaceSetParent s true],
          (EvPoolAddObject s false).
    + exists [EvSurfaceNew w h None]. split; [ reflexivity | ].
      now exists [], (EvSurfaceNew w h None).
Qed.

(** From nothing, [context_create_surfaces] either builds the whole
    set, by the calls of [build_events], or returns FALSE at the first
    call that fails. *)
Lemma context_create_surfaces_log env context tr :
  surfaces context = None -> surfaces_pool context = None ->
  let cip := info context in
  let r := context_create_surfaces env context tr in
  exists rebuilt,
    snd r = tr ++ rebuilt /\
    if snd (fst r)
    then exists new,
           List.length new = Z.to_nat (num_surfaces cip) /\
           rebuilt =
             build_events (width cip) (height cip) (num_surfaces cip) new /\
           surfaces (fst (fst r)) = Some (map Some new) /\
           surfaces_pool (fst (fst r)) = Some (mkPool (num_surfaces cip) new)
    else exists done e, rebuilt = done ++ [e] /\ is_failed_call e = true.
Proof.
  intros Hs Hp. cbv zeta.
  unfold context_create_surfaces, num_surfaces, build_events.
  rewrite Hs. unfold_calls. unfold bind, ask, emit, ret. simpl. rewrite Hp.
  destruct (gst_vaapi_context_overlay_reset env tr) eqn:Eo; simpl.
  2: { exists [EvOverlayReset false]. split; [ reflexivity | ].
       now exists [], (EvOverlayReset false). }
  destruct (g_ptr_array_new_full env _ _) eqn:Ea; simpl.
  2: { eexists. split; [ rewrite <- app_assoc; reflexivity | ].
       exists [EvOverlayReset true]. eexists. split; reflexivity. }
  destruct (gst_vaapi_surface_pool_new env _ _ _) eqn:En; simpl.
  2: { eexists. split; [ rewrite <- !app_assoc; reflexivity | ].
       eexists [EvOverlayReset true; EvPtrArrayNew _ true]. eexists.
       split; reflexivity. }
  match goal with
  | |- context [create_surfaces_loop env ?k ?w ?h ?a ?p ?t] =>
      destruct (create_surfaces_loop_log env k w h a p t) as [d [Ht H]];
      destruct (create_surfaces_loop env k w h a p t)
        as [[[arr' pool'] ok] tr']
  end.
  simpl in *. subst tr'.
  eexists. split; [ rewrite <- !app_assoc; simpl; reflexivity | ].
  destruct ok.
  - destruct H as [new [Hlen [-> [-> ->]]]]. exists new.
    unfold g_ptr_array_len in Hlen. simpl in Hlen.
    change (to_guint 0) with 0 in Hlen. rewrite Z.sub_0_r in Hlen.
    now repeat split.
  - destruct H as [done [e [-> He]]].
    eexists (_ :: _ :: _ :: _ :: done), e. now split.
Qed.

(** C3.  On a session with a valid context id, a reset that changes the
    size only (same profile, entry point and rate-control mode) releases
    the surface set and builds a new one, and does nothing else.  The
    context id and the configuration id are the ones found and the
    driver is not called.  The log gains the overlay reset and the
    release of every surface of the old array and of the old pool, and
    then the rebuild.  When the reset returns TRUE, the rebuild is the
    allocation of an array, a pool and [num_surfaces] surfaces at the
    new size, each attached and registered, and the session holds
    exactly these surfaces, all free in the pool.  It returns FALSE only
    when a call of the rebuild fails, and that call is the last thing it
    does. *)
Theorem gst_vaapi_context_reset_size_only env context new_cip tr :
  object_id context <> VA_INVALID_ID ->
  profile new_cip = profile (info context) ->
  entrypoint new_cip = entrypoint (info context) ->
  rc_mode new_cip = rc_mode (info context) ->
  width new_cip <> width (info context) \/
  height new_cip <> height (info context) ->
  let r := gst_vaapi_context_reset env context new_cip tr in
  let n := num_surfaces (info context) in
  object_id (fst (fst r)) = object_id context /\
  va_config (fst (fst r)) = va_config context /\
  exists overlay_ok rebuilt,
    snd r =
      tr ++ [EvOverlayReset overlay_ok] ++ release_events context ++ rebuilt /\
    hardware_calls
      ([EvOverlayReset overlay_ok] ++ release_events context ++ rebuilt) =
    [] /\
    if snd (fst r)
    then exists new,
           List.length new = Z.to_nat n /\
           rebuilt = build_events (width new_cip) (height new_cip) n new /\
           surfaces (fst (fst r)) = Some (map Some new) /\
           surfaces_pool (fst (fst r)) = Some (mkPool n new)
    else exists done e, rebuilt = done ++ [e] /\ is_failed_call e = true.
Proof.
  intros _ Hp He Hrc Hsize r n. subst r n. rewrite reset_decompose.
  assert (reset_size_changed (info context) new_cip = true) as ->.
  { unfold reset_size_changed. apply orb_true_iff.
    destruct Hsize as [H|H]; [ left | right ];
      apply negb_true_iff, Z.eqb_neq; congruence. }
  assert (reset_config_changed env (info context) new_cip = false) as ->.
  { unfold reset_config_changed.
    now rewrite Hp, He, Hrc, !Z.eqb_refl, andb_false_r. }
  rewrite reset_rebuild_size_only.
  set (c0 := set_info context (reset_descriptor env (info context) new_cip)).
  pose proof (context_destroy_surfaces_result env c0 tr) as Hc1.
  pose proof (context_destroy_surfaces_trace env c0 tr) as Ht1.
  destruct (context_destroy_surfaces env c0 tr) as [c1 tr1].
  simpl in Hc1, Ht1.
  pose proof (context_create_surfaces_result env c1 tr1)
    as [[Hid [_ [_ [_ Hcfg]]]] _].
  destruct (context_create_surfaces_quiet env c1 tr1) as [delta [Ht2 Hq]].
  assert (Hs1 : surfaces c1 = None) by now subst c1.
  assert (Hp1 : surfaces_pool c1 = None) by now subst c1.
  destruct (context_create_surfaces_log env c1 tr1 Hs1 Hp1)
    as [rebuilt [Ht3 Hout]].
  rewrite Ht2 in Ht3. apply app_inv_head in Ht3. subst rebuilt.
  destruct (context_create_surfaces env c1 tr1) as [[c2 ok] tr2].
  simpl in *. subst c1 tr1. simpl in *.
  split; [ exact Hid | ]. split; [ exact Hcfg | ].
  exists (gst_vaapi_context_overlay_reset env tr), delta.
  split; [ rewrite Ht2, <- app_assoc; reflexivity | ].
  split; [ | exact Hout ].
  unfold hardware_calls. simpl.
  now rewrite filter_app, release_events_no_hardware_call, Hq.
Qed.

Ltac stop_reason :=
  first
    [ left; split; [ reflexivity | ];
      first [ left; simpl; tauto
            | right; left; first [ assumption | reflexivity ]
            | right; right; left; assumption
            | right; right; right; assumption ]
    | right; left; do 2 eexists; split; [ reflexivity | ];
      first [ left; assumption
            | right; left; assumption
            | right; right; repeat split; try assumption; simpl; tauto ]
    | right; right; left; do 4 eexists; split; [ reflexivity | ];
      split; [ assumption | reflexivity ]
    | right; right; right; do 6 eexists; split; [ reflexivity | ];
      split; [ assumption | reflexivity ] ].

(** With an array and a slice-encode entry point, [context_create]
    either succeeds by the calls of [create_events] and stores the two
    ids the driver returned, or returns FALSE for one of the reasons of
    [context_create_stopped] and keeps the context id it found. *)
Lemma context_create_encoder_log env context arr tr :
  surfaces context = Some arr ->
  entrypoint (info context) = GST_VAAPI_ENTRYPOINT_SLICE_ENCODE env ->
  let cip := info context in
  let vp := gst_vaapi_profile_get_va_profile env (profile cip) in
  let ve := gst_vaapi_entrypoint_get_va_entrypoint env (entrypoint cip) in
  let rc := to_guint (from_GstVaapiRateControl env (rc_mode cip)) in
  let r := context_create env context tr in
  exists created,
    snd r = tr ++ created /\
    if snd (fst r)
    then exists ids v0 v1 config context_id,
           surface_ids arr = Some ids /\
           created =
             create_events vp ve (width cip) (height cip) arr ids v0 v1 rc
               config context_id /\
           Z.land v0 VA_RT_FORMAT_YUV420 <> 0 /\
           (rc = VA_RC_NONE \/ Z.land v1 rc = rc) /\
           va_config (fst (fst r)) = config /\
           object_id (fst (fst r)) = context_id
    else object_id (fst (fst r)) = object_id context /\
         context_create_stopped env cip arr created (fst (fst r)).
Proof.
  intros Hs Henc. cbv zeta. unfold context_create_stopped, create_events.
  apply Z.eqb_eq in Henc. run_create Hs. rewrite ?Henc. simpl.
  set (rc := to_guint (from_GstVaapiRateControl env (rc_mode (info context)))).
  set (vp := gst_vaapi_profile_get_va_profile env (profile (info context))).
  set (ve :=
         gst_vaapi_entrypoint_get_va_entrypoint env (entrypoint (info context))).
  clearbody rc vp ve. apply Z.eqb_eq in Henc.
  repeat case_step; status_ok;
    repeat match goal with
           | H : (_ || _) = true |- _ =>
               apply orb_true_iff in H; destruct H as [H|H]
           end; status_ok;
    repeat match goal with
           | H : ?b = true |- context [?b] => rewrite H
           | H : ?b = false |- context [?b] => rewrite H
           end;
    (eexists; split; [ rewrite <- ?app_assoc; simpl; reflexivity | ]);
    unfold attrib_value_at in *; simpl in *; rewrite ?Z.land_diag in *;
    unfold hardware_calls; simpl.
  all: try (split; [ reflexivity | ]; stop_reason).
  all: do 5 eexists; split; [ reflexivity | ]; split; [ reflexivity | ];
    split; [ assumption | ];
    split; [ first [ left; assumption | right; assumption ] | ];
    split; reflexivity.
Qed.

(** C7, for a session that holds a surface set.  A reset whose
    descriptor differs from the stored one in the rate-control mode
    only, the entry point being slice-encode, destroys the context and
    the configuration of the session (each one that is valid, by its
    own driver call on the id the session held) and then creates new
    ones for the new descriptor; the array and the pool of the session
    are the ones it had, and no call is made on a surface, the array or
    the pool.  When the reset returns TRUE, what follows the teardown is
    the log of [create_events]: the capability query, a configuration
    with the code of the new mode, a context on that configuration and
    the surfaces of the array, all successful; and the session holds the
    two ids the driver returned.  When it returns FALSE the session has
    no context, and the creation stopped for one of the reasons of
    [context_create_stopped]. *)
Theorem gst_vaapi_context_reset_rate_control_only env context new_cip arr tr :
  surfaces context = Some arr ->
  entrypoint (info context) = GST_VAAPI_ENTRYPOINT_SLICE_ENCODE env ->
  profile new_cip = profile (info context) ->
  entrypoint new_cip = entrypoint (info context) ->
  width new_cip = width (info context) ->
  height new_cip = height (info context) ->
  ref_frames new_cip = ref_frames (info context) ->
  rc_mode new_cip <> rc_mode (info context) ->
  let r := gst_vaapi_context_reset env context new_cip tr in
  let vp := gst_vaapi_profile_get_va_profile env (profile new_cip) in
  let ve := gst_vaapi_entrypoint_get_va_entrypoint env (entrypoint new_cip) in
  let rc := to_guint (from_GstVaapiRateControl env (rc_mode new_cip)) in
  same_surfaces context (fst (fst r)) /\
  info (fst (fst r)) = new_cip /\
  exists st_context st_config created,
    let destroyed :=
      [EvLog LDebug (MsgContext (object_id context))] ++
      destroy_step_events (object_id context) st_context
        EvVaDestroyContext MsgDestroyContextFailed ++
      destroy_step_events (va_config context) st_config
        EvVaDestroyConfig MsgDestroyConfigFailed in
    snd r = tr ++ destroyed ++ created /\
    surface_calls (destroyed ++ created) = [] /\
    filter is_build_call destroyed = [] /\
    filter is_teardown_call created = [] /\
    if snd (fst r)
    then exists ids v0 v1 config context_id,
           surface_ids arr = Some ids /\
           created =
             create_events vp ve (width new_cip) (height new_cip) arr ids
               v0 v1 rc config context_id /\
           Z.land v0 VA_RT_FORMAT_YUV420 <> 0 /\
           (rc = VA_RC_NONE \/ Z.land v1 rc = rc) /\
           va_config (fst (fst r)) = config /\
           object_id (fst (fst r)) = context_id
    else object_id (fst (fst r)) = VA_INVALID_ID /\
         context_create_stopped env new_cip arr created (fst (fst r)).
Proof.
  intros Hs Henc Hp He Hw Hh Hn Hrc r vp ve rc. subst r vp ve rc.
  rewrite reset_decompose.
  assert (reset_size_changed (info context) new_cip = false) as ->.
  { unfold reset_size_changed. now rewrite Hw, Hh, !Z.eqb_refl. }
  assert (reset_config_changed env (info context) new_cip = true) as ->.
  { unfold reset_config_changed.
    rewrite Hp, He, Henc, !Z.eqb_refl. simpl.
    apply negb_true_iff, Z.eqb_neq. congruence. }
  assert (reset_descriptor env (info context) new_cip = new_cip) as ->.
  { unfold reset_descriptor. rewrite He, Henc, Z.eqb_refl.
    destruct new_cip; simpl in *. congruence. }
  rewrite reset_rebuild_config_only.
  set (c0 := set_info context new_cip).
  pose proof (context_destroy_result env c0 tr) as Hc1.
  destruct (context_destroy_trace env c0 tr) as [st1 [st2 Ht1]].
  destruct (context_destroy_quiet env c0 tr) as [d1 [Ht1' Hq1]].
  destruct (context_destroy_no_build env c0 tr) as [d1' [Ht1'' Hb1]].
  rewrite Ht1' in Ht1, Ht1''. apply app_inv_head in Ht1, Ht1''. subst d1'.
  destruct (context_destroy env c0 tr) as [c1 tr1].
  simpl in Hc1, Ht1'. subst tr1.
  assert (Hs1 : surfaces c1 = Some arr) by (subst c1; exact Hs).
  assert (Hi1 : info c1 = new_cip) by now subst c1.
  assert (Hid1 : object_id c1 = VA_INVALID_ID) by now subst c1.
  assert (Henc1 : entrypoint (info c1) = GST_VAAPI_ENTRYPOINT_SLICE_ENCODE env)
    by (rewrite Hi1; congruence).
  destruct (context_create_encoder_log env c1 arr (tr ++ d1) Hs1 Henc1)
    as [created [Ht2 Hout]].
  destruct (context_create_frame env c1 arr (tr ++ d1) Hs1)
    as [Hinfo [[Ha Hb] _]].
  destruct (context_create_quiet_surfaces env c1 arr Hs1 (tr ++ d1))
    as [d2 [Ht2' Hq2]].
  destruct (context_create_no_teardown env c1 (tr ++ d1)) as [d3 [Ht3 Hq3]].
  rewrite Ht2 in Ht2', Ht3. apply app_inv_head in Ht2', Ht3. subst d2 d3.
  rewrite Hi1, Hid1 in Hout.
  split; [ unfold same_surfaces; rewrite Ha, Hb; subst c1; now split | ].
  split; [ congruence | ].
  exists st1, st2, created. cbv zeta. unfold c0 in Ht1.
  cbn [object_id va_config set_info] in Ht1. rewrite <- Ht1.
  split; [ rewrite Ht2, <- app_assoc; reflexivity | ].
  split; [ unfold surface_calls; now rewrite filter_app, Hq1, Hq2 | ].
  split; [ exact Hb1 | ]. split; [ exact Hq3 | exact Hout ].
Qed.

(** ** [gst_vaapi_context_new] *)

Lemma context_create_valid_id_with_surfaces env context arr tr :
  driver_returns_valid_context_ids env ->
  surfaces context = Some arr ->
  snd (fst (context_create env context tr)) = true ->
  object_id (fst (fst (context_create env context tr))) <> VA_INVALID_ID.
Proof.
  intros Hdrv Hs. run_create Hs.
  repeat case_step; try discriminate; intros _; status_ok;
    match goal with
    | E : vaCreateContext env ?t ?c ?w ?h ?f ?i = _ |- _ =>
        specialize (Hdrv t c w h f i); rewrite E in Hdrv; now apply Hdrv
    end.
Qed.

(** A successful [context_create] on a context without array and pool
    leaves a full surface set and a valid context id. *)
Lemma context_create_from_scratch env context tr :
  driver_returns_valid_context_ids env ->
  surfaces context = None -> surfaces_pool context = None ->
  snd (fst (context_create env context tr)) = true ->
  info (fst (fst (context_create env context tr))) = info context /\
  fresh_surface_set (fst (fst (context_create env context tr))) /\
  object_id (fst (fst (context_create env context tr))) <> VA_INVALID_ID.
Proof.
  intros Hdrv Hs Hp. split; [ apply context_create_info | revert H ].
  rewrite context_create_without_surfaces by assumption.
  pose proof (context_create_surfaces_result env context tr)
    as [[_ [Hinfo _]] [_ Hfresh]].
  destruct (context_create_surfaces env context tr) as [[c1 ok] tr1].
  simpl in *. destruct ok; [ | discriminate ].
  destruct (Hfresh Hs Hp eq_refl) as [new [Hlen [Harr Hpool]]].
  intros Hok.
  destruct (context_create_frame env c1 _ tr1 Harr) as [Hi [[Ha Hb] _]].
  split.
  - exists new. rewrite Hi, Ha, Hb. now repeat split.
  - now apply context_create_valid_id_with_surfaces with (map Some new).
Qed.

Lemma to_guint_range z : 0 <= to_guint z < 2 ^ 32.
Proof. unfold to_guint. apply Z.mod_pos_bound. reflexivity. Qed.

Lemma to_guint_small z : 0 <= z < 2 ^ 32 -> to_guint z = z.
Proof. unfold to_guint. apply Z.mod_small. Qed.

Lemma fresh_surface_set_size context :
  fresh_surface_set context ->
  gst_vaapi_video_pool_get_size (surfaces_pool context) =
  num_surfaces (info context).
Proof.
  intros [new [Hlen [_ ->]]]. simpl. rewrite Hlen.
  pose proof (to_guint_range (ref_frames (info context)
                              + SCRATCH_SURFACES_COUNT)) as Hr.
  fold (num_surfaces (info context)) in Hr.
  rewrite Z2Nat.id by apply Hr. now apply to_guint_small.
Qed.

Lemma gst_vaapi_context_new_unfold env cip tr :
  profile cip <> 0 -> entrypoint cip <> 0 -> 0 < width cip -> 0 < height cip ->
  gst_vaapi_context_new env cip tr =
  if gst_vaapi_object_new env tr then
    let c0 :=
      mkContext VA_INVALID_ID cip 0 0 VA_INVALID_ID None None in
    let tr0 := (tr ++ [EvObjectNew true]) ++ [EvOverlayInit] in
    let '((c1, ok), tr1) := context_create env c0 tr0 in
    if ok then (Some c1, tr1)
    else (None, snd (gst_vaapi_object_unref_context env c1 tr1))
  else (None, tr ++ [EvObjectNew false]).
Proof.
  intros Hp He Hw Hh. unfold gst_vaapi_context_new.
  apply Z.eqb_neq in Hp, He. apply Z.gtb_lt in Hw, Hh.
  rewrite Hp, He, Hw, Hh. simpl.
  unfold gst_vaapi_object_new_context, call_object_new, gst_vaapi_context_init.
  unfold bind, ask, emit, ret.
  destruct (gst_vaapi_object_new env tr); [ | reflexivity ].
  unfold set_va_config, set_info. simpl.
  destruct (context_create env _ _) as [[c1 ok] tr1].
  destruct ok; simpl; [ reflexivity | ].
  now destruct (gst_vaapi_object_unref_context env c1 tr1).
Qed.

(** C1.  For a descriptor with a profile, an entry point and a positive
    width and height, on a driver whose successful [vaCreateContext]
    stores a valid id, [gst_vaapi_context_new] returns either a session
    whose pool holds [ref_frames + 4] free surfaces (a [guint] sum, which
    is the plain sum as long as that fits 32 bits) and whose context id
    is not the invalid sentinel, or NULL; in that case the object was
    never allocated, or it was finalized and freed before returning. *)
Theorem gst_vaapi_context_new_all_or_nothing env cip tr :
  profile cip <> 0 ->
  entrypoint cip <> 0 ->
  0 < width cip ->
  0 < height cip ->
  driver_returns_valid_context_ids env ->
  match fst (gst_vaapi_context_new env cip tr) with
  | Some context =>
      forall tr',
        fst (gst_vaapi_context_get_surface_count (Some context) tr') =
          to_guint (ref_frames cip + SCRATCH_SURFACES_COUNT) /\
        (0 <= ref_frames cip < 2 ^ 32 - 4 ->
         fst (gst_vaapi_context_get_surface_count (Some context) tr') =
           ref_frames cip + 4) /\
        fst (gst_vaapi_context_get_id (Some context) tr') <> VA_INVALID_ID
  | None =>
      snd (gst_vaapi_context_new env cip tr) = tr ++ [EvObjectNew false] \/
      exists before,
        snd (gst_vaapi_context_new env cip tr) =
        before ++ [EvOverlayFinalize; EvObjectFree]
  end.
Proof.
  intros Hp He Hw Hh Hdrv.
  rewrite gst_vaapi_context_new_unfold by assumption.
  destruct (gst_vaapi_object_new env tr); [ | left; reflexivity ].
  cbv zeta.
  set (c0 := mkContext _ _ _ _ _ _ _). set (tr0 := (tr ++ _) ++ _).
  pose proof (context_create_from_scratch env c0 tr0 Hdrv eq_refl eq_refl)
    as Hnew.
  destruct (context_create env c0 tr0) as [[c1 ok] tr1]. simpl in Hnew.
  destruct ok; simpl.
  - destruct (Hnew eq_refl) as [Hinfo [Hfresh Hid]].
    intros tr'. unfold ret. simpl.
    rewrite (fresh_surface_set_size c1 Hfresh), Hinfo. unfold num_surfaces.
    simpl. repeat split; [ | exact Hid ].
    intros Hr. apply to_guint_small. unfold SCRATCH_SURFACES_COUNT. lia.
  - right. unfold gst_vaapi_object_unref_context, gst_vaapi_context_finalize.
    rewrite !snd_bind. unfold emit, ret. simpl.
    eexists. rewrite <- app_assoc. reflexivity.
Qed.

(** * Instances *)

(** A new encoder session for two reference frames: six free surfaces
    and the context id of the driver. *)
Example gst_vaapi_context_new_sample :
  exists context tr,
    gst_vaapi_context_new sample_env sample_encode_cip [] = (Some context, tr) /\
    fst (gst_vaapi_context_get_surface_count (Some context) tr) = 6 /\
    fst (gst_vaapi_context_get_id (Some context) tr) = 0x03000000 /\
    hardware_calls tr =
      [EvVaGetConfigAttributes 9 4
         [mkAttrib VAConfigAttribRTFormat 1;
          mkAttrib VAConfigAttribRateControl 0x16] VA_STATUS_SUCCESS;
       EvVaCreateConfig 9 4
         [mkAttrib VAConfigAttribRTFormat 1;
          mkAttrib VAConfigAttribRateControl 0x02] VA_STATUS_SUCCESS
         0x02000000;
       EvVaCreateContext 0x02000000 320 240 VA_PROGRESSIVE
         [6; 9; 12; 15; 18; 21] VA_STATUS_SUCCESS 0x03000000].
Proof. do 2 eexists. split; [ vm_compute; reflexivity | now vm_compute ]. Qed.

(** CBR on a driver without the CBR bit: the session is not created and
    the error names the mode. *)
Example gst_vaapi_context_new_without_cbr :
  fst (gst_vaapi_context_new sample_env_no_cbr sample_encode_cip []) = None /\
  filter is_error_log
    (snd (gst_vaapi_context_new sample_env_no_cbr sample_encode_cip [])) =
  [EvLog LError (MsgUnsupportedRateControl "CBR")].
Proof. now vm_compute. Qed.

(** Finalizing on a driver whose destroy calls fail: two warnings, and
    both handles are the sentinel all the same. *)
Example gst_vaapi_context_finalize_destroy_fails :
  gst_vaapi_context_finalize sample_env_destroy_fails
    (mkContext 0x03000000 sample_decode_cip 9 1 0x02000000 None None) [] =
  (mkContext VA_INVALID_ID sample_decode_cip 9 1 VA_INVALID_ID None None,
   [EvLog LDebug (MsgContext 0x03000000);
    EvDisplayLock; EvVaDestroyContext 0x03000000 1; EvDisplayUnlock;
    EvLog LWarning (MsgDestroyContextFailed 0x03000000);
    EvDisplayLock; EvVaDestroyConfig 0x02000000 1; EvDisplayUnlock;
    EvLog LWarning (MsgDestroyConfigFailed 0x02000000);
    EvOverlayReset true; EvOverlayFinalize]).
Proof. reflexivity. Qed.

Lemma sample_env_valid_context_ids rt rc overlay_ok :
  driver_returns_valid_context_ids (sample_env_with rt rc overlay_ok).
Proof. intros tr config w h flag ids _. simpl. discriminate. Defined.

Lemma gst_vaapi_context_new_all_or_nothing_witness :
  (profile sample_encode_cip <> 0 /\
   entrypoint sample_encode_cip <> 0 /\
   0 < width sample_encode_cip /\
   0 < height sample_encode_cip /\
   driver_returns_valid_context_ids sample_env) /\
  match fst (gst_vaapi_context_new sample_env sample_encode_cip []) with
  | Some context =>
      forall tr',
        fst (gst_vaapi_context_get_surface_count (Some context) tr') =
          to_guint (ref_frames sample_encode_cip + SCRATCH_SURFACES_COUNT) /\
        (0 <= ref_frames sample_encode_cip < 2 ^ 32 - 4 ->
         fst (gst_vaapi_context_get_surface_count (Some context) tr') =
           ref_frames sample_encode_cip + 4) /\
        fst (gst_vaapi_context_get_id (Some context) tr') <> VA_INVALID_ID
  | None =>
      snd (gst_vaapi_context_new sample_env sample_encode_cip []) =
        [] ++ [EvObjectNew false] \/
      exists before,
        snd (gst_vaapi_context_new sample_env sample_encode_cip []) =
        before ++ [EvOverlayFinalize; EvObjectFree]
  end.
Proof.
  split.
  - repeat apply conj;
      first [ apply sample_env_valid_context_ids | discriminate | reflexivity ].
  - apply (gst_vaapi_context_new_all_or_nothing sample_env sample_encode_cip []);
      first [ apply sample_env_valid_context_ids | discriminate | reflexivity ].
Defined.

Lemma gst_vaapi_context_reset_size_only_witness :
  (object_id (sample_session sample_decode_cip) <> VA_INVALID_ID /\
   profile sample_decode_resized_cip = profile sample_decode_cip /\
   entrypoint sample_decode_resized_cip = entrypoint sample_decode_cip /\
   rc_mode sample_decode_resized_cip = rc_mode sample_decode_cip /\
   (width sample_decode_resized_cip <> width sample_decode_cip \/
    height sample_decode_resized_cip <> height sample_decode_cip)) /\
  let r := gst_vaapi_context_reset sample_env
             (sample_session sample_decode_cip) sample_decode_resized_cip [] in
  let n := num_surfaces (info (sample_session sample_decode_cip)) in
  object_id (fst (fst r)) = object_id (sample_session sample_decode_cip) /\
  va_config (fst (fst r)) = va_config (sample_session sample_decode_cip) /\
  exists overlay_ok rebuilt,
    snd r =
      [] ++ [EvOverlayReset overlay_ok] ++
      release_events (sample_session sample_decode_cip) ++ rebuilt /\
    hardware_calls
      ([EvOverlayReset overlay_ok] ++
       release_events (sample_session sample_decode_cip) ++ rebuilt) =
    [] /\
    exists new,
      List.length new = Z.to_nat n /\
      rebuilt = build_events 640 480 n new /\
      surfaces (fst (fst r)) = Some (map Some new) /\
      surfaces_pool (fst (fst r)) = Some (mkPool n new).
Proof.
  split.
  - repeat apply conj; try discriminate; try reflexivity. left. discriminate.
  - pose proof (gst_vaapi_context_reset_size_only sample_env
                  (sample_session sample_decode_cip) sample_decode_resized_cip
                  []) as H.
    vm_compute in H |- *. apply H; try reflexivity; try discriminate.
    left. discriminate.
Defined.

Lemma context_create_rate_control_witness :
  (entrypoint (info (sample_fresh_session sample_encode_cip)) =
     GST_VAAPI_ENTRYPOINT_SLICE_ENCODE sample_env /\
   snd (context_create sample_env (sample_fresh_session sample_encode_cip) []) =
     [] ++ sample_log_before_query ++
     [EvVaGetConfigAttributes 9 4 sample_queried_attribs VA_STATUS_SUCCESS] ++
     sample_log_after_query /\
   Z.land (attrib_value_at sample_queried_attribs 0) VA_RT_FORMAT_YUV420 <> 0) /\
  let context := sample_fresh_session sample_encode_cip in
  let cip := info context in
  let rc := to_guint (from_GstVaapiRateControl sample_env (rc_mode cip)) in
  let v0 := attrib_value_at sample_queried_attribs 0 in
  let v1 := attrib_value_at sample_queried_attribs 1 in
  let r := context_create sample_env context [] in
  let queried :=
    [] ++ sample_log_before_query ++
    [EvVaGetConfigAttributes 9 4 sample_queried_attribs VA_STATUS_SUCCESS;
     EvDisplayUnlock] in
  let config_with value :=
    [mkAttrib VAConfigAttribRTFormat v0;
     mkAttrib VAConfigAttribRateControl value] in
  map attrib_type sample_queried_attribs =
    [VAConfigAttribRTFormat; VAConfigAttribRateControl] /\
  (rc = VA_RC_NONE ->
   config_creation_proceeds 9 4 (config_with VA_RC_NONE) queried r) /\
  (rc <> VA_RC_NONE ->
   (Z.land v1 rc <> rc <->
    snd r =
      queried ++
      [EvLog LError
         (MsgUnsupportedRateControl (string_of_VARateControl sample_env rc));
       EvArrayFree]) /\
   (Z.land v1 rc <> rc ->
    snd (fst r) = false /\
    va_config (fst (fst r)) = va_config context /\
    object_id (fst (fst r)) = object_id context) /\
   (Z.land v1 rc = rc ->
    config_creation_proceeds 9 4 (config_with rc) queried r)).
Proof.
  split.
  - repeat apply conj; [ reflexivity | reflexivity | discriminate ].
  - apply (context_create_rate_control sample_env
             (sample_fresh_session sample_encode_cip) []
             sample_log_before_query sample_log_after_query 9 4
             sample_queried_attribs);
      [ reflexivity | reflexivity | discriminate ].
Defined.

(** CBR on a driver without the CBR bit, from a fresh session: after
    the query the error is logged, the id snapshot is freed, and the
    call returns FALSE without a configuration. *)
Example context_create_unsupported_rate_control :
  let r := context_create sample_env_no_cbr
             (sample_fresh_session sample_encode_cip) [] in
  snd (fst r) = false /\
  va_config (fst (fst r)) = VA_INVALID_ID /\
  snd r =
    sample_log_before_query ++
    [EvVaGetConfigAttributes 9 4
       [mkAttrib VAConfigAttribRTFormat 1;
        mkAttrib VAConfigAttribRateControl 0x14] VA_STATUS_SUCCESS;
     EvDisplayUnlock;
     EvLog LError (MsgUnsupportedRateControl "CBR"); EvArrayFree].
Proof. now vm_compute. Qed.

(** A mode that maps to [VA_RC_NONE], on a driver that reports no
    rate-control bit at all: the attribute is overridden and the
    configuration is created with [VA_RC_NONE]. *)
Example context_create_rate_control_none :
  let r := context_create (sample_env_with VA_RT_FORMAT_YUV420 0 (fun _ => true))
             (sample_fresh_session (mkInfo 9 4 0 320 240 2)) [] in
  snd (fst r) = true /\
  filter is_create_call (snd r) =
    [EvVaCreateConfig 9 4
       [mkAttrib VAConfigAttribRTFormat 1;
        mkAttrib VAConfigAttribRateControl VA_RC_NONE] VA_STATUS_SUCCESS
       0x02000000;
     EvVaCreateContext 0x02000000 320 240 VA_PROGRESSIVE [4; 7; 10; 13; 16; 19]
       VA_STATUS_SUCCESS 0x03000000].
Proof. now vm_compute. Qed.

Lemma gst_vaapi_context_reset_rate_control_only_witness :
  (surfaces (sample_session sample_encode_cip) =
     Some (map Some sample_surfaces) /\
   entrypoint sample_encode_cip =
     GST_VAAPI_ENTRYPOINT_SLICE_ENCODE sample_env /\
   profile sample_encode_vbr_cip = profile sample_encode_cip /\
   entrypoint sample_encode_vbr_cip = entrypoint sample_encode_cip /\
   width sample_encode_vbr_cip = width sample_encode_cip /\
   height sample_encode_vbr_cip = height sample_encode_cip /\
   ref_frames sample_encode_vbr_cip = ref_frames sample_encode_cip /\
   rc_mode sample_encode_vbr_cip <> rc_mode sample_encode_cip) /\
  let r := gst_vaapi_context_reset sample_env
             (sample_session sample_encode_cip) sample_encode_vbr_cip [] in
  same_surfaces (sample_session sample_encode_cip) (fst (fst r)) /\
  info (fst (fst r)) = sample_encode_vbr_cip /\
  exists st_context st_config created,
    let destroyed :=
      [EvLog LDebug (MsgContext 0x03000000)] ++
      destroy_step_events 0x03000000 st_context
        EvVaDestroyContext MsgDestroyContextFailed ++
      destroy_step_events 0x02000000 st_config
        EvVaDestroyConfig MsgDestroyConfigFailed in
    snd r = [] ++ destroyed ++ created /\
    surface_calls (destroyed ++ created) = [] /\
    filter is_build_call destroyed = [] /\
    filter is_teardown_call created = [] /\
    exists ids v0 v1 config context_id,
      surface_ids (map Some sample_surfaces) = Some ids /\
      created =
        create_events 9 4 320 240 (map Some sample_surfaces) ids v0 v1 0x04
          config context_id /\
      Z.land v0 VA_RT_FORMAT_YUV420 <> 0 /\
      (0x04 = VA_RC_NONE \/ Z.land v1 0x04 = 0x04) /\
      va_config (fst (fst r)) = config /\
      object_id (fst (fst r)) = context_id.
Proof.
  split.
  - repeat apply conj; first [ reflexivity | discriminate ].
  - apply (gst_vaapi_context_reset_rate_control_only sample_env
             (sample_session sample_encode_cip) sample_encode_vbr_cip
             (map Some sample_surfaces) []);
      first [ reflexivity | discriminate ].
Defined.

Lemma context_create_requires_yuv420_witness :
  (snd (context_create sample_env_yuv422
          (sample_session sample_decode_cip) []) =
     [] ++ [EvArraySizedNew 6 true; EvDisplayLock;
            EvVaGetConfigAttributes 9 1 [mkAttrib VAConfigAttribRTFormat 2]
              VA_STATUS_SUCCESS;
            EvDisplayUnlock; EvArrayFree] /\
   In (EvVaGetConfigAttributes 9 1 [mkAttrib VAConfigAttribRTFormat 2]
         VA_STATUS_SUCCESS)
      [EvArraySizedNew 6 true; EvDisplayLock;
       EvVaGetConfigAttributes 9 1 [mkAttrib VAConfigAttribRTFormat 2]
         VA_STATUS_SUCCESS;
       EvDisplayUnlock; EvArrayFree] /\
   Z.land (attrib_value_at [mkAttrib VAConfigAttribRTFormat 2] 0)
     VA_RT_FORMAT_YUV420 = 0) /\
  snd (fst (context_create sample_env_yuv422
              (sample_session sample_decode_cip) [])) = false /\
  va_config (fst (fst (context_create sample_env_yuv422
                         (sample_session sample_decode_cip) []))) =
    va_config (sample_session sample_decode_cip) /\
  object_id (fst (fst (context_create sample_env_yuv422
                         (sample_session sample_decode_cip) []))) =
    object_id (sample_session sample_decode_cip) /\
  filter is_create_call
    [EvArraySizedNew 6 true; EvDisplayLock;
     EvVaGetConfigAttributes 9 1 [mkAttrib VAConfigAttribRTFormat 2]
       VA_STATUS_SUCCESS;
     EvDisplayUnlock; EvArrayFree] = [].
Proof.
  split.
  - repeat apply conj; [ reflexivity | | reflexivity ].
    right. right. left. reflexivity.
  - apply (context_create_requires_yuv420 sample_env_yuv422
             (sample_session sample_decode_cip) [] _ 9 1
             [mkAttrib VAConfigAttribRTFormat 2] VA_STATUS_SUCCESS);
      [ reflexivity | | reflexivity ].
    right. right. left. reflexivity.
Defined.

(** C2 as stated does not hold: for a decoder, the stored rate-control
    mode and reference-frame count are not the new ones after a reset. *)
Lemma gst_vaapi_context_reset_keeps_fields_counterexample :
  rc_mode (info (fst (fst (gst_vaapi_context_reset sample_env
                             (sample_session sample_decode_cip)
                             sample_decode_other_cip [])))) <>
    rc_mode sample_decode_other_cip /\
  ref_frames (info (fst (fst (gst_vaapi_context_reset sample_env
                                (sample_session sample_decode_cip)
                                sample_decode_other_cip [])))) <>
    ref_frames sample_decode_other_cip.
Proof. split; vm_compute; discriminate. Qed.

(** C7 as stated does not hold for a session without a surface set.
    Such a session is what a resize leaves when the overlay reset of the
    rebuild fails; a later reset that changes the rate-control mode only
    then builds an array and a pool, with the calls that takes. *)
Lemma gst_vaapi_context_reset_rate_control_counterexample :
  exists s0 tr0 tr1,
    gst_vaapi_context_new sample_env_overlay_fails sample_encode_cip [] =
      (Some s0, tr0) /\
    gst_vaapi_context_reset sample_env_overlay_fails s0
      sample_encode_resized_cip tr0 =
      ((sample_stalled_session, false), tr1) /\
    entrypoint (info sample_stalled_session) =
      GST_VAAPI_ENTRYPOINT_SLICE_ENCODE sample_env_overlay_fails /\
    set_rc_mode (info sample_stalled_session) GST_VAAPI_RATECONTROL_VBR =
      sample_encode_resized_vbr_cip /\
    surfaces (fst (fst (gst_vaapi_context_reset sample_env_overlay_fails
                          sample_stalled_session
                          sample_encode_resized_vbr_cip tr1))) <>
      surfaces sample_stalled_session /\
    surfaces_pool (fst (fst (gst_vaapi_context_reset sample_env_overlay_fails
                               sample_stalled_session
                               sample_encode_resized_vbr_cip tr1))) <>
      surfaces_pool sample_stalled_session /\
    surface_calls (snd (gst_vaapi_context_reset sample_env_overlay_fails
                          sample_stalled_session
                          sample_encode_resized_vbr_cip tr1)) <>
      surface_calls tr1.
Proof.
  do 3 eexists.
  split; [ vm_compute; reflexivity | ].
  split; [ vm_compute; reflexivity | ].
  repeat split; vm_compute; discriminate.
Qed.

(** * Further properties *)

(** ** Descriptors that [gst_vaapi_context_new] and
    [gst_vaapi_context_reset] do not act on *)

Lemma new_rejects_invalid_descriptor env cip tr :
  profile cip = 0 \/ entrypoint cip = 0 \/ width cip <= 0 \/ height cip <= 0 ->
  exists expr,
    gst_vaapi_context_new env cip tr =
    (None, tr ++ [EvLog LCritical (MsgCheckFailed expr)]).
Proof.
  intros H. unfold gst_vaapi_context_new.
  destruct (profile cip =? 0) eqn:Ep; [ eexists; reflexivity | ].
  destruct (entrypoint cip =? 0) eqn:Ee; [ eexists; reflexivity | ].
  destruct (width cip >? 0) eqn:Ew; [ | eexists; reflexivity ].
  destruct (height cip >? 0) eqn:Eh; [ | eexists; reflexivity ].
  apply Z.eqb_neq in Ep, Ee. apply Z.gtb_lt in Ew, Eh. lia.
Qed.

(** X1.  A descriptor without profile or entry point, or with a width or
    height that is not positive, is refused by [gst_vaapi_context_new]
    at once: it returns NULL and logs the failed check, no object is
    allocated and nothing else is called. *)
Theorem gst_vaapi_context_new_rejects_invalid env cip tr :
  profile cip = 0 \/ entrypoint cip = 0 \/ width cip <= 0 \/ height cip <= 0 ->
  exists expr,
    gst_vaapi_context_new env cip tr =
    (None, tr ++ [EvLog LCritical (MsgCheckFailed expr)]).
Proof. apply new_rejects_invalid_descriptor. Qed.

Lemma reset_noop env context new_cip tr :
  width new_cip = width (info context) ->
  height new_cip = height (info context) ->
  profile new_cip = profile (info context) ->
  entrypoint new_cip = entrypoint (info context) ->
  (entrypoint new_cip = GST_VAAPI_ENTRYPOINT_SLICE_ENCODE env ->
   rc_mode new_cip = rc_mode (info context)) ->
  gst_vaapi_context_reset env context new_cip tr = ((context, true), tr).
Proof.
  intros Hw Hh Hp He Hrc. rewrite reset_decompose.
  assert (reset_size_changed (info context) new_cip = false) as ->.
  { unfold reset_size_changed. now rewrite Hw, Hh, !Z.eqb_refl. }
  assert (reset_config_changed env (info context) new_cip = false) as ->.
  { unfold reset_config_changed. rewrite Hp, <- He, !Z.eqb_refl. simpl.
    destruct (_ =? GST_VAAPI_ENTRYPOINT_SLICE_ENCODE env) eqn:E;
      [ | reflexivity ].
    apply Z.eqb_eq in E. now rewrite (Hrc E), Z.eqb_refl. }
  assert (reset_descriptor env (info context) new_cip = info context) as ->.
  { unfold reset_descriptor.
    destruct (_ =? GST_VAAPI_ENTRYPOINT_SLICE_ENCODE env) eqn:E.
    - apply Z.eqb_eq in E. rewrite (Hrc E), Hw, Hh, Hp, He.
      now destruct (info context).
    - rewrite Hw, Hh, Hp, He. now destruct (info context). }
  now destruct context.
Qed.

(** X2.  [gst_vaapi_context_reset] looks at the width, the height, the
    profile and the entry point, and at the rate-control mode when the
    new entry point is slice-encode.  A descriptor that agrees with the
    stored one on these is not acted on at all, whatever its
    reference-frame count (and, for another entry point, whatever its
    rate-control mode): the session and the log are unchanged and the
    result is TRUE. *)
Theorem gst_vaapi_context_reset_ignores_other_fields env context new_cip tr :
  width new_cip = width (info context) ->
  height new_cip = height (info context) ->
  profile new_cip = profile (info context) ->
  entrypoint new_cip = entrypoint (info context) ->
  (entrypoint new_cip = GST_VAAPI_ENTRYPOINT_SLICE_ENCODE env ->
   rc_mode new_cip = rc_mode (info context)) ->
  gst_vaapi_context_reset env context new_cip tr = ((context, true), tr).
Proof. apply reset_noop. Qed.

(** X3.  Resetting again to the descriptor of the reset before does
    nothing and returns TRUE, also when that reset failed: the
    descriptor was stored before the rebuild, so the second call finds
    nothing changed and rebuilds nothing. *)
Theorem gst_vaapi_context_reset_again_does_nothing env context new_cip tr :
  gst_vaapi_context_reset env
    (fst (fst (gst_vaapi_context_reset env context new_cip tr))) new_cip
    (snd (gst_vaapi_context_reset env context new_cip tr)) =
  ((fst (fst (gst_vaapi_context_reset env context new_cip tr)), true),
   snd (gst_vaapi_context_reset env context new_cip tr)).
Proof.
  pose proof (reset_rebuild_info env
                (reset_size_changed (info context) new_cip)
                (reset_config_changed env (info context) new_cip)
                (set_info context (reset_descriptor env (info context) new_cip))
                tr) as Hinfo.
  rewrite <- reset_decompose in Hinfo. simpl in Hinfo.
  apply reset_noop; rewrite Hinfo; try reflexivity.
  unfold reset_descriptor. simpl. intros ->. now rewrite Z.eqb_refl.
Qed.

Lemma context_create_failure_keeps_id env context tr :
  snd (fst (context_create env context tr)) = false ->
  object_id (fst (fst (context_create env context tr))) = object_id context.
Proof.
  destruct (surfaces context) as [arr|] eqn:Hs.
  - pose proof (context_create_outcome_with_surfaces env context arr tr Hs)
      as H.
    unfold context_create_outcome in H. intros Hok. now rewrite Hok in H.
  - rewrite context_create_without_surfaces by assumption.
    pose proof (context_create_surfaces_result env context tr)
      as [[Hid _] [Hsome _]].
    destruct (context_create_surfaces env context tr) as [[c1 ok] tr1].
    simpl in *. destruct ok; [ | now intros _ ].
    destruct (surfaces c1) as [arr|] eqn:E; [ | now elim Hsome ].
    pose proof (context_create_outcome_with_surfaces env c1 arr tr1 E) as H.
    unfold context_create_outcome in H. intros Hok. rewrite Hok in H.
    congruence.
Qed.

Lemma reset_rebuild_failure_drops_context env size_changed context :
  returns (fun r => snd r = false -> object_id (fst r) = VA_INVALID_ID)
    (reset_rebuild env size_changed true context).
Proof.
  unfold reset_rebuild.
  apply returns_bind with (P := fun _ => True); [ apply returns_any | ].
  intros c1 _.
  apply returns_bind with (P := fun c => object_id c = VA_INVALID_ID).
  { eapply returns_weaken; [ apply context_destroy_result | ].
    now intros c ->. }
  intros c2 H2.
  apply returns_bind
    with (P := fun r => object_id (fst r) = VA_INVALID_ID).
  { destruct size_changed; [ | now apply returns_ret ].
    eapply returns_weaken; [ apply context_create_surfaces_result | ].
    intros r [[Hid _] _]. congruence. }
  intros [c3 ok3] H3. simpl in H3.
  destruct ok3; simpl; [ | now apply returns_ret ].
  apply returns_bind
    with (P := fun r => snd r = false -> object_id (fst r) = VA_INVALID_ID).
  { intros t Hok. now rewrite context_create_failure_keeps_id. }
  intros [c4 ok4] H4. simpl in H4.
  destruct ok4; simpl; apply returns_ret; [ discriminate | now intros _; auto ].
Qed.

(** X4.  When a reset has to replace the configuration and the context
    (the profile or the entry point changes, or the rate-control mode of
    an encoder) and returns FALSE, the session is left without a
    context: its context id is the invalid sentinel. *)
Theorem gst_vaapi_context_reset_failure_drops_context env context new_cip tr :
  reset_config_changed env (info context) new_cip = true ->
  snd (fst (gst_vaapi_context_reset env context new_cip tr)) = false ->
  fst (gst_vaapi_context_get_id
         (Some (fst (fst (gst_vaapi_context_reset env context new_cip tr))))
         (snd (gst_vaapi_context_reset env context new_cip tr))) =
  VA_INVALID_ID.
Proof.
  intros Hc. rewrite reset_decompose, Hc. simpl.
  apply reset_rebuild_failure_drops_context.
Qed.

Lemma gst_vaapi_context_reset_failure_drops_context_witness :
  (reset_config_changed sample_env_yuv422 (info (sample_session sample_encode_cip))
     sample_encode_vbr_cip = true /\
   snd (fst (gst_vaapi_context_reset sample_env_yuv422
               (sample_session sample_encode_cip) sample_encode_vbr_cip [])) =
   false) /\
  fst (gst_vaapi_context_get_id
         (Some (fst (fst (gst_vaapi_context_reset sample_env_yuv422
                            (sample_session sample_encode_cip)
                            sample_encode_vbr_cip []))))
         (snd (gst_vaapi_context_reset sample_env_yuv422
                 (sample_session sample_encode_cip) sample_encode_vbr_cip []))) =
  VA_INVALID_ID.
Proof.
  split.
  - split; reflexivity.
  - apply (gst_vaapi_context_reset_failure_drops_context sample_env_yuv422
             (sample_session sample_encode_cip) sample_encode_vbr_cip []);
      reflexivity.
Defined.

Lemma gst_vaapi_context_new_rejects_invalid_witness :
  (profile (mkInfo 9 1 0 0 240 2) = 0 \/ entrypoint (mkInfo 9 1 0 0 240 2) = 0 \/
   width (mkInfo 9 1 0 0 240 2) <= 0 \/ height (mkInfo 9 1 0 0 240 2) <= 0) /\
  exists expr,
    gst_vaapi_context_new sample_env (mkInfo 9 1 0 0 240 2) [] =
    (None, [] ++ [EvLog LCritical (MsgCheckFailed expr)]).
Proof.
  split.
  - right. right. left. discriminate.
  - apply (gst_vaapi_context_new_rejects_invalid sample_env
             (mkInfo 9 1 0 0 240 2) []).
    right. right. left. discriminate.
Defined.

Lemma gst_vaapi_context_reset_ignores_other_fields_witness :
  (width sample_decode_other_cip = width sample_decode_cip /\
   height sample_decode_other_cip = height sample_decode_cip /\
   profile sample_decode_other_cip = profile sample_decode_cip /\
   entrypoint sample_decode_other_cip = entrypoint sample_decode_cip /\
   (entrypoint sample_decode_other_cip =
      GST_VAAPI_ENTRYPOINT_SLICE_ENCODE sample_env ->
    rc_mode sample_decode_other_cip = rc_mode sample_decode_cip)) /\
  gst_vaapi_context_reset sample_env (sample_session sample_decode_cip)
    sample_decode_other_cip [] =
  ((sample_session sample_decode_cip, true), []).
Proof.
  split.
  - repeat apply conj; first [ reflexivity | discriminate ].
  - apply (gst_vaapi_context_reset_ignores_other_fields sample_env
             (sample_session sample_decode_cip) sample_decode_other_cip []);
      first [ reflexivity | discriminate ].
Defined.

(** ** The display lock *)

Lemma lock_run_app s d1 d2 :
  lock_run s (d1 ++ d2) =
  match lock_run s d1 with
  | Some s' => lock_run s' d2
  | None => None
  end.
Proof.
  revert s. induction d1 as [|e d1 IH]; intros s; simpl; [ reflexivity | ].
  destruct (lock_step s e); [ apply IH | reflexivity ].
Qed.

Lemma locks_ret {A} s (a : A) : locks s s (ret a).
Proof. intros tr. exists []. simpl. now rewrite app_nil_r. Qed.

Lemma locks_bind {A B} s s' s'' (m : M A) (k : A -> M B) :
  locks s s' m -> (forall a, locks s' s'' (k a)) -> locks s s'' (bind m k).
Proof.
  intros Hm Hk tr. unfold bind.
  destruct (Hm tr) as [d1 [E1 L1]].
  destruct (m tr) as [a tr1]. simpl in E1. subst tr1.
  destruct (Hk a (tr ++ d1)) as [d2 [E2 L2]].
  exists (d1 ++ d2). rewrite E2, lock_run_app, L1, app_assoc. now split.
Qed.

Lemma locks_emit s s' e : lock_step s e = Some s' -> locks s s' (emit e).
Proof. intros H tr. exists [e]. simpl. now rewrite H. Qed.

Lemma locks_ask {A} s s' (answer : Trace -> A) (ev : A -> Event) :
  (forall a, lock_step s (ev a) = Some s') -> locks s s' (ask answer ev).
Proof. intros H tr. exists [ev (answer tr)]. simpl. now rewrite H. Qed.

Lemma locks_when s b m : locks s s m -> locks s s (when b m).
Proof. destruct b; simpl; auto using locks_ret. Qed.

Ltac locks_step :=
  lazymatch goal with
  | |- locks _ _ (ret _) => apply locks_ret
  | |- locks _ _ (bind _ _) => eapply locks_bind; [ | intros ]
  | |- locks _ _ (emit _) => apply locks_emit; reflexivity
  | |- locks _ _ (ask _ _) => apply locks_ask; intros; reflexivity
  | |- locks _ _ (when _ _) => apply locks_when
  | |- locks _ _ (match ?x with _ => _ end) => destruct x
  | |- locks _ _ (let _ := _ in _) => cbv zeta
  end.

Ltac locks_auto := unfold_calls; repeat (locks_step; try eassumption).

Lemma g_ptr_array_unref_locks arr :
  locks Unlocked Unlocked (g_ptr_array_unref arr).
Proof. induction arr as [|s arr IH]; simpl; locks_auto. Qed.

Lemma context_destroy_surfaces_locks env context :
  locks Unlocked Unlocked (context_destroy_surfaces env context).
Proof.
  unfold context_destroy_surfaces. locks_auto.
  apply g_ptr_array_unref_locks.
Qed.

Lemma context_destroy_locks env context :
  locks Unlocked Unlocked (context_destroy env context).
Proof. unfold context_destroy. locks_auto. Qed.

Lemma create_surfaces_loop_locks env n w h : forall arr pool,
  locks Unlocked Unlocked (create_surfaces_loop env n w h arr pool).
Proof.
  induction n as [|n IH]; intros arr pool; simpl; locks_auto. apply IH.
Qed.

Lemma context_create_surfaces_locks env context :
  locks Unlocked Unlocked (context_create_surfaces env context).
Proof.
  unfold context_create_surfaces. locks_auto.
  apply create_surfaces_loop_locks.
Qed.

Lemma context_create_locks env context :
  locks Unlocked Unlocked (context_create env context).
Proof.
  unfold context_create. locks_auto.
  all: try apply context_create_surfaces_locks.
Qed.

Ltac locks_calls :=
  first [ apply context_destroy_locks
        | apply context_destroy_surfaces_locks
        | apply context_create_surfaces_locks
        | apply context_create_locks ].

Ltac locks_all := unfold_calls; repeat first [ locks_step | locks_calls ].

(** X5.  Every function of the file that reaches the driver keeps the
    display lock discipline: in what it adds to the log, each driver
    call is the one thing done between taking the lock and dropping it,
    nothing else happens while the lock is held, and the lock is free
    again when the function returns, on every path. *)
Theorem display_lock_discipline env :
  (forall cip, locks Unlocked Unlocked (gst_vaapi_context_new env cip)) /\
  (forall context new_cip,
     locks Unlocked Unlocked (gst_vaapi_context_reset env context new_cip)) /\
  (forall context,
     locks Unlocked Unlocked (gst_vaapi_context_finalize env context)) /\
  (forall context type out_value_ptr,
     locks Unlocked Unlocked
       (gst_vaapi_context_get_attribute env context type out_value_ptr)).
Proof.
  assert (Hfin : forall context,
             locks Unlocked Unlocked (gst_vaapi_context_finalize env context)).
  { intros context. unfold gst_vaapi_context_finalize. locks_all. }
  repeat split.
  - intros cip. unfold gst_vaapi_context_new, gst_vaapi_object_new_context,
      gst_vaapi_context_init, gst_vaapi_object_unref_context.
    unfold_calls. unfold GST_LOG.
    repeat first [ locks_step | locks_calls | apply Hfin ].
  - intros context new_cip. rewrite reset_decompose. unfold reset_rebuild.
    locks_all.
  - exact Hfin.
  - intros context type out. unfold gst_vaapi_context_get_attribute.
    unfold_calls. unfold GST_LOG. repeat locks_step.
Qed.

(** The discipline is not empty: a driver call outside the lock, a lock
    taken twice and a lock held at the end are all refused. *)
Example lock_run_refuses :
  lock_run Unlocked [EvVaDestroyContext 1 0] = None /\
  lock_run Unlocked [EvDisplayLock; EvDisplayLock] = None /\
  lock_run Unlocked [EvDisplayLock; EvVaDestroyContext 1 0] = Some Called /\
  lock_run Unlocked
    [EvDisplayLock; EvVaDestroyContext 1 0; EvVaDestroyConfig 1 0] = None /\
  lock_run Unlocked
    [EvDisplayLock; EvVaDestroyContext 1 0; EvDisplayUnlock] = Some Unlocked.
Proof. repeat split. Qed.

(** ** Ownership of surfaces *)

Ltac counters :=
  unfold surfaces_allocated, surfaces_registered, surfaces_released,
    configs_created, configs_destroyed, contexts_created, contexts_destroyed;
  rewrite ?flat_map_app; simpl; rewrite ?app_nil_r.

Lemma create_surfaces_loop_accounts env n w h : forall arr pool tr,
  exists delta rest,
    snd (create_surfaces_loop env n w h arr pool tr) = tr ++ delta /\
    fst (fst (fst (create_surfaces_loop env n w h arr pool tr))) =
      arr ++ map Some (surfaces_allocated delta) /\
    free_objects (snd (fst (fst (create_surfaces_loop env n w h arr pool tr)))) =
      free_objects pool ++ surfaces_registered delta /\
    surfaces_allocated delta = surfaces_registered delta ++ rest /\
    (List.length rest <= 1)%nat /\
    (snd (fst (create_surfaces_loop env n w h arr pool tr)) = true ->
     rest = []).
Proof.
  induction n as [|n IH]; intros arr pool tr; simpl.
  - exists [], []. simpl. rewrite !app_nil_r. repeat split. lia.
  - unfold_calls. unfold bind, ask, emit, ret.
    destruct (gst_vaapi_surface_new env tr w h) as [s|] eqn:Es; simpl.
    + destruct (gst_vaapi_video_pool_add_object env _ s) eqn:Ea; simpl.
      * match goal with
        | |- context [create_surfaces_loop env n w h ?a ?p ?t] =>
            destruct (IH a p t) as [d [rest [Ht [Harr [Hfree [Hal [Hlen Hok]]]]]]]
        end.
        exists ([EvSurfaceNew w h (Some s); EvSurfaceSetParent s true;
                 EvPoolAddObject s true] ++ d), rest.
        rewrite Ht, Harr, Hfree. simpl. counters. rewrite <- !app_assoc.
        simpl. fold (surfaces_allocated d). fold (surfaces_registered d).
        rewrite Hal. repeat split; auto.
        rewrite <- !app_assoc in Hok. exact Hok.
      * exists [EvSurfaceNew w h (Some s); EvSurfaceSetParent s true;
                EvPoolAddObject s false], [s].
        simpl. rewrite <- !app_assoc, app_nil_r. simpl.
        repeat split; auto. discriminate.
    + exists [EvSurfaceNew w h None], []. simpl. rewrite !app_nil_r.
      repeat split. lia.
Qed.

Ltac account_loop pre :=
  match goal with
  | |- context [create_surfaces_loop ?e ?n ?w ?h ?a ?p ?t] =>
      let d := fresh "d" in
      let rest := fresh "rest" in
      destruct (create_surfaces_loop_accounts e n w h a p t)
        as [d [rest [?Ht [?Harr [?Hfree [?Hal [?Hlen ?Hok]]]]]]];
      destruct (create_surfaces_loop e n w h a p t) as [[[? ?] ?] ?];
      simpl in *; subst;
      exists (pre ++ d), rest;
      counters; fold (surfaces_allocated d); fold (surfaces_registered d);
      rewrite <- ?app_assoc; simpl; repeat split; auto
  end.

Ltac account_stop delta :=
  exists delta, (@nil GstVaapiSurface); simpl;
  rewrite <- ?app_assoc, ?app_nil_r; simpl; repeat split; auto.

Lemma context_create_surfaces_accounts env context tr :
  exists delta rest,
    snd (context_create_surfaces env context tr) = tr ++ delta /\
    array_of (fst (fst (context_create_surfaces env context tr))) =
      array_of context ++ map Some (surfaces_allocated delta) /\
    free_of (fst (fst (context_create_surfaces env context tr))) =
      free_of context ++ surfaces_registered delta /\
    surfaces_allocated delta = surfaces_registered delta ++ rest /\
    (List.length rest <= 1)%nat /\
    (snd (fst (context_create_surfaces env context tr)) = true -> rest = []).
Proof.
  unfold context_create_surfaces, array_of, free_of.
  unfold_calls. unfold bind, ask, emit, ret.
  destruct (gst_vaapi_context_overlay_reset env tr) eqn:Eo; simpl.
  2: { exists [EvOverlayReset false], []. simpl. rewrite !app_nil_r.
       repeat split. lia. }
  destruct context as [d i vp ve vc [arr|] [pool|]]; simpl.
  - account_loop [EvOverlayReset true;
                  EvPoolSetCapacity
                    (to_guint (ref_frames i + SCRATCH_SURFACES_COUNT))].
  - destruct (gst_vaapi_surface_pool_new env _ _ _) eqn:Ep; simpl.
    + account_loop [EvOverlayReset true;
                    EvSurfacePoolNew (width i) (height i) true;
                    EvPoolSetCapacity
                      (to_guint (ref_frames i + SCRATCH_SURFACES_COUNT))].
    + account_stop [EvOverlayReset true;
                    EvSurfacePoolNew (width i) (height i) false].
  - destruct (g_ptr_array_new_full env _ _) eqn:Ea; simpl.
    + account_loop [EvOverlayReset true;
                    EvPtrArrayNew
                      (to_guint (ref_frames i + SCRATCH_SURFACES_COUNT)) true;
                    EvPoolSetCapacity
                      (to_guint (ref_frames i + SCRATCH_SURFACES_COUNT))].
    + account_stop [EvOverlayReset true;
                    EvPtrArrayNew
                      (to_guint (ref_frames i + SCRATCH_SURFACES_COUNT)) false].
  - destruct (g_ptr_array_new_full env _ _) eqn:Ea; simpl.
    + destruct (gst_vaapi_surface_pool_new env _ _ _) eqn:Ep; simpl.
      * account_loop [EvOverlayReset true;
                      EvPtrArrayNew
                        (to_guint (ref_frames i + SCRATCH_SURFACES_COUNT)) true;
                      EvSurfacePoolNew (width i) (height i) true;
                      EvPoolSetCapacity
                        (to_guint (ref_frames i + SCRATCH_SURFACES_COUNT))].
      * account_stop [EvOverlayReset true;
                      EvPtrArrayNew
                        (to_guint (ref_frames i + SCRATCH_SURFACES_COUNT)) true;
                      EvSurfacePoolNew (width i) (height i) false].
    + account_stop [EvOverlayReset true;
                    EvPtrArrayNew
                      (to_guint (ref_frames i + SCRATCH_SURFACES_COUNT)) false].
Qed.

(** X6.  Whatever [context_create_surfaces] allocates it owns: in every
    outcome, the slots added to the array are exactly the surfaces that
    were allocated, in order, and the buffers added to the pool are
    exactly those whose registration succeeded.  Only the last
    allocation can be missing from the pool, and none is when the call
    returns TRUE. *)
Theorem context_create_surfaces_owns_allocations env context tr :
  exists delta rest,
    snd (context_create_surfaces env context tr) = tr ++ delta /\
    array_of (fst (fst (context_create_surfaces env context tr))) =
      array_of context ++ map Some (surfaces_allocated delta) /\
    free_of (fst (fst (context_create_surfaces env context tr))) =
      free_of context ++ surfaces_registered delta /\
    surfaces_allocated delta = surfaces_registered delta ++ rest /\
    (List.length rest <= 1)%nat /\
    (snd (fst (context_create_surfaces env context tr)) = true -> rest = []).
Proof. apply context_create_surfaces_accounts. Qed.

Ltac bool_hyps :=
  repeat match goal with
         | H : negb _ = false |- _ => apply negb_false_iff in H
         | H : negb _ = true |- _ => apply negb_true_iff in H
         end.

Ltac rewrite_bools :=
  repeat match goal with
         | H : ?b = true |- context [?b] => rewrite H
         | H : ?b = false |- context [?b] => rewrite H
         end.

Lemma context_create_accounts_with_surfaces env context arr tr :
  driver_stores_no_config_on_failure env ->
  surfaces context = Some arr ->
  exists delta,
    snd (context_create env context tr) = tr ++ delta /\
    surfaces (fst (fst (context_create env context tr))) = Some arr /\
    surfaces_allocated delta = [] /\
    filter is_teardown_call delta = [] /\
    (configs_created delta = [] /\
     (va_config (fst (fst (context_create env context tr))) =
        va_config context \/
      va_config (fst (fst (context_create env context tr))) =
        VA_INVALID_ID) \/
     configs_created delta =
       [va_config (fst (fst (context_create env context tr)))]) /\
    (if snd (fst (context_create env context tr))
     then contexts_created delta =
            [object_id (fst (fst (context_create env context tr)))]
     else contexts_created delta = [] /\
          object_id (fst (fst (context_create env context tr))) =
            object_id context).
Proof.
  intros Hdrv Hs. run_create Hs.
  repeat case_step; bool_hyps;
    (eexists; split; [ rewrite <- ?app_assoc; reflexivity | ]);
    counters; rewrite_bools; simpl; rewrite ?Hs; repeat split; auto;
    left; (split; [ reflexivity | ]); right;
    match goal with
    | E : vaCreateConfig env ?t ?p ?e ?a = (_, Some ?id)
      |- to_guint ?id = _ =>
        apply (Hdrv t p e a id); rewrite E; simpl;
        [ apply Z.eqb_neq; assumption | reflexivity ]
    end.
Qed.

(** ** Release of what was acquired *)

Lemma flat_map_quiet {B} (f : Event -> list B) (p : Event -> bool) d :
  (forall e, p e = false -> f e = []) -> filter p d = [] -> flat_map f d = [].
Proof.
  intros Hf. induction d as [|e d IH]; [ reflexivity | ].
  simpl. destruct (p e) eqn:Ep; [ discriminate | ].
  intros H. now rewrite (Hf e Ep), IH.
Qed.

Lemma no_teardown_counters d :
  filter is_teardown_call d = [] ->
  surfaces_released d = [] /\ configs_destroyed d = [] /\
  contexts_destroyed d = [].
Proof.
  intros H. repeat split;
    (apply flat_map_quiet with (p := is_teardown_call);
     [ intros e; now destruct e | exact H ]).
Qed.

Lemma no_build_counters d :
  filter is_build_call d = [] ->
  surfaces_allocated d = [] /\ surfaces_registered d = [] /\
  configs_created d = [] /\ contexts_created d = [].
Proof.
  intros H. repeat split;
    (apply flat_map_quiet with (p := is_build_call);
     [ intros e; now destruct e | exact H ]).
Qed.

Lemma no_hardware_created d :
  filter is_hardware_call d = [] ->
  configs_created d = [] /\ contexts_created d = [].
Proof.
  intros H. repeat split;
    (apply flat_map_quiet with (p := is_hardware_call);
     [ intros e; now destruct e | exact H ]).
Qed.

Lemma slots_surfaces_map_Some l : slots_surfaces (map Some l) = l.
Proof. induction l as [|s l IH]; simpl; [ reflexivity | now rewrite IH ]. Qed.

Lemma slots_surfaces_app a b :
  slots_surfaces (a ++ b) = slots_surfaces a ++ slots_surfaces b.
Proof. apply flat_map_app. Qed.

Lemma release_events_counters context :
  surfaces_released (release_events context) =
    slots_surfaces (array_of context) /\
  configs_destroyed (release_events context) = [] /\
  contexts_destroyed (release_events context) = [].
Proof.
  unfold release_events, array_of.
  assert (Hu : forall arr,
             surfaces_released (unref_events arr) = slots_surfaces arr /\
             configs_destroyed (unref_events arr) = [] /\
             contexts_destroyed (unref_events arr) = []).
  { induction arr as [|[s|] arr [IH1 [IH2 IH3]]]; simpl; auto.
    repeat split; auto. now rewrite IH1. }
  destruct (surfaces context) as [arr|];
    destruct (surfaces_pool context); counters;
    try (destruct (Hu arr) as [H1 [H2 H3]]); auto.
Qed.

Lemma destroy_step_counters id status :
  contexts_destroyed
    (destroy_step_events id status EvVaDestroyContext MsgDestroyContextFailed) =
    valid_ids [id] /\
  configs_destroyed
    (destroy_step_events id status EvVaDestroyConfig MsgDestroyConfigFailed) =
    valid_ids [id] /\
  contexts_destroyed
    (destroy_step_events id status EvVaDestroyConfig MsgDestroyConfigFailed) =
    [] /\
  configs_destroyed
    (destroy_step_events id status EvVaDestroyContext MsgDestroyContextFailed) =
    [] /\
  surfaces_released
    (destroy_step_events id status EvVaDestroyContext MsgDestroyContextFailed) =
    [] /\
  surfaces_released
    (destroy_step_events id status EvVaDestroyConfig MsgDestroyConfigFailed) =
    [].
Proof.
  unfold destroy_step_events, valid_ids. simpl.
  destruct (id =? VA_INVALID_ID); simpl; [ now repeat split | ].
  destruct (vaapi_check_status status); now repeat split.
Qed.

Lemma teardown_counts_app d1 d2 r1 r2 c1 c2 x1 x2 :
  teardown_counts d1 r1 c1 x1 -> teardown_counts d2 r2 c2 x2 ->
  teardown_counts (d1 ++ d2) (r1 ++ r2) (c1 ++ c2) (x1 ++ x2).
Proof.
  intros [H1 [H2 H3]] [H4 [H5 H6]]. unfold teardown_counts.
  counters. fold (surfaces_released d1) (surfaces_released d2)
    (configs_destroyed d1) (configs_destroyed d2)
    (contexts_destroyed d1) (contexts_destroyed d2).
  now rewrite H1, H2, H3, H4, H5, H6.
Qed.

Lemma teardown_counts_nil : teardown_counts [] [] [] [].
Proof. now repeat split. Qed.

Lemma teardown_counts_quiet d :
  filter is_teardown_call d = [] -> teardown_counts d [] [] [].
Proof. apply no_teardown_counters. Qed.

Lemma adds_ret {A} (R : list Event -> A -> Prop) a : R [] a -> adds R (ret a).
Proof. intros H tr. exists []. simpl. now rewrite app_nil_r. Qed.

Lemma adds_bind {A B} (R1 : list Event -> A -> Prop)
    (R2 : A -> list Event -> B -> Prop) (m : M A) (k : A -> M B) :
  adds R1 m -> (forall a, adds (R2 a) (k a)) ->
  adds (fun d b => exists d1 d2 a, d = d1 ++ d2 /\ R1 d1 a /\ R2 a d2 b)
    (bind m k).
Proof.
  intros Hm Hk tr. unfold bind.
  destruct (Hm tr) as [d1 [E1 H1]].
  destruct (m tr) as [a tr1]. simpl in E1, H1. subst tr1.
  destruct (Hk a (tr ++ d1)) as [d2 [E2 H2]].
  exists (d1 ++ d2). rewrite E2, app_assoc. split; [ reflexivity | ].
  now exists d1, d2, a.
Qed.

Lemma adds_weaken {A} (R R' : list Event -> A -> Prop) (m : M A) :
  adds R m -> (forall d a, R d a -> R' d a) -> adds R' m.
Proof.
  intros H HR tr. destruct (H tr) as [d [E Hd]]. exists d. split; auto.
Qed.

Lemma adds_quiet {A} p (m : M A) :
  quiet p m -> adds (fun d _ => filter p d = []) m.
Proof. intros H tr. destruct (H tr) as [d [E F]]. now exists d. Qed.

Lemma adds_conj {A} (R R' : list Event -> A -> Prop) (m : M A) :
  adds R m -> adds R' m -> adds (fun d a => R d a /\ R' d a) m.
Proof.
  intros H H' tr. destruct (H tr) as [d [E Hd]].
  destruct (H' tr) as [d' [E' Hd']].
  rewrite E in E'. apply app_inv_head in E'. subst d'.
  now exists d.
Qed.

Lemma adds_returns {A} (P : A -> Prop) (m : M A) :
  quiet (fun _ => false) m -> returns P m -> adds (fun _ a => P a) m.
Proof.
  intros Hq H tr. destruct (Hq tr) as [d [E _]]. exists d. split; auto.
Qed.

(** What the two teardown functions release. *)
Lemma context_destroy_surfaces_teardown env context :
  adds (fun d c =>
          c = set_surfaces_pool (set_surfaces context None) None /\
          teardown_counts d (slots_surfaces (array_of context)) [] [] /\
          filter is_build_call d = [])
    (context_destroy_surfaces env context).
Proof.
  intros tr.
  exists ([EvOverlayReset (gst_vaapi_context_overlay_reset env tr)] ++
          release_events context).
  split; [ apply context_destroy_surfaces_trace | ].
  split; [ apply context_destroy_surfaces_result | ].
  split.
  - destruct (release_events_counters context) as [H1 [H2 H3]].
    unfold teardown_counts. counters. now repeat split.
  - destruct (context_destroy_surfaces_no_build env context tr) as [d [E F]].
    rewrite context_destroy_surfaces_trace in E.
    apply app_inv_head in E. now subst d.
Qed.

Lemma context_destroy_teardown env context :
  adds (fun d c =>
          c = set_va_config (set_object_id context VA_INVALID_ID)
                VA_INVALID_ID /\
          teardown_counts d [] (valid_ids [va_config context])
            (valid_ids [object_id context]) /\
          filter is_build_call d = [])
    (context_destroy env context).
Proof.
  intros tr. destruct (context_destroy_trace env context tr) as [s1 [s2 Ht]].
  eexists. split; [ exact Ht | ].
  split; [ apply context_destroy_result | ].
  split.
  - destruct (destroy_step_counters (object_id context) s1)
      as [H1 [_ [_ [H4 [H5 _]]]]].
    destruct (destroy_step_counters (va_config context) s2)
      as [_ [H2 [H3 [_ [_ H6]]]]].
    unfold teardown_counts. counters.
    fold (surfaces_released
            (destroy_step_events (object_id context) s1 EvVaDestroyContext
               MsgDestroyContextFailed)).
    fold (surfaces_released
            (destroy_step_events (va_config context) s2 EvVaDestroyConfig
               MsgDestroyConfigFailed)).
    fold (configs_destroyed
            (destroy_step_events (object_id context) s1 EvVaDestroyContext
               MsgDestroyContextFailed)).
    fold (configs_destroyed
            (destroy_step_events (va_config context) s2 EvVaDestroyConfig
               MsgDestroyConfigFailed)).
    fold (contexts_destroyed
            (destroy_step_events (object_id context) s1 EvVaDestroyContext
               MsgDestroyContextFailed)).
    fold (contexts_destroyed
            (destroy_step_events (va_config context) s2 EvVaDestroyConfig
               MsgDestroyConfigFailed)).
    rewrite H1, H2, H3, H4, H5, H6. simpl. rewrite app_nil_r. now repeat split.
  - destruct (context_destroy_no_build env context tr) as [d [E F]].
    rewrite Ht in E. apply app_inv_head in E. now subst d.
Qed.

Lemma reset_rebuild_teardown env (size_changed config_changed : bool)
    context :
  adds (fun d _ =>
          teardown_counts d
            (if size_changed then slots_surfaces (array_of context) else [])
            (if config_changed then valid_ids [va_config context] else [])
            (if config_changed then valid_ids [object_id context] else []))
    (reset_rebuild env size_changed config_changed context).
Proof.
  unfold reset_rebuild.
  eapply adds_weaken.
  - eapply adds_bind
      with (R1 := fun d c1 =>
                    va_config c1 = va_config context /\
                    object_id c1 = object_id context /\
                    teardown_counts d
                      (if size_changed
                       then slots_surfaces (array_of context) else [])
                      [] [])
           (R2 := fun c1 d _ =>
                    teardown_counts d []
                      (if config_changed then valid_ids [va_config c1] else [])
                      (if config_changed then valid_ids [object_id c1] else [])).
    + destruct size_changed.
      * eapply adds_weaken; [ apply context_destroy_surfaces_teardown | ].
        intros d c1 [-> [H _]].
        split; [ reflexivity | split; [ reflexivity | exact H ] ].
      * apply adds_ret.
        split; [ reflexivity | split; [ reflexivity | ] ].
        apply teardown_counts_nil.
    + intros c1. eapply adds_weaken.
      * eapply adds_bind
          with (R1 := fun d _ =>
                        teardown_counts d []
                          (if config_changed
                           then valid_ids [va_config c1] else [])
                          (if config_changed
                           then valid_ids [object_id c1] else []))
               (R2 := fun _ d _ => filter is_teardown_call d = []).
        -- destruct config_changed.
           ++ eapply adds_weaken; [ apply context_destroy_teardown | ].
              now intros d c2 [_ [H _]].
           ++ apply adds_ret. apply teardown_counts_nil.
        -- intros c2. apply adds_quiet.
           destruct size_changed, config_changed; quiet_auto;
             first [ apply context_create_surfaces_no_teardown
                   | apply context_create_no_teardown ].
      * intros d r [d1 [d2 [c2 [-> [H1 H2]]]]]. cbv beta.
        apply teardown_counts_quiet in H2.
        pose proof (teardown_counts_app _ _ _ _ _ _ _ _ H1 H2) as H.
        now rewrite !app_nil_r in H.
  - intros d r [d1 [d2 [c1 [-> [[Hc [Hi H1]] H2]]]]]. cbv beta in H2.
    rewrite Hc, Hi in H2.
    pose proof (teardown_counts_app _ _ _ _ _ _ _ _ H1 H2) as H.
    now rewrite !app_nil_r in H.
Qed.

(** X7.  A reset releases what it replaces, once, and nothing else.
    What it adds to the log releases the surfaces of the session's array
    when the size changes and no surface otherwise, and destroys the
    session's context and configuration (those that are valid) when the
    configuration changes and none otherwise, whether the rebuild
    succeeds or not. *)
Theorem gst_vaapi_context_reset_releases_what_it_replaces env context new_cip
    tr :
  exists delta,
    snd (gst_vaapi_context_reset env context new_cip tr) = tr ++ delta /\
    surfaces_released delta =
      (if reset_size_changed (info context) new_cip
       then slots_surfaces (array_of context) else []) /\
    configs_destroyed delta =
      (if reset_config_changed env (info context) new_cip
       then valid_ids [va_config context] else []) /\
    contexts_destroyed delta =
      (if reset_config_changed env (info context) new_cip
       then valid_ids [object_id context] else []).
Proof.
  rewrite reset_decompose.
  destruct (reset_rebuild_teardown env
              (reset_size_changed (info context) new_cip)
              (reset_config_changed env (info context) new_cip)
              (set_info context (reset_descriptor env (info context) new_cip))
              tr) as [d [E H]].
  exists d. split; [ exact E | exact H ].
Qed.

Lemma context_create_accounts env context tr :
  driver_stores_no_config_on_failure env ->
  exists delta,
    snd (context_create env context tr) = tr ++ delta /\
    array_of (fst (fst (context_create env context tr))) =
      array_of context ++ map Some (surfaces_allocated delta) /\
    filter is_teardown_call delta = [] /\
    (configs_created delta = [] /\
     (va_config (fst (fst (context_create env context tr))) =
        va_config context \/
      va_config (fst (fst (context_create env context tr))) =
        VA_INVALID_ID) \/
     configs_created delta =
       [va_config (fst (fst (context_create env context tr)))]) /\
    (if snd (fst (context_create env context tr))
     then contexts_created delta =
            [object_id (fst (fst (context_create env context tr)))]
     else contexts_created delta = [] /\
          object_id (fst (fst (context_create env context tr))) =
            object_id context).
Proof.
  intros Hdrv. destruct (surfaces context) as [arr|] eqn:Hs.
  - destruct (context_create_accounts_with_surfaces env context arr tr Hdrv Hs)
      as [d [E [Ha [Hal [Ht [Hc Hx]]]]]].
    exists d. unfold array_of. rewrite Ha, Hs, Hal. simpl.
    rewrite app_nil_r. now repeat split.
  - rewrite context_create_without_surfaces by assumption.
    destruct (context_create_surfaces_accounts env context tr)
      as [d1 [rest [E1 [Harr _]]]].
    pose proof (context_create_surfaces_result env context tr)
      as [[Hid [_ [_ [_ Hcfg]]]] [Hsome _]].
    destruct (context_create_surfaces_no_teardown env context tr)
      as [d1' [E1' Ht1]].
    destruct (context_create_surfaces_quiet env context tr)
      as [d1'' [E1'' Hh1]].
    rewrite E1 in E1', E1''. apply app_inv_head in E1', E1''. subst d1' d1''.
    destruct (no_hardware_created d1 Hh1) as [Hcc Hxc].
    destruct (context_create_surfaces env context tr) as [[c1 ok] tr1].
    simpl in *. subst tr1. destruct ok.
    + destruct (surfaces c1) as [arr|] eqn:E; [ | now elim Hsome ].
      destruct (context_create_accounts_with_surfaces env c1 arr (tr ++ d1)
                  Hdrv E)
        as [d2 [E2 [Ha [Hal [Ht2 [Hc Hx]]]]]].
      exists (d1 ++ d2). rewrite E2, app_assoc.
      split; [ reflexivity | ].
      unfold array_of in *. rewrite Ha. rewrite E in Harr.
      counters. fold (surfaces_allocated d1) (surfaces_allocated d2)
        (configs_created d1) (configs_created d2)
        (contexts_created d1) (contexts_created d2).
      rewrite Hal, Hcc, Hxc, filter_app, Ht1, Ht2, app_nil_r. simpl.
      rewrite <- Hcfg, <- Hid. now repeat split.
    + exists d1. simpl. now repeat split; auto.
Qed.

Lemma gst_vaapi_context_finalize_teardown env context :
  adds (fun d _ =>
          teardown_counts d (slots_surfaces (array_of context))
            (valid_ids [va_config context]) (valid_ids [object_id context]) /\
          filter is_build_call d = [])
    (gst_vaapi_context_finalize env context).
Proof.
  unfold gst_vaapi_context_finalize.
  eapply adds_weaken.
  - eapply adds_bind; [ apply context_destroy_teardown | ].
    intros c1. eapply adds_bind; [ apply context_destroy_surfaces_teardown | ].
    intros c2. apply adds_quiet with (p := fun e => is_teardown_call e
                                                || is_build_call e).
    quiet_auto.
  - intros d r [d1 [d2 [c1 [-> [[-> [H1 B1]] [d3 [d4 [c2 [-> [[_ [H3 B3]] H4]]]]]]]]]].
    assert (filter is_teardown_call d4 = [] /\ filter is_build_call d4 = [])
      as [T4 B4].
    { split; (apply filter_nil_weaken
                with (p := fun e => is_teardown_call e || is_build_call e);
              [ intros e He; rewrite He; auto using orb_true_r | exact H4 ]). }
    split.
    + apply teardown_counts_quiet in T4.
      pose proof (teardown_counts_app _ _ _ _ _ _ _ _ H3 T4) as H34.
      pose proof (teardown_counts_app _ _ _ _ _ _ _ _ H1 H34) as H.
      now rewrite !app_nil_r in H.
    + now rewrite !filter_app, B1, B3, B4.
Qed.

Lemma valid_ids_invalid : valid_ids [VA_INVALID_ID] = [].
Proof. reflexivity. Qed.

(** X8.  A session releases what it acquired, on a driver whose
    failed [vaCreateConfig] leaves no valid id behind.  Take the log
    from a call of [gst_vaapi_context_new] to its end when it returns
    NULL, and to the end of the finalization of the session when it
    returns one.  The surfaces released are the surfaces allocated, in
    the same order; the configurations and contexts destroyed are the
    valid ones that were created.  The assumption on the driver is
    needed: [vaCreateConfig] writes into the session itself, so an id
    left by a failed call is destroyed by the finalization (see
    [finalize_destroys_what_a_failed_call_left]). *)
Theorem session_releases_what_it_acquired env cip tr :
  driver_stores_no_config_on_failure env ->
  exists delta,
    match fst (gst_vaapi_context_new env cip tr) with
    | Some context =>
        snd (gst_vaapi_context_finalize env context
               (snd (gst_vaapi_context_new env cip tr)))
    | None => snd (gst_vaapi_context_new env cip tr)
    end = tr ++ delta /\
    surfaces_released delta = surfaces_allocated delta /\
    configs_destroyed delta = valid_ids (configs_created delta) /\
    contexts_destroyed delta = valid_ids (contexts_created delta).
Proof.
  intros Hdrv.
  destruct (Z_le_gt_dec (width cip) 0) as [Hw|Hw];
    [ | destruct (Z_le_gt_dec (height cip) 0) as [Hh|Hh];
        [ | destruct (Z.eq_dec (profile cip) 0) as [Hp|Hp];
            [ | destruct (Z.eq_dec (entrypoint cip) 0) as [He|He] ] ] ].
  1-4: destruct (new_rejects_invalid_descriptor env cip tr)
         as [expr ->]; [ tauto | ];
       eexists; split; [ reflexivity | now repeat split ].
  rewrite gst_vaapi_context_new_unfold by (assumption || lia).
  destruct (gst_vaapi_object_new env tr).
  2: { eexists. split; [ reflexivity | now repeat split ]. }
  cbv zeta.
  set (c0 := mkContext _ _ _ _ _ _ _). set (tr0 := (tr ++ _) ++ _).
  destruct (context_create_accounts env c0 tr0 Hdrv)
    as [d1 [E1 [Ha [Ht [Hc Hx]]]]].
  destruct (no_teardown_counters d1 Ht) as [Hr1 [Hcd1 Hxd1]].
  destruct (context_create env c0 tr0) as [[c1 ok] tr1]. simpl in *.
  destruct (gst_vaapi_context_finalize_teardown env c1 tr1)
    as [d2 [E2 [[Hr2 [Hcd2 Hxd2]] Hb2]]].
  destruct (no_build_counters d2 Hb2) as [Hal2 [_ [Hcc2 Hxc2]]].
  assert (Hfinal :
    exists tail,
      (if ok then snd (gst_vaapi_context_finalize env c1 tr1)
       else snd (gst_vaapi_object_unref_context env c1 tr1)) =
      tr1 ++ d2 ++ tail /\
      tail = (if ok then [] else [EvObjectFree])).
  { destruct ok.
    - exists []. now rewrite app_nil_r.
    - exists [EvObjectFree]. unfold gst_vaapi_object_unref_context.
      rewrite snd_bind, E2. unfold emit. simpl. now rewrite app_assoc. }
  destruct Hfinal as [tail [Ef Htail]].
  exists ([EvObjectNew true; EvOverlayInit] ++ d1 ++ d2 ++ tail).
  split.
  - destruct ok; simpl in *; rewrite Ef; subst tr1 tr0;
      now rewrite <- !app_assoc.
  - assert (Hslots : slots_surfaces (array_of c1) = surfaces_allocated d1).
    { rewrite Ha. unfold c0, array_of. simpl. apply slots_surfaces_map_Some. }
    assert (Htl : surfaces_released tail = [] /\ surfaces_allocated tail = [] /\
                  configs_destroyed tail = [] /\ configs_created tail = [] /\
                  contexts_destroyed tail = [] /\ contexts_created tail = []).
    { subst tail. destruct ok; now repeat split. }
    destruct Htl as [T1 [T2 [T3 [T4 [T5 T6]]]]].
    counters.
    fold (surfaces_released d1) (surfaces_released d2) (surfaces_released tail)
      (surfaces_allocated d1) (surfaces_allocated d2) (surfaces_allocated tail)
      (configs_destroyed d1) (configs_destroyed d2) (configs_destroyed tail)
      (configs_created d1) (configs_created d2) (configs_created tail)
      (contexts_destroyed d1) (contexts_destroyed d2) (contexts_destroyed tail)
      (contexts_created d1) (contexts_created d2) (contexts_created tail).
    rewrite Hr1, Hr2, Hcd1, Hcd2, Hxd1, Hxd2, Hal2, Hcc2, Hxc2,
      T1, T2, T3, T4, T5, T6, Hslots, !app_nil_r. simpl.
    split; [ reflexivity | ].
    split.
    + destruct Hc as [[-> [Hv|Hv]] | ->]; [ | | reflexivity ];
        rewrite Hv; reflexivity.
    + destruct ok.
      * now rewrite Hx.
      * destruct Hx as [-> Hv]. rewrite Hv. reflexivity.
Qed.

Lemma sample_env_config_fails_stores_no_id :
  driver_stores_no_config_on_failure (sample_env_config_fails None).
Proof. intros tr vp ve attribs id _ H. discriminate H. Defined.

Lemma session_releases_what_it_acquired_witness :
  driver_stores_no_config_on_failure (sample_env_config_fails None) /\
  exists delta,
    match fst (gst_vaapi_context_new (sample_env_config_fails None)
                 sample_encode_cip []) with
    | Some context =>
        snd (gst_vaapi_context_finalize (sample_env_config_fails None) context
               (snd (gst_vaapi_context_new (sample_env_config_fails None)
                       sample_encode_cip [])))
    | None =>
        snd (gst_vaapi_context_new (sample_env_config_fails None)
               sample_encode_cip [])
    end = [] ++ delta /\
    surfaces_released delta = surfaces_allocated delta /\
    configs_destroyed delta = valid_ids (configs_created delta) /\
    contexts_destroyed delta = valid_ids (contexts_created delta).
Proof.
  split.
  - apply sample_env_config_fails_stores_no_id.
  - apply (session_releases_what_it_acquired (sample_env_config_fails None)
             sample_encode_cip []).
    apply sample_env_config_fails_stores_no_id.
Defined.

(** Without the assumption the property fails.  On a driver whose
    failed [vaCreateConfig] has stored an id, [gst_vaapi_context_new]
    returns NULL after a teardown that destroys a configuration that was
    never created: six surfaces are allocated and released, no
    configuration is created, and [vaDestroyConfig] is called on the id
    the failed call left. *)
Example finalize_destroys_what_a_failed_call_left :
  let r := gst_vaapi_context_new (sample_env_config_fails (Some 0x02000000))
             sample_encode_cip [] in
  fst r = None /\
  List.length (surfaces_allocated (snd r)) = 6%nat /\
  surfaces_released (snd r) = surfaces_allocated (snd r) /\
  configs_created (snd r) = [] /\
  configs_destroyed (snd r) = [0x02000000] /\
  contexts_created (snd r) = [] /\
  contexts_destroyed (snd r) = [].
Proof. now vm_compute. Qed.

(** ** Growth of the surface set *)

(** X9.  On a session that has an array, a successful
    [context_create_surfaces] tops the set up: the slots it found stay
    where they were and [num_surfaces - len] new surfaces follow them
    (none when the array is already that long), the new surfaces are
    appended to the free buffers of the pool, and the capacity of the
    pool is [num_surfaces]. *)
Theorem context_create_surfaces_tops_up env context arr tr :
  surfaces context = Some arr ->
  snd (fst (context_create_surfaces env context tr)) = true ->
  exists new,
    List.length new =
      Z.to_nat (num_surfaces (info context) - g_ptr_array_len arr) /\
    surfaces (fst (fst (context_create_surfaces env context tr))) =
      Some (arr ++ map Some new) /\
    surfaces_pool (fst (fst (context_create_surfaces env context tr))) =
      Some (mkPool (num_surfaces (info context)) (free_of context ++ new)).
Proof.
  intros Hs. unfold context_create_surfaces, num_surfaces, free_of.
  unfold_calls. unfold bind, ask, emit, ret.
  destruct (gst_vaapi_context_overlay_reset env tr); simpl;
    [ | discriminate ].
  destruct context as [d i vp ve vc arr0 pool]; simpl in *. subst arr0.
  destruct pool as [pool|]; simpl.
  - run_loop HL. simpl in *. intros Hok.
    destruct (HL Hok) as [new [Hlen [-> ->]]]. now exists new.
  - destruct (gst_vaapi_surface_pool_new env _ _ _); simpl;
      [ | discriminate ].
    run_loop HL. simpl in *. intros Hok.
    destruct (HL Hok) as [new [Hlen [-> ->]]]. now exists new.
Qed.

Lemma context_create_surfaces_tops_up_witness :
  (surfaces (mkContext VA_INVALID_ID sample_decode_other_cip 0 0 VA_INVALID_ID
               (Some (map Some sample_surfaces))
               (Some (mkPool 6 sample_surfaces))) =
     Some (map Some sample_surfaces) /\
   snd (fst (context_create_surfaces sample_env
               (mkContext VA_INVALID_ID sample_decode_other_cip 0 0
                  VA_INVALID_ID (Some (map Some sample_surfaces))
                  (Some (mkPool 6 sample_surfaces))) [])) = true) /\
  exists new,
    List.length new =
      Z.to_nat (num_surfaces sample_decode_other_cip -
                g_ptr_array_len (map Some sample_surfaces)) /\
    surfaces (fst (fst (context_create_surfaces sample_env
                          (mkContext VA_INVALID_ID sample_decode_other_cip 0 0
                             VA_INVALID_ID (Some (map Some sample_surfaces))
                             (Some (mkPool 6 sample_surfaces))) []))) =
      Some (map Some sample_surfaces ++ map Some new) /\
    surfaces_pool (fst (fst (context_create_surfaces sample_env
                               (mkContext VA_INVALID_ID sample_decode_other_cip
                                  0 0 VA_INVALID_ID
                                  (Some (map Some sample_surfaces))
                                  (Some (mkPool 6 sample_surfaces))) []))) =
      Some (mkPool (num_surfaces sample_decode_other_cip)
              (sample_surfaces ++ new)).
Proof.
  split.
  - split; reflexivity.
  - apply (context_create_surfaces_tops_up sample_env
             (mkContext VA_INVALID_ID sample_decode_other_cip 0 0 VA_INVALID_ID
                (Some (map Some sample_surfaces))
                (Some (mkPool 6 sample_surfaces)))
             (map Some sample_surfaces) []); reflexivity.
Defined.

(** ** What [context_create] checks before it asks the driver *)

Lemma context_create_refuses_with_surfaces env context arr tr :
  surfaces context = Some arr ->
  profile (info context) = 0 \/ entrypoint (info context) = 0 \/
  surface_ids arr = None ->
  snd (fst (context_create env context tr)) = false /\
  same_handles context (fst (fst (context_create env context tr))) /\
  exists delta,
    snd (context_create env context tr) = tr ++ delta /\
    hardware_calls delta = [].
Proof.
  intros Hs H. unfold same_handles. run_create Hs.
  repeat case_step; status_ok;
    try (exfalso; destruct H as [H|[H|H]]; congruence);
    (split; [ reflexivity | ]; split; [ now repeat split | ];
     eexists; split; [ rewrite <- ?app_assoc; reflexivity | reflexivity ]).
Qed.

(** X10.  [context_create] turns down a descriptor without profile or
    entry point, and an array with a NULL slot, before it asks the
    driver anything: it returns FALSE, what it adds to the log holds no
    driver call, and the context id, the configuration id and the cached
    VA codes are the ones it found. *)
Theorem context_create_refuses_before_driver env context tr :
  profile (info context) = 0 \/ entrypoint (info context) = 0 \/
  (exists arr, surfaces context = Some arr /\ surface_ids arr = None) ->
  snd (fst (context_create env context tr)) = false /\
  same_handles context (fst (fst (context_create env context tr))) /\
  exists delta,
    snd (context_create env context tr) = tr ++ delta /\
    hardware_calls delta = [].
Proof.
  intros H. destruct (surfaces context) as [arr|] eqn:Hs.
  - apply context_create_refuses_with_surfaces with arr; [ exact Hs | ].
    destruct H as [H|[H|[arr' [Ha Hn]]]]; auto.
    right. right. congruence.
  - rewrite context_create_without_surfaces by assumption.
    assert (Hd : profile (info context) = 0 \/ entrypoint (info context) = 0).
    { destruct H as [H|[H|[arr' [Ha Hn]]]]; auto. discriminate. }
    pose proof (context_create_surfaces_result env context tr)
      as [Hsame [Hsome _]].
    destruct (context_create_surfaces_quiet env context tr) as [d1 [E1 Hq1]].
    destruct (context_create_surfaces env context tr) as [[c1 ok] tr1].
    simpl in *. subst tr1. destruct ok.
    + destruct (surfaces c1) as [arr|] eqn:E; [ | now elim Hsome ].
      destruct Hsame as [Hid [Hinfo [Hvp [Hve Hvc]]]].
      destruct (context_create_refuses_with_surfaces env c1 arr (tr ++ d1) E)
        as [Hok [[Hid' [Hinfo' [Hvp' [Hve' Hvc']]]] [d2 [E2 Hq2]]]].
      { rewrite Hinfo. destruct Hd; auto. }
      split; [ exact Hok | ]. split.
      * unfold same_handles. repeat split; congruence.
      * exists (d1 ++ d2). rewrite E2, app_assoc. split; [ reflexivity | ].
        unfold hardware_calls in *. now rewrite filter_app, Hq1, Hq2.
    + split; [ reflexivity | ]. split; [ exact Hsame | ].
      now exists d1.
Qed.

Lemma context_create_refuses_before_driver_witness :
  (profile (info (sample_session (mkInfo 0 1 0 320 240 2))) = 0 \/
   entrypoint (info (sample_session (mkInfo 0 1 0 320 240 2))) = 0 \/
   (exists arr,
      surfaces (sample_session (mkInfo 0 1 0 320 240 2)) = Some arr /\
      surface_ids arr = None)) /\
  snd (fst (context_create sample_env
              (sample_session (mkInfo 0 1 0 320 240 2)) [])) = false /\
  same_handles (sample_session (mkInfo 0 1 0 320 240 2))
    (fst (fst (context_create sample_env
                 (sample_session (mkInfo 0 1 0 320 240 2)) []))) /\
  exists delta,
    snd (context_create sample_env
           (sample_session (mkInfo 0 1 0 320 240 2)) []) = [] ++ delta /\
    hardware_calls delta = [].
Proof.
  split.
  - left. reflexivity.
  - apply (context_create_refuses_before_driver sample_env
             (sample_session (mkInfo 0 1 0 320 240 2)) []).
    left. reflexivity.
Defined.

(** ** The size things are built at *)

Lemma adds_bind_dep {A B} (R1 : list Event -> A -> Prop)
    (R2 : A -> list Event -> B -> Prop) (m : M A) (k : A -> M B) :
  adds R1 m -> (forall a, (exists d, R1 d a) -> adds (R2 a) (k a)) ->
  adds (fun d b => exists d1 d2 a, d = d1 ++ d2 /\ R1 d1 a /\ R2 a d2 b)
    (bind m k).
Proof.
  intros Hm Hk tr. unfold bind.
  destruct (Hm tr) as [d1 [E1 H1]].
  destruct (m tr) as [a tr1]. simpl in E1, H1. subst tr1.
  destruct (Hk a (ex_intro _ d1 H1) (tr ++ d1)) as [d2 [E2 H2]].
  exists (d1 ++ d2). rewrite E2, app_assoc. split; [ reflexivity | ].
  now exists d1, d2, a.
Qed.

Lemma wrong_size_is_build_call w h e :
  wrong_size w h e = true -> is_build_call e = true.
Proof. now destruct e. Qed.

Ltac size_step :=
  lazymatch goal with
  | |- quiet _ (ret _) => apply quiet_ret
  | |- quiet _ (bind _ _) => apply quiet_bind; [ | intros ]
  | |- quiet _ (emit _) => apply quiet_emit; reflexivity
  | |- quiet _ (ask _ _) =>
      apply quiet_ask; intros; simpl; rewrite ?Z.eqb_refl; reflexivity
  | |- quiet _ (when _ _) => apply quiet_when
  | |- quiet _ (match ?x with _ => _ end) => destruct x
  | |- quiet _ (let _ := _ in _) => cbv zeta
  end.

Lemma create_surfaces_loop_sizes env n w h : forall arr pool,
  quiet (wrong_size w h) (create_surfaces_loop env n w h arr pool).
Proof.
  induction n as [|n IH]; intros arr pool; simpl; unfold_calls;
    repeat size_step. apply IH.
Qed.

Lemma context_create_surfaces_sizes env context :
  quiet (wrong_size (width (info context)) (height (info context)))
    (context_create_surfaces env context).
Proof.
  unfold context_create_surfaces. unfold_calls. repeat size_step.
  apply create_surfaces_loop_sizes.
Qed.

Lemma context_create_sizes_with_surfaces env context arr :
  surfaces context = Some arr ->
  quiet (wrong_size (width (info context)) (height (info context)))
    (context_create env context).
Proof.
  intros Hs. unfold context_create. rewrite Hs, bind_ret_l. simpl.
  rewrite Hs. unfold_calls. repeat size_step.
Qed.

Lemma context_create_sizes env context :
  quiet (wrong_size (width (info context)) (height (info context)))
    (context_create env context).
Proof.
  destruct (surfaces context) as [arr|] eqn:Hs.
  - now apply context_create_sizes_with_surfaces with arr.
  - intros tr. rewrite context_create_without_surfaces by assumption.
    pose proof (context_create_surfaces_result env context tr)
      as [[_ [Hinfo _]] [Hsome _]].
    destruct (context_create_surfaces_sizes env context tr) as [d1 [E1 Hq1]].
    destruct (context_create_surfaces env context tr) as [[c1 ok] tr1].
    simpl in *. subst tr1. destruct ok; [ | now exists d1 ].
    destruct (surfaces c1) as [arr|] eqn:E; [ | now elim Hsome ].
    destruct (context_create_sizes_with_surfaces env c1 arr E (tr ++ d1))
      as [d2 [E2 Hq2]].
    rewrite Hinfo in Hq2.
    exists (d1 ++ d2). rewrite E2, app_assoc. split; [ reflexivity | ].
    now rewrite filter_app, Hq1, Hq2.
Qed.

Lemma reset_rebuild_sizes env (size_changed config_changed : bool) context :
  adds (fun d _ =>
          filter (wrong_size (width (info context)) (height (info context))) d
          = [])
    (reset_rebuild env size_changed config_changed context).
Proof.
  set (W := wrong_size (width (info context)) (height (info context))).
  assert (Hbuild : forall A (m : M A), quiet is_build_call m -> quiet W m).
  { intros A m. apply quiet_weaken. apply wrong_size_is_build_call. }
  assert (Hgrow : forall A (m : M A), quiet W m -> quiet (fun _ => false) m).
  { intros A m. apply quiet_weaken. discriminate. }
  unfold reset_rebuild.
  eapply adds_weaken.
  - eapply adds_bind_dep
      with (R1 := fun d c1 => info c1 = info context /\ filter W d = [])
           (R2 := fun _ d _ => filter W d = []).
    + destruct size_changed; [ | now apply adds_ret ].
      apply adds_conj.
      * apply adds_returns.
        -- apply Hgrow, Hbuild, context_destroy_surfaces_no_build.
        -- eapply returns_weaken; [ apply context_destroy_surfaces_result | ].
           now intros c1 ->.
      * apply adds_quiet, Hbuild, context_destroy_surfaces_no_build.
    + intros c1 [_ [H1 _]]. eapply adds_weaken.
      * eapply adds_bind_dep
          with (R1 := fun d c2 => info c2 = info context /\ filter W d = [])
               (R2 := fun _ d _ => filter W d = []).
        -- destruct config_changed; [ | now apply adds_ret ].
           apply adds_conj.
           ++ apply adds_returns.
              ** apply Hgrow, Hbuild, context_destroy_no_build.
              ** eapply returns_weaken; [ apply context_destroy_result | ].
                 now intros c2 ->.
           ++ apply adds_quiet, Hbuild, context_destroy_no_build.
        -- intros c2 [_ [H2 _]]. eapply adds_weaken.
           ++ eapply adds_bind_dep
                with (R1 := fun d r =>
                              info (fst r) = info context /\ filter W d = [])
                     (R2 := fun _ d _ => filter W d = []).
              ** destruct size_changed; [ | now apply adds_ret ].
                 assert (Hq : quiet W (context_create_surfaces env c2)).
                 { unfold W. rewrite <- H2.
                   apply context_create_surfaces_sizes. }
                 apply adds_conj.
                 --- apply adds_returns; [ now apply Hgrow | ].
                     eapply returns_weaken;
                       [ apply context_create_surfaces_result | ].
                     intros r [[_ [Hi _]] _]. congruence.
                 --- now apply adds_quiet.
              ** intros [c3 ok] [_ [H3 _]]. simpl in H3. apply adds_quiet.
                 destruct ok; simpl; [ | apply quiet_ret ].
                 apply quiet_bind.
                 --- destruct config_changed; [ | apply quiet_ret ].
                     unfold W. rewrite <- H3. apply context_create_sizes.
                 --- intros [c4 ok4]. destruct ok4; apply quiet_ret.
           ++ intros d r [d1 [d2 [a [-> [[_ Ha] Hb]]]]]. cbv beta.
              now rewrite filter_app, Ha, Hb.
      * intros d r [d1 [d2 [a [-> [[_ Ha] Hb]]]]]. cbv beta.
        now rewrite filter_app, Ha, Hb.
  - intros d r [d1 [d2 [a [-> [[_ Ha] Hb]]]]]. cbv beta.
    now rewrite filter_app, Ha, Hb.
Qed.

(** X11.  What a reset builds, it builds at the new size: every surface
    and pool it allocates and the context it creates are given the width
    and the height of the new descriptor.  The same holds for
    [gst_vaapi_context_new] and its descriptor. *)
Theorem built_at_descriptor_size env :
  (forall context new_cip tr,
     exists delta,
       snd (gst_vaapi_context_reset env context new_cip tr) = tr ++ delta /\
       filter (wrong_size (width new_cip) (height new_cip)) delta = []) /\
  (forall cip tr,
     exists delta,
       snd (gst_vaapi_context_new env cip tr) = tr ++ delta /\
       filter (wrong_size (width cip) (height cip)) delta = []).
Proof.
  split.
  - intros context new_cip tr. rewrite reset_decompose.
    apply (reset_rebuild_sizes env
             (reset_size_changed (info context) new_cip)
             (reset_config_changed env (info context) new_cip)
             (set_info context (reset_descriptor env (info context) new_cip))
             tr).
  - intros cip tr.
    destruct (Z_le_gt_dec (width cip) 0) as [Hw|Hw];
      [ | destruct (Z_le_gt_dec (height cip) 0) as [Hh|Hh];
          [ | destruct (Z.eq_dec (profile cip) 0) as [Hp|Hp];
              [ | destruct (Z.eq_dec (entrypoint cip) 0) as [He|He] ] ] ].
    1-4: destruct (new_rejects_invalid_descriptor env cip tr)
           as [expr ->]; [ tauto | ];
         eexists; split; [ reflexivity | reflexivity ].
    rewrite gst_vaapi_context_new_unfold by (assumption || lia).
    destruct (gst_vaapi_object_new env tr).
    2: { eexists. split; reflexivity. }
    cbv zeta.
    set (c0 := mkContext _ _ _ _ _ _ _). set (tr0 := (tr ++ _) ++ _).
    destruct (context_create_sizes env c0 tr0) as [d1 [E1 Hq1]].
    destruct (context_create env c0 tr0) as [[c1 ok] tr1]. simpl in *.
    subst tr1 tr0. destruct ok.
    + exists ([EvObjectNew true; EvOverlayInit] ++ d1).
      rewrite <- !app_assoc. split; [ reflexivity | ].
      now rewrite filter_app, Hq1.
    + destruct (gst_vaapi_context_finalize_teardown env c1
                  (((tr ++ [EvObjectNew true]) ++ [EvOverlayInit]) ++ d1))
        as [d2 [E2 [_ Hb2]]].
      exists ([EvObjectNew true; EvOverlayInit] ++ d1 ++ d2 ++ [EvObjectFree]).
      unfold gst_vaapi_object_unref_context. rewrite snd_bind, E2.
      unfold emit. simpl. rewrite <- !app_assoc. split; [ reflexivity | ].
      simpl. rewrite !filter_app, Hq1. simpl.
      apply filter_nil_weaken
        with (q := wrong_size (width cip) (height cip)) in Hb2;
        [ now rewrite Hb2 | apply wrong_size_is_build_call ].
Qed.

(** ** Entry points other than slice-encode *)

Lemma create_surfaces_loop_only_surface_calls env n w h : forall arr pool,
  quiet (fun e => negb (is_surface_call e))
    (create_surfaces_loop env n w h arr pool).
Proof.
  induction n as [|n IH]; intros arr pool; simpl; quiet_auto. apply IH.
Qed.

Lemma context_create_surfaces_only_surface_calls env context :
  quiet (fun e => negb (is_surface_call e))
    (context_create_surfaces env context).
Proof.
  unfold context_create_surfaces. quiet_auto.
  apply create_surfaces_loop_only_surface_calls.
Qed.

Lemma context_create_decoder_with_surfaces env context arr tr :
  surfaces context = Some arr ->
  entrypoint (info context) <> GST_VAAPI_ENTRYPOINT_SLICE_ENCODE env ->
  let cip := info context in
  let vp := gst_vaapi_profile_get_va_profile env (profile cip) in
  let ve := gst_vaapi_entrypoint_get_va_entrypoint env (entrypoint cip) in
  let r := context_create env context tr in
  let query v st :=
    EvVaGetConfigAttributes vp ve [mkAttrib VAConfigAttribRTFormat v] st in
  let config v st id :=
    EvVaCreateConfig vp ve [mkAttrib VAConfigAttribRTFormat v] st id in
  filter is_error_log (snd r) = filter is_error_log tr /\
  (hardware_calls (snd r) = hardware_calls tr \/
   (exists v st, hardware_calls (snd r) = hardware_calls tr ++ [query v st]) \/
   (exists v st id,
      hardware_calls (snd r) =
      hardware_calls tr ++ [query v VA_STATUS_SUCCESS; config v st id]) \/
   (exists v id ids st id',
      hardware_calls (snd r) =
      hardware_calls tr ++
      [query v VA_STATUS_SUCCESS; config v VA_STATUS_SUCCESS id;
       EvVaCreateContext id (width cip) (height cip) VA_PROGRESSIVE ids
         st id'])).
Proof.
  intros Hs Hdec. cbv zeta. apply Z.eqb_neq in Hdec. run_create Hs.
  rewrite ?Hdec. simpl.
  repeat case_step; status_ok;
    (split; [ rewrite ?filter_app; simpl; now rewrite ?app_nil_r | ]);
    first [ left; now filters
          | right; left; do 2 eexists; trace_eq
          | right; right; left; do 3 eexists; trace_eq
          | right; right; right; do 5 eexists; trace_eq ].
Qed.

(** X12.  For an entry point other than slice-encode, rate control
    plays no part in [context_create].  It logs no error; and its driver
    calls are, in order and as far as it gets, the query of the format
    attribute alone, the creation of a configuration from that one
    attribute with the value the driver returned, and the creation of
    the context on that configuration. *)
Theorem context_create_decoder env context tr :
  entrypoint (info context) <> GST_VAAPI_ENTRYPOINT_SLICE_ENCODE env ->
  let cip := info context in
  let vp := gst_vaapi_profile_get_va_profile env (profile cip) in
  let ve := gst_vaapi_entrypoint_get_va_entrypoint env (entrypoint cip) in
  let r := context_create env context tr in
  let query v st :=
    EvVaGetConfigAttributes vp ve [mkAttrib VAConfigAttribRTFormat v] st in
  let config v st id :=
    EvVaCreateConfig vp ve [mkAttrib VAConfigAttribRTFormat v] st id in
  filter is_error_log (snd r) = filter is_error_log tr /\
  (hardware_calls (snd r) = hardware_calls tr \/
   (exists v st, hardware_calls (snd r) = hardware_calls tr ++ [query v st]) \/
   (exists v st id,
      hardware_calls (snd r) =
      hardware_calls tr ++ [query v VA_STATUS_SUCCESS; config v st id]) \/
   (exists v id ids st id',
      hardware_calls (snd r) =
      hardware_calls tr ++
      [query v VA_STATUS_SUCCESS; config v VA_STATUS_SUCCESS id;
       EvVaCreateContext id (width cip) (height cip) VA_PROGRESSIVE ids
         st id'])).
Proof.
  intros Hdec. cbv zeta. destruct (surfaces context) as [arr|] eqn:Hs.
  - now apply context_create_decoder_with_surfaces with arr.
  - rewrite context_create_without_surfaces by assumption.
    pose proof (context_create_surfaces_result env context tr)
      as [[_ [Hinfo _]] [Hsome _]].
    pose proof (context_create_surfaces_only_surface_calls env context) as Hq.
    assert (Herr : forall e,
               is_error_log e = true -> negb (is_surface_call e) = true)
      by (intros e; now destruct e).
    pose proof (quiet_filter is_error_log _ tr
                  (quiet_weaken _ is_error_log _ Herr Hq)) as He.
    pose proof (quiet_filter is_hardware_call _ tr
                  (context_create_surfaces_quiet env context)) as Hh.
    destruct (context_create_surfaces env context tr) as [[c1 ok] tr1].
    simpl in *. destruct ok; [ | split; [ exact He | left; exact Hh ] ].
    destruct (surfaces c1) as [arr|] eqn:E; [ | now elim Hsome ].
    rewrite <- Hinfo in Hdec.
    pose proof (context_create_decoder_with_surfaces env c1 arr tr1 E Hdec)
      as H.
    cbv zeta in H. unfold hardware_calls in *.
    now rewrite Hinfo, He, Hh in H.
Qed.

Lemma context_create_decoder_witness :
  entrypoint (info (sample_session sample_decode_cip)) <>
    GST_VAAPI_ENTRYPOINT_SLICE_ENCODE sample_env /\
  (let cip := info (sample_session sample_decode_cip) in
   let vp := gst_vaapi_profile_get_va_profile sample_env (profile cip) in
   let ve :=
     gst_vaapi_entrypoint_get_va_entrypoint sample_env (entrypoint cip) in
   let r := context_create sample_env (sample_session sample_decode_cip) [] in
   let query v st :=
     EvVaGetConfigAttributes vp ve [mkAttrib VAConfigAttribRTFormat v] st in
   let config v st id :=
     EvVaCreateConfig vp ve [mkAttrib VAConfigAttribRTFormat v] st id in
   filter is_error_log (snd r) = filter is_error_log [] /\
   (hardware_calls (snd r) = hardware_calls [] \/
    (exists v st, hardware_calls (snd r) = hardware_calls [] ++ [query v st]) \/
    (exists v st id,
       hardware_calls (snd r) =
       hardware_calls [] ++ [query v VA_STATUS_SUCCESS; config v st id]) \/
    (exists v id ids st id',
       hardware_calls (snd r) =
       hardware_calls [] ++
       [query v VA_STATUS_SUCCESS; config v VA_STATUS_SUCCESS id;
        EvVaCreateContext id (width cip) (height cip) VA_PROGRESSIVE ids
          st id']))).
Proof.
  split.
  - discriminate.
  - apply (context_create_decoder sample_env
             (sample_session sample_decode_cip) []).
    discriminate.
Defined.

(** ** Attribute queries *)

Lemma context_create_caches_codes_with_surfaces env context arr tr :
  surfaces context = Some arr ->
  snd (fst (context_create env context tr)) = true ->
  va_profile (fst (fst (context_create env context tr))) =
    gst_vaapi_profile_get_va_profile env (profile (info context)) /\
  va_entrypoint (fst (fst (context_create env context tr))) =
    gst_vaapi_entrypoint_get_va_entrypoint env (entrypoint (info context)).
Proof.
  intros Hs. run_create Hs.
  repeat case_step; try discriminate; now split.
Qed.

Lemma context_create_caches_codes env context tr :
  snd (fst (context_create env context tr)) = true ->
  va_profile (fst (fst (context_create env context tr))) =
    gst_vaapi_profile_get_va_profile env (profile (info context)) /\
  va_entrypoint (fst (fst (context_create env context tr))) =
    gst_vaapi_entrypoint_get_va_entrypoint env (entrypoint (info context)).
Proof.
  destruct (surfaces context) as [arr|] eqn:Hs.
  - now apply context_create_caches_codes_with_surfaces with arr.
  - rewrite context_create_without_surfaces by assumption.
    pose proof (context_create_surfaces_result env context tr)
      as [[_ [Hinfo _]] [Hsome _]].
    destruct (context_create_surfaces env context tr) as [[c1 ok] tr1].
    simpl in *. destruct ok; [ | discriminate ].
    destruct (surfaces c1) as [arr|] eqn:E; [ | now elim Hsome ].
    rewrite <- Hinfo.
    now apply context_create_caches_codes_with_surfaces with arr.
Qed.

(** X13.  After a successful [context_create], an attribute query on
    the session is one locked [vaGetConfigAttributes] call for the VA
    codes of the profile and entry point of the descriptor.  It returns
    TRUE exactly when the driver reports success, and a value is stored
    only then, and only through a pointer that is not NULL. *)
Theorem gst_vaapi_context_get_attribute_after_create env context tr type
    out_value_ptr tr' :
  snd (fst (context_create env context tr)) = true ->
  let vp := gst_vaapi_profile_get_va_profile env (profile (info context)) in
  let ve :=
    gst_vaapi_entrypoint_get_va_entrypoint env (entrypoint (info context)) in
  let answer := vaGetConfigAttributes env (tr' ++ [EvDisplayLock]) vp ve [type] in
  let value := to_guint (snd answer type) in
  let ok := vaapi_check_status (fst answer) in
  gst_vaapi_context_get_attribute env
    (Some (fst (fst (context_create env context tr)))) type out_value_ptr tr' =
  ((ok, if ok && out_value_ptr then Some value else None),
   tr' ++ [EvDisplayLock;
           EvVaGetConfigAttributes vp ve [mkAttrib type value] (fst answer);
           EvDisplayUnlock]).
Proof.
  intros Hok. destruct (context_create_caches_codes env context tr Hok)
    as [Hvp Hve].
  cbv zeta. unfold gst_vaapi_context_get_attribute. rewrite Hvp, Hve.
  unfold_calls. unfold bind, ask, emit, ret. simpl.
  destruct (vaGetConfigAttributes env _ _ _ _) as [st value]. simpl.
  unfold attrib_value_at. simpl.
  destruct (vaapi_check_status st); simpl; rewrite <- !app_assoc; simpl;
    [ destruct out_value_ptr | ]; reflexivity.
Qed.

Lemma gst_vaapi_context_get_attribute_after_create_witness :
  snd (fst (context_create sample_env (sample_session sample_encode_cip) []))
    = true /\
  (let vp := gst_vaapi_profile_get_va_profile sample_env
               (profile (info (sample_session sample_encode_cip))) in
   let ve := gst_vaapi_entrypoint_get_va_entrypoint sample_env
               (entrypoint (info (sample_session sample_encode_cip))) in
   let answer :=
     vaGetConfigAttributes sample_env ([] ++ [EvDisplayLock]) vp ve
       [VAConfigAttribRateControl] in
   let value := to_guint (snd answer VAConfigAttribRateControl) in
   let ok := vaapi_check_status (fst answer) in
   gst_vaapi_context_get_attribute sample_env
     (Some (fst (fst (context_create sample_env
                        (sample_session sample_encode_cip) []))))
     VAConfigAttribRateControl true [] =
   ((ok, if ok && true then Some value else None),
    [] ++ [EvDisplayLock;
           EvVaGetConfigAttributes vp ve
             [mkAttrib VAConfigAttribRateControl value] (fst answer);
           EvDisplayUnlock])).
Proof.
  split.
  - reflexivity.
  - apply (gst_vaapi_context_get_attribute_after_create sample_env
             (sample_session sample_encode_cip) [] VAConfigAttribRateControl
             true []).
    reflexivity.
Defined.

(** ** Consistency of the surface set *)

Lemma surface_ids_filled arr :
  Forall (fun slot => slot <> None) arr -> surface_ids arr <> None.
Proof.
  induction 1 as [|[s|] arr Hs _ IH]; simpl; try discriminate.
  - destruct (surface_ids arr); [ discriminate | contradiction ].
  - contradiction.
Qed.

Lemma context_create_surfaces_keeps_pool_rule env context tr :
  (surfaces context = None -> surfaces_pool context = None) ->
  surfaces (fst (fst (context_create_surfaces env context tr))) = None ->
  surfaces_pool (fst (fst (context_create_surfaces env context tr))) = None.
Proof.
  unfold context_create_surfaces. unfold_calls. unfold bind, ask, emit, ret.
  destruct (gst_vaapi_context_overlay_reset env tr); simpl; [ | auto ].
  destruct context as [d i vp ve vc [arr|] pool]; simpl.
  - intros _. destruct pool as [pool|]; simpl.
    + run_loop HL. discriminate.
    + destruct (gst_vaapi_surface_pool_new env _ _ _); simpl;
        [ run_loop HL | ]; discriminate.
  - intros Hp. rewrite (Hp eq_refl).
    destruct (g_ptr_array_new_full env _ _); simpl; [ | auto ].
    destruct (gst_vaapi_surface_pool_new env _ _ _); simpl;
      [ run_loop HL | ]; discriminate.
Qed.

Lemma context_create_surfaces_consistent env context tr :
  surface_set_consistent context ->
  surface_set_consistent (fst (fst (context_create_surfaces env context tr))).
Proof.
  intros [Hfill [Hpool Hincl]].
  destruct (context_create_surfaces_accounts env context tr)
    as [d [rest [_ [Harr [Hfree [Hal _]]]]]].
  split; [ | split ].
  - rewrite Harr. apply Forall_app. split; [ exact Hfill | ].
    apply Forall_forall. intros slot Hin. apply in_map_iff in Hin.
    destruct Hin as [s [<- _]]. discriminate.
  - now apply context_create_surfaces_keeps_pool_rule.
  - rewrite Harr, Hfree, slots_surfaces_app, slots_surfaces_map_Some, Hal.
    intros s Hin. apply in_app_or in Hin. apply in_or_app.
    destruct Hin as [Hin|Hin]; [ left; now apply Hincl | ].
    right. apply in_or_app. now left.
Qed.

Lemma context_create_consistent env context tr :
  surface_set_consistent context ->
  surface_set_consistent (fst (fst (context_create env context tr))).
Proof.
  intros H. destruct (surfaces context) as [arr|] eqn:Hs.
  - destruct (context_create_frame env context arr tr Hs) as [_ [[Ha Hb] _]].
    destruct H as [Hfill [Hpool Hincl]].
    unfold surface_set_consistent, array_of, free_of in *.
    rewrite Ha, Hb. repeat split; try assumption; try congruence.
  - rewrite context_create_without_surfaces by assumption.
    pose proof (context_create_surfaces_consistent env context tr H) as H1.
    pose proof (context_create_surfaces_result env context tr)
      as [_ [Hsome _]].
    destruct (context_create_surfaces env context tr) as [[c1 ok] tr1].
    simpl in *. destruct ok; [ | exact H1 ].
    destruct (surfaces c1) as [arr|] eqn:E; [ | now elim Hsome ].
    destruct (context_create_frame env c1 arr tr1 E) as [_ [[Ha Hb] _]].
    destruct H1 as [Hfill [Hpool Hincl]].
    unfold surface_set_consistent, array_of, free_of in *.
    rewrite Ha, Hb, E in *. repeat split; try assumption; try discriminate.
Qed.

Lemma reset_rebuild_consistent env (size_changed config_changed : bool)
    context :
  surface_set_consistent context ->
  returns (fun r => surface_set_consistent (fst r))
    (reset_rebuild env size_changed config_changed context).
Proof.
  intros H. unfold reset_rebuild.
  apply returns_bind with (P := surface_set_consistent).
  { destruct size_changed; [ | now apply returns_ret ].
    eapply returns_weaken; [ apply context_destroy_surfaces_result | ].
    intros c ->. repeat split; simpl; auto. unfold free_of. simpl.
    intros s []. }
  intros c1 H1.
  apply returns_bind with (P := surface_set_consistent).
  { destruct config_changed; [ | now apply returns_ret ].
    eapply returns_weaken; [ apply context_destroy_result | ].
    now intros c ->. }
  intros c2 H2.
  apply returns_bind with (P := fun r => surface_set_consistent (fst r)).
  { destruct size_changed; [ | now apply returns_ret ].
    intros t. now apply context_create_surfaces_consistent. }
  intros [c3 ok3] H3. simpl in H3.
  destruct ok3; simpl; [ | now apply returns_ret ].
  apply returns_bind with (P := fun r => surface_set_consistent (fst r)).
  { destruct config_changed; [ | now apply returns_ret ].
    intros t. now apply context_create_consistent. }
  intros [c4 ok4] H4. simpl in H4.
  destruct ok4; now apply returns_ret.
Qed.

(** X14.  The surface set of a session stays consistent.  A session
    returned by [gst_vaapi_context_new] has no NULL slot in its array, no
    pool without an array, and only surfaces of the array among the free
    buffers of its pool; a reset keeps all three, whether it succeeds or
    fails.  So the id snapshot of [context_create] finds no NULL slot on
    such a session. *)
Theorem surface_set_stays_consistent env :
  (forall cip tr context,
     fst (gst_vaapi_context_new env cip tr) = Some context ->
     surface_set_consistent context) /\
  (forall context new_cip tr,
     surface_set_consistent context ->
     surface_set_consistent
       (fst (fst (gst_vaapi_context_reset env context new_cip tr)))) /\
  (forall context,
     surface_set_consistent context -> surface_ids (array_of context) <> None).
Proof.
  split; [ | split ].
  - intros cip tr context.
    destruct (Z_le_gt_dec (width cip) 0) as [Hw|Hw];
      [ | destruct (Z_le_gt_dec (height cip) 0) as [Hh|Hh];
          [ | destruct (Z.eq_dec (profile cip) 0) as [Hp|Hp];
              [ | destruct (Z.eq_dec (entrypoint cip) 0) as [He|He] ] ] ].
    1-4: destruct (new_rejects_invalid_descriptor env cip tr)
           as [expr ->]; [ tauto | discriminate ].
    rewrite gst_vaapi_context_new_unfold by (assumption || lia).
    destruct (gst_vaapi_object_new env tr); [ | discriminate ].
    cbv zeta.
    set (c0 := mkContext _ _ _ _ _ _ _). set (tr0 := (tr ++ _) ++ _).
    assert (H0 : surface_set_consistent c0).
    { repeat split; simpl; auto. intros s []. }
    pose proof (context_create_consistent env c0 tr0 H0) as H1.
    destruct (context_create env c0 tr0) as [[c1 ok] tr1]. simpl in *.
    destruct ok; [ | discriminate ]. now intros [= <-].
  - intros context new_cip tr H. rewrite reset_decompose.
    apply reset_rebuild_consistent.
    destruct H as [Hfill [Hpool Hincl]]. now repeat split.
  - intros context [Hfill _]. now apply surface_ids_filled.
Qed.

(** ** Order and outcome of a reset *)

Lemma reset_rebuild_order env (size_changed config_changed : bool) context :
  adds (fun d _ =>
          exists teardown rebuild,
            d = teardown ++ rebuild /\
            filter is_build_call teardown = [] /\
            filter is_teardown_call rebuild = [])
    (reset_rebuild env size_changed config_changed context).
Proof.
  unfold reset_rebuild.
  eapply adds_weaken.
  - eapply adds_bind
      with (R1 := fun d _ => filter is_build_call d = [])
           (R2 := fun _ d _ =>
                    exists d2 d3, d = d2 ++ d3 /\
                      filter is_build_call d2 = [] /\
                      filter is_teardown_call d3 = []).
    + apply adds_quiet. destruct size_changed;
        [ apply context_destroy_surfaces_no_build | apply quiet_ret ].
    + intros c1. eapply adds_weaken.
      * eapply adds_bind
          with (R1 := fun d _ => filter is_build_call d = [])
               (R2 := fun _ d _ => filter is_teardown_call d = []).
        -- apply adds_quiet. destruct config_changed;
             [ apply context_destroy_no_build | apply quiet_ret ].
        -- intros c2. apply adds_quiet.
           destruct size_changed, config_changed; quiet_auto;
             first [ apply context_create_surfaces_no_teardown
                   | apply context_create_no_teardown ].
      * intros d r [d2 [d3 [a [-> [H2 H3]]]]]. now exists d2, d3.
  - intros d r [d1 [d23 [a [-> [H1 [d2 [d3 [-> [H2 H3]]]]]]]]].
    exists (d1 ++ d2), d3. rewrite app_assoc. split; [ reflexivity | ].
    split; [ now rewrite filter_app, H1, H2 | exact H3 ].
Qed.

(** X15.  A reset tears down before it builds: what it adds to the log
    splits in two parts, the first without any allocation of a surface,
    registration in the pool or creation of a configuration or context,
    the second without any release of a surface or destruction of a
    configuration or context. *)
Theorem gst_vaapi_context_reset_tears_down_first env context new_cip tr :
  exists teardown rebuild,
    snd (gst_vaapi_context_reset env context new_cip tr) =
      tr ++ teardown ++ rebuild /\
    filter is_build_call teardown = [] /\
    filter is_teardown_call rebuild = [].
Proof.
  rewrite reset_decompose.
  destruct (reset_rebuild_order env
              (reset_size_changed (info context) new_cip)
              (reset_config_changed env (info context) new_cip)
              (set_info context (reset_descriptor env (info context) new_cip))
              tr) as [d [E [t [b [-> [Ht Hb]]]]]].
  now exists t, b.
Qed.

Lemma context_create_valid_id env context tr :
  driver_returns_valid_context_ids env ->
  snd (fst (context_create env context tr)) = true ->
  object_id (fst (fst (context_create env context tr))) <> VA_INVALID_ID.
Proof.
  intros Hdrv. destruct (surfaces context) as [arr|] eqn:Hs.
  - now apply context_create_valid_id_with_surfaces with arr.
  - rewrite context_create_without_surfaces by assumption.
    pose proof (context_create_surfaces_result env context tr)
      as [_ [Hsome _]].
    destruct (context_create_surfaces env context tr) as [[c1 ok] tr1].
    simpl in *. destruct ok; [ | discriminate ].
    destruct (surfaces c1) as [arr|] eqn:E; [ | now elim Hsome ].
    now apply context_create_valid_id_with_surfaces with arr.
Qed.

Lemma fresh_surface_set_kept c c' :
  info c' = info c -> same_surfaces c c' ->
  fresh_surface_set c -> fresh_surface_set c'.
Proof.
  intros Hi [Ha Hb] [new [Hlen [Hs Hp]]]. exists new.
  rewrite Hi, Ha, Hb. now repeat split.
Qed.

Lemma reset_rebuild_success env (size_changed config_changed : bool) context :
  driver_returns_valid_context_ids env ->
  returns (fun r =>
             snd r = true ->
             (size_changed = true -> fresh_surface_set (fst r)) /\
             (config_changed = true -> object_id (fst r) <> VA_INVALID_ID))
    (reset_rebuild env size_changed config_changed context).
Proof.
  intros Hdrv. unfold reset_rebuild.
  apply returns_bind
    with (P := fun c => size_changed = true ->
                        surfaces c = None /\ surfaces_pool c = None).
  { destruct size_changed; [ | apply returns_ret; discriminate ].
    eapply returns_weaken; [ apply context_destroy_surfaces_result | ].
    now intros c ->. }
  intros c1 H1.
  apply returns_bind
    with (P := fun c => size_changed = true ->
                        surfaces c = None /\ surfaces_pool c = None).
  { destruct config_changed; [ | now apply returns_ret ].
    eapply returns_weaken; [ apply context_destroy_result | ].
    now intros c ->. }
  intros c2 H2.
  apply returns_bind
    with (P := fun r => snd r = true -> size_changed = true ->
                        fresh_surface_set (fst r)).
  { destruct size_changed; [ | apply returns_ret; discriminate ].
    destruct (H2 eq_refl) as [Hs Hp].
    eapply returns_weaken; [ apply context_create_surfaces_result | ].
    intros r [_ [_ Hf]] Hok _. now apply Hf. }
  intros [c3 ok3] H3. simpl in H3.
  destruct ok3; simpl; [ | apply returns_ret; discriminate ].
  apply returns_bind
    with (P := fun r => snd r = true ->
                 (size_changed = true -> fresh_surface_set (fst r)) /\
                 (config_changed = true -> object_id (fst r) <> VA_INVALID_ID)).
  { destruct config_changed.
    - intros t Hok. split.
      + intros Hsz. specialize (H3 eq_refl Hsz).
        destruct H3 as [new [Hlen [Hs Hp]]].
        destruct (context_create_frame env c3 _ t Hs) as [Hi [Hss _]].
        apply fresh_surface_set_kept with c3; auto.
        now exists new.
      + intros _. now apply context_create_valid_id.
    - apply returns_ret. intros _. split; [ now auto | discriminate ]. }
  intros [c4 ok4] H4. simpl in H4.
  destruct ok4; apply returns_ret; [ exact H4 | discriminate ].
Qed.

(** X16.  What a successful reset leaves.  When it changed the size,
    the session holds a full new surface set: [num_surfaces] buffers,
    all in the array and free in the pool.  When it changed the
    configuration, on a driver whose successful [vaCreateContext] stores
    a valid id, the context id is not the invalid sentinel. *)
Theorem gst_vaapi_context_reset_success env context new_cip tr :
  driver_returns_valid_context_ids env ->
  snd (fst (gst_vaapi_context_reset env context new_cip tr)) = true ->
  (reset_size_changed (info context) new_cip = true ->
   fresh_surface_set
     (fst (fst (gst_vaapi_context_reset env context new_cip tr)))) /\
  (reset_config_changed env (info context) new_cip = true ->
   object_id (fst (fst (gst_vaapi_context_reset env context new_cip tr))) <>
   VA_INVALID_ID).
Proof.
  intros Hdrv. rewrite reset_decompose.
  now apply reset_rebuild_success.
Qed.

Lemma gst_vaapi_context_reset_success_witness :
  (driver_returns_valid_context_ids sample_env /\
   snd (fst (gst_vaapi_context_reset sample_env
               (sample_session sample_encode_cip)
               sample_encode_resized_vbr_cip [])) = true) /\
  (reset_size_changed (info (sample_session sample_encode_cip))
     sample_encode_resized_vbr_cip = true ->
   fresh_surface_set
     (fst (fst (gst_vaapi_context_reset sample_env
                  (sample_session sample_encode_cip)
                  sample_encode_resized_vbr_cip [])))) /\
  (reset_config_changed sample_env (info (sample_session sample_encode_cip))
     sample_encode_resized_vbr_cip = true ->
   object_id (fst (fst (gst_vaapi_context_reset sample_env
                          (sample_session sample_encode_cip)
                          sample_encode_resized_vbr_cip []))) <>
   VA_INVALID_ID).
Proof.
  split.
  - split; [ apply sample_env_valid_context_ids | reflexivity ].
  - apply (gst_vaapi_context_reset_success sample_env
             (sample_session sample_encode_cip)
             sample_encode_resized_vbr_cip []);
      [ apply sample_env_valid_context_ids | reflexivity ].
Defined.

(** ** The counters at work *)

(** A session for two reference frames, created and finalized on the
    sample driver: six surfaces allocated and released, one
    configuration and one context created and destroyed, everything at
    320 by 240. *)
Example session_lifecycle_sample :
  exists context tr,
    gst_vaapi_context_new sample_env sample_encode_cip [] = (Some context, tr) /\
    let log := snd (gst_vaapi_context_finalize sample_env context tr) in
    List.length (surfaces_allocated log) = 6%nat /\
    surfaces_released log = surfaces_allocated log /\
    configs_created log = [0x02000000] /\
    configs_destroyed log = [0x02000000] /\
    contexts_created log = [0x03000000] /\
    contexts_destroyed log = [0x03000000] /\
    filter (wrong_size 320 240) log = [] /\
    List.length (filter (wrong_size 640 480) log) = 8%nat /\
    lock_run Unlocked log = Some Unlocked.
Proof. do 2 eexists. split; [ vm_compute; reflexivity | now vm_compute ]. Qed.
